(** * RAGFlow administration scripts: a shallow embedding

    Two Python scripts are modelled here:

    - [sec_dev/user_admin_operation.py], class [UserAdmin]: password
      encryption, registration and token issuance over HTTP, and user
      inspection and deletion through the ORM;
    - [sec_dev/sdk_client.py], class [RAGFlowSDKClient]: construction and
      the paged methods of the wrapper around the SDK handle.

    Python [str] values are lists of Unicode code points, [bytes] values
    are lists of [byte].  Effects (HTTP, database, terminal, files,
    randomness) are threaded through an explicit world state; a Python
    exception is an explicit [Raise] outcome, and [try]/[except] is a
    combinator on computations.

    What the scripts call but do not define is part of the world: the
    HTTP server is a function from the requests seen so far and the
    request at hand to its answer; the database is four tables of rows,
    with faults that can be injected into any statement; the SDK is a
    function from the calls seen so far and the call at hand to its
    answer.  The libraries whose behaviour matters to the properties are
    written out: UTF-8, base64, and RSA encryption with PKCS#1 v1.5
    padding (RFC 8017). *)

From Stdlib Require Import String Ascii List NArith ZArith Bool Lia Zify.
From Stdlib Require Strings.Byte.
Import ListNotations.

Open Scope N_scope.
Set Warnings "-register-all".

(* ================================================================= *)
(** * Part I: definitions *)
(* ================================================================= *)

(** ** Text and bytes *)

Definition byte : Set := Init.Byte.byte.

(** A Python [str]: the sequence of its code points. *)
Definition pystr := list N.

(** A Python [bytes] object. *)
Definition pybytes := list byte.

Definition byte_of_N (n : N) : byte :=
  match Byte.of_N (n mod 256) with
  | Some b => b
  | None => Byte.x00
  end.

Fixpoint pystr_eqb (a b : pystr) : bool :=
  match a, b with
  | [], [] => true
  | x :: a', y :: b' => (x =? y) && pystr_eqb a' b'
  | _, _ => false
  end.

Module Utf8.

(** [c.encode('utf-8')] for one code point, strict error handler: lone
    surrogates (and values outside the code space, which no Python [str]
    holds) are refused. *)
Definition encode_char (c : N) : option pybytes :=
  if c <? 0x80 then Some [byte_of_N c]
  else if c <? 0x800 then
    Some [byte_of_N (0xC0 + c / 64); byte_of_N (0x80 + c mod 64)]
  else if (0xD800 <=? c) && (c <=? 0xDFFF) then None
  else if c <? 0x10000 then
    Some [byte_of_N (0xE0 + c / 4096);
          byte_of_N (0x80 + (c / 64) mod 64);
          byte_of_N (0x80 + c mod 64)]
  else if c <? 0x110000 then
    Some [byte_of_N (0xF0 + c / 262144);
          byte_of_N (0x80 + (c / 4096) mod 64);
          byte_of_N (0x80 + (c / 64) mod 64);
          byte_of_N (0x80 + c mod 64)]
  else None.

(** [s.encode('utf-8')]; [None] stands for [UnicodeEncodeError]. *)
Fixpoint encode (s : pystr) : option pybytes :=
  match s with
  | [] => Some []
  | c :: s' =>
      match encode_char c, encode s' with
      | Some bs, Some rest => Some (bs ++ rest)
      | _, _ => None
      end
  end.

Definition is_cont (n : N) : bool := (0x80 <=? n) && (n <? 0xC0).

(** [b.decode('utf-8')], strict: overlong forms, surrogates, stray
    continuation bytes and truncated sequences are refused ([None] stands
    for [UnicodeDecodeError]). *)
Fixpoint decode (bs : pybytes) : option pystr :=
  match bs with
  | [] => Some []
  | b0 :: r0 =>
      let n0 := Byte.to_N b0 in
      if n0 <? 0x80 then option_map (cons n0) (decode r0)
      else if n0 <? 0xC2 then None
      else if n0 <? 0xE0 then
        match r0 with
        | b1 :: r1 =>
            let n1 := Byte.to_N b1 in
            if is_cont n1
            then option_map (cons ((n0 - 0xC0) * 64 + (n1 - 0x80))) (decode r1)
            else None
        | _ => None
        end
      else if n0 <? 0xF0 then
        match r0 with
        | b1 :: b2 :: r2 =>
            let n1 := Byte.to_N b1 in
            let n2 := Byte.to_N b2 in
            let c := (n0 - 0xE0) * 4096 + (n1 - 0x80) * 64 + (n2 - 0x80) in
            if is_cont n1 && is_cont n2 && (0x800 <=? c)
               && negb ((0xD800 <=? c) && (c <=? 0xDFFF))
            then option_map (cons c) (decode r2)
            else None
        | _ => None
        end
      else if n0 <? 0xF5 then
        match r0 with
        | b1 :: b2 :: b3 :: r3 =>
            let n1 := Byte.to_N b1 in
            let n2 := Byte.to_N b2 in
            let n3 := Byte.to_N b3 in
            let c := (n0 - 0xF0) * 262144 + (n1 - 0x80) * 4096
                     + (n2 - 0x80) * 64 + (n3 - 0x80) in
            if is_cont n1 && is_cont n2 && is_cont n3
               && (0x10000 <=? c) && (c <? 0x110000)
            then option_map (cons c) (decode r3)
            else None
        | _ => None
        end
      else None
  end.

End Utf8.

(** A string literal of the source, as the [str] it denotes: the literal's
    bytes are read as UTF-8. *)
Definition u (s : string) : pystr :=
  match Utf8.decode (list_byte_of_string s) with
  | Some cs => cs
  | None => []
  end.

Module base64.

(** The standard alphabet, index to character. *)
Definition char_of (v : N) : byte :=
  if v <? 26 then byte_of_N (65 + v)
  else if v <? 52 then byte_of_N (97 + (v - 26))
  else if v <? 62 then byte_of_N (48 + (v - 52))
  else if v =? 62 then byte_of_N 43
  else byte_of_N 47.

(** The standard alphabet, character to index. *)
Definition value_of (b : byte) : option N :=
  let n := Byte.to_N b in
  if (65 <=? n) && (n <=? 90) then Some (n - 65)
  else if (97 <=? n) && (n <=? 122) then Some (n - 97 + 26)
  else if (48 <=? n) && (n <=? 57) then Some (n - 48 + 52)
  else if n =? 43 then Some 62
  else if n =? 47 then Some 63
  else None.

Definition pad : byte := byte_of_N 61.

Definition is_pad (b : byte) : bool := Byte.to_N b =? 61.

(** [base64.b64encode]: three bytes become four characters; a tail of one
    or two bytes is padded with [=]. *)
Fixpoint b64encode (bs : pybytes) : pybytes :=
  match bs with
  | [] => []
  | [a] =>
      let x := Byte.to_N a in
      [char_of (x / 4); char_of ((x mod 4) * 16); pad; pad]
  | [a; b] =>
      let x := Byte.to_N a in
      let y := Byte.to_N b in
      [char_of (x / 4); char_of ((x mod 4) * 16 + y / 16);
       char_of ((y mod 16) * 4); pad]
  | a :: b :: c :: rest =>
      let x := Byte.to_N a in
      let y := Byte.to_N b in
      let z := Byte.to_N c in
      char_of (x / 4) :: char_of ((x mod 4) * 16 + y / 16)
        :: char_of ((y mod 16) * 4 + z / 64) :: char_of (z mod 64)
        :: b64encode rest
  end.

(** [base64.b64decode] on canonical input: groups of four characters, with
    padding allowed in the last group only; [None] stands for
    [binascii.Error].  (Python's default mode also skips characters outside
    the alphabet; that leniency is not modelled.) *)
Fixpoint b64decode (cs : pybytes) : option pybytes :=
  match cs with
  | [] => Some []
  | c0 :: c1 :: c2 :: c3 :: rest =>
      match value_of c0, value_of c1 with
      | Some v0, Some v1 =>
          let b0 := byte_of_N (v0 * 4 + v1 / 16) in
          if is_pad c2 then
            if is_pad c3 then
              match rest with [] => Some [b0] | _ => None end
            else None
          else
            match value_of c2 with
            | Some v2 =>
                let b1 := byte_of_N ((v1 mod 16) * 16 + v2 / 4) in
                if is_pad c3 then
                  match rest with [] => Some [b0; b1] | _ => None end
                else
                  match value_of c3 with
                  | Some v3 =>
                      let b2 := byte_of_N ((v2 mod 4) * 64 + v3) in
                      option_map (fun r => b0 :: b1 :: b2 :: r) (b64decode rest)
                  | None => None
                  end
            | None => None
            end
      | _, _ => None
      end
  | _ => None
  end.

End base64.

Module PKCS1_v1_5.

(** An RSA public key: modulus and public exponent. *)
Record PublicKey := { pub_n : N; pub_e : N }.

(** An RSA private key: modulus and private exponent. *)
Record PrivateKey := { priv_n : N; priv_d : N }.

(** [pow(a, e, n)] by repeated squaring. *)
Fixpoint modpow_pos (a : N) (e : positive) (n : N) : N :=
  match e with
  | xH => a mod n
  | xO e' => let r := modpow_pos a e' n in (r * r) mod n
  | xI e' => let r := modpow_pos a e' n in (a * ((r * r) mod n)) mod n
  end.

Definition modpow (a e n : N) : N :=
  match e with
  | N0 => 1 mod n
  | Npos p => modpow_pos a p n
  end.

(** [key.size_in_bytes()]: the length of the modulus in bytes. *)
Definition size_in_bytes (n : N) : nat := N.to_nat ((N.size n + 7) / 8).

Fixpoint le_to_N (bs : pybytes) : N :=
  match bs with
  | [] => 0
  | b :: r => Byte.to_N b + 256 * le_to_N r
  end.

Fixpoint N_to_le (x : N) (k : nat) : pybytes :=
  match k with
  | O => []
  | S k' => byte_of_N x :: N_to_le (x / 256) k'
  end.

(** [bytes_to_long]: big-endian bytes to integer. *)
Definition bytes_to_long (bs : pybytes) : N := le_to_N (rev bs).

(** [long_to_bytes(x, k)] for [x < 256^k]: exactly [k] big-endian bytes. *)
Definition long_to_bytes (x : N) (k : nat) : pybytes := rev (N_to_le x k).

(** One non-zero padding byte from one draw of the random source. *)
Definition nonzero_byte (r : N) : byte := byte_of_N (1 + r mod 255).

(** The padding string: [len] non-zero bytes, and what is left of the
    random source (an exhausted source keeps answering 0). *)
Fixpoint draw_padding (ent : list N) (len : nat) : pybytes * list N :=
  match len with
  | O => ([], ent)
  | S len' =>
      let r := hd 0 ent in
      let (ps, ent') := draw_padding (tl ent) len' in
      (nonzero_byte r :: ps, ent')
  end.

(** [PKCS1_v1_5.new(key).encrypt(message)] (RFC 8017, 7.2.1): a message
    longer than [k - 11] bytes is refused; otherwise
    [EM = 00 02 PS 00 M] is raised to the public exponent.  [None] stands
    for [ValueError]. *)
Definition encrypt (key : PublicKey) (ent : list N) (message : pybytes)
  : option pybytes * list N :=
  let k := size_in_bytes (pub_n key) in
  let mLen := length message in
  if (k <? mLen + 11)%nat then (None, ent)
  else
    let (ps, ent') := draw_padding ent (k - mLen - 3) in
    let em := Byte.x00 :: Byte.x02 :: ps ++ Byte.x00 :: message in
    let em_int := bytes_to_long em in
    if pub_n key <=? em_int then (None, ent')
    else (Some (long_to_bytes (modpow em_int (pub_e key) (pub_n key)) k), ent').

(** The first zero byte splits the padding string from the message. *)
Fixpoint split_at_zero (bs : pybytes) : option (pybytes * pybytes) :=
  match bs with
  | [] => None
  | b :: r =>
      if Byte.to_N b =? 0 then Some ([], r)
      else match split_at_zero r with
           | Some (ps, m) => Some (b :: ps, m)
           | None => None
           end
  end.

(** Modelled from the spec: the server's RSA decryption with the private
    key is not part of these scripts; it is taken to be the inverse
    operation of RFC 8017, 7.2.2: the ciphertext has the length of the
    modulus, is raised to the private exponent, and the result must read
    [00 02 PS 00 M] with at least eight non-zero padding bytes. *)
Definition decrypt (key : PrivateKey) (ct : pybytes) : option pybytes :=
  let k := size_in_bytes (priv_n key) in
  if negb (length ct =? k)%nat then None
  else
    let c := bytes_to_long ct in
    if priv_n key <=? c then None
    else
      match long_to_bytes (modpow c (priv_d key) (priv_n key)) k with
      | b0 :: b1 :: rest =>
          if (Byte.to_N b0 =? 0) && (Byte.to_N b1 =? 2) then
            match split_at_zero rest with
            | Some (ps, m) => if (8 <=? length ps)%nat then Some m else None
            | None => None
            end
          else None
      | _ => None
      end.

(** The private key undoes the public one on every residue. *)
Definition matching (pub : PublicKey) (priv : PrivateKey) : Prop :=
  priv_n priv = pub_n pub /\
  forall m, m < pub_n pub ->
    modpow (modpow m (pub_e pub) (pub_n pub)) (priv_d priv) (pub_n pub) = m.

End PKCS1_v1_5.

(** Modelled from the spec: the server-side inverse of the password
    encoding is not in these scripts.  As the spec words it: base64-decode
    the transported text, RSA-decrypt with the private key, base64-decode
    the result; the bytes obtained are read back as UTF-8 text. *)
Definition server_decrypt (priv : PKCS1_v1_5.PrivateKey) (line : pystr) : option pystr :=
  match Utf8.encode line with
  | None => None
  | Some raw =>
      match base64.b64decode raw with
      | None => None
      | Some ct =>
          match PKCS1_v1_5.decrypt priv ct with
          | None => None
          | Some text =>
              match base64.b64decode text with
              | None => None
              | Some pw => Utf8.decode pw
              end
          end
      end
  end.

(** ASCII bytes, and the text they spell. *)
Definition ascii_bytes (bs : pybytes) : Prop :=
  Forall (fun b => Byte.to_N b < 128) bs.

Definition ascii_text (bs : pybytes) : pystr := map Byte.to_N bs.

(** The encoding of a password as the spec words it: base64-encode the
    UTF-8 bytes of the password, encrypt the resulting text with the
    loaded public key under PKCS#1 v1.5 padding, base64-encode the
    ciphertext.  [None] when a step fails: the password has no UTF-8
    form, no key was loaded, or the text is too long for the key. *)
Definition encryption_procedure (key : option PKCS1_v1_5.PublicKey)
    (ent : list N) (password : pystr) : option pystr :=
  match Utf8.encode password with
  | None => None
  | Some utf8 =>
      let text := base64.b64encode utf8 in
      match key with
      | None => None
      | Some key =>
          match fst (PKCS1_v1_5.encrypt key ent text) with
          | None => None
          | Some ciphertext => Some (ascii_text (base64.b64encode ciphertext))
          end
      end
  end.

(** ** Python values, exceptions, and the effect monad *)

(** The values that travel through the scripts: JSON data and opaque
    library objects.  A float is kept as the decimal literal
    [mantissa * 10 ^ exponent] it was written as; no arithmetic is done on
    it. *)
Inductive pyval :=
| PNone
| PBool (b : bool)
| PInt (z : Z)
| PFloat (mantissa exponent : Z)
| PStr (s : pystr)
| PList (l : list pyval)
| PDict (d : list (pystr * pyval))
| PObj (o : N).

(** Python truthiness, as [if x:] and [not x] use it. *)
Definition truthy (v : pyval) : bool :=
  match v with
  | PNone => false
  | PBool b => b
  | PInt z => negb (z =? 0)%Z
  | PFloat m _ => negb (m =? 0)%Z
  | PStr s => match s with [] => false | _ => true end
  | PList l => match l with [] => false | _ => true end
  | PDict d => match d with [] => false | _ => true end
  | PObj _ => true
  end.

(** [x == 0] for the values above ([False == 0] and [0.0 == 0] hold in
    Python). *)
Definition py_eq_zero (v : pyval) : bool :=
  match v with
  | PInt z => (z =? 0)%Z
  | PFloat m _ => (m =? 0)%Z
  | PBool b => negb b
  | _ => false
  end.

Fixpoint dict_get (d : list (pystr * pyval)) (k : pystr) : option pyval :=
  match d with
  | [] => None
  | (k', v) :: d' => if pystr_eqb k' k then Some v else dict_get d' k
  end.

Inductive exc_class :=
| ValueError | AttributeError | TypeError | KeyError
| UnicodeEncodeError | UnicodeDecodeError
| RequestException | JSONDecodeError
| DatabaseError | EOFError | OSError.

(** A raised exception: all of the classes above derive from
    [Exception], so every [except Exception] clause catches them. *)
Inductive exn := PyExc (cls : exc_class) (msg : string).

Inductive outcome (A : Type) :=
| Ret (a : A)
| Raise (e : exn).
Arguments Ret {A} a.
Arguments Raise {A} e.

(** A computation over a world state [S] that returns or raises. *)
Definition M (S A : Type) : Type := S -> outcome A * S.

Definition ret {S A} (a : A) : M S A := fun s => (Ret a, s).

Definition raise {S A} (e : exn) : M S A := fun s => (Raise e, s).

Definition bind {S A B} (m : M S A) (f : A -> M S B) : M S B :=
  fun s =>
    match m s with
    | (Ret a, s') => f a s'
    | (Raise e, s') => (Raise e, s')
    end.

(** [try: m except Exception as e: h e]. *)
Definition try_except {S A} (m : M S A) (h : exn -> M S A) : M S A :=
  fun s =>
    match m s with
    | (Ret a, s') => (Ret a, s')
    | (Raise e, s') => h e s'
    end.

Declare Scope py_scope.
Delimit Scope py_scope with py.
Notation "x <- m ;; k" := (bind m (fun x => k))
  (at level 61, m at next level, right associativity) : py_scope.
Notation "m ;; k" := (bind m (fun _ => k))
  (at level 61, right associativity) : py_scope.
Open Scope py_scope.

(** A pure step that may fail with a given exception. *)
Definition lift_option {S A} (o : option A) (e : exn) : M S A :=
  match o with
  | Some a => ret a
  | None => raise e
  end.

(** [d.get(k, default)] on a dict. *)
Definition dict_get_or (d : list (pystr * pyval)) (k : pystr) (default : pyval)
  : pyval :=
  match dict_get d k with
  | Some x => x
  | None => default
  end.

(** [v.get(k, default)]: only a dict has the method. *)
Definition py_get {S} (v : pyval) (k : pystr) (default : pyval) : M S pyval :=
  match v with
  | PDict d => ret (dict_get_or d k default)
  | _ => raise (PyExc AttributeError "object has no attribute 'get'")
  end.

(** [v[k]]. *)
Definition py_getitem {S} (v : pyval) (k : pystr) : M S pyval :=
  match v with
  | PDict d => lift_option (dict_get d k) (PyExc KeyError "")
  | _ => raise (PyExc TypeError "object is not subscriptable")
  end.

(** [len(v)]. *)
Definition py_len {S} (v : pyval) : M S nat :=
  match v with
  | PStr s => ret (length s)
  | PList l => ret (length l)
  | PDict d => ret (length d)
  | _ => raise (PyExc TypeError "object has no len()")
  end.

(** [s.encode('utf-8')] and [b.decode('utf-8')] as fallible steps. *)
Definition str_encode {S} (s : pystr) : M S pybytes :=
  lift_option (Utf8.encode s) (PyExc UnicodeEncodeError "surrogates not allowed").

Definition bytes_decode {S} (b : pybytes) : M S pystr :=
  lift_option (Utf8.decode b) (PyExc UnicodeDecodeError "invalid utf-8").

(** Whitespace as [str.strip] sees it ([str.isspace]). *)
Definition is_space (c : N) : bool :=
  ((9 <=? c) && (c <=? 13)) || ((28 <=? c) && (c <=? 32))
  || (c =? 0x85) || (c =? 0xA0) || (c =? 0x1680)
  || ((0x2000 <=? c) && (c <=? 0x200A))
  || (c =? 0x2028) || (c =? 0x2029) || (c =? 0x202F)
  || (c =? 0x205F) || (c =? 0x3000).

Fixpoint lstrip_with (p : N -> bool) (s : pystr) : pystr :=
  match s with
  | [] => []
  | c :: s' => if p c then lstrip_with p s' else s
  end.

Definition rstrip_with (p : N -> bool) (s : pystr) : pystr :=
  rev (lstrip_with p (rev s)).

(** [s.strip()]. *)
Definition strip (s : pystr) : pystr := rstrip_with is_space (lstrip_with is_space s).

(** [s.rstrip('/')]. *)
Definition rstrip_slash (s : pystr) : pystr := rstrip_with (fun c => c =? 47) s.

(** ** The world of the administration tool *)

(** An HTTP request as [requests.Session] sends it. *)
Record Request := {
  rq_method : string;
  rq_url : pystr;
  rq_headers : list (pystr * pystr);
  rq_json : option pyval;
  rq_timeout : option Z
}.

(** An HTTP response: status, headers, and the body as [response.json()]
    reads it ([None]: the body is not JSON). *)
Record Response := {
  rs_status : Z;
  rs_headers : list (pystr * pystr);
  rs_json : option pyval
}.

(** Rows of the four tables the tool touches. *)
Record User := {
  u_id : pystr;
  u_nickname : pyval;
  u_email : pyval;
  u_status : pyval;
  u_is_superuser : pyval;
  u_login_channel : pyval;
  u_last_login_time : pyval;
  u_create_time : pyval;
  u_update_time : pyval
}.

Record Tenant := {
  t_id : pystr;
  t_name : pyval;
  t_llm_id : pyval;
  t_embd_id : pyval
}.

Record UserTenant := {
  ut_id : pystr;
  ut_user_id : pystr;
  ut_tenant_id : pystr;
  ut_role : pyval;
  ut_invited_by : pyval
}.

Record TenantLLM := {
  tl_tenant_id : pystr;
  tl_llm_name : pyval
}.

Record Database := {
  users : list User;
  tenants : list Tenant;
  user_tenants : list UserTenant;
  tenant_llms : list TenantLLM
}.

(** The statements sent to the database. *)
Inductive DbOp :=
| OpSelectUsers
| OpFirstUser (id : pystr)
| OpFirstTenant (id : pystr)
| OpFirstUserTenant (user_id : pystr)
| OpCountTenantLLM (tenant_id : pystr)
| OpExistsUser (id : pystr)
| OpExistsTenant (id : pystr)
| OpDeleteUser (id : pystr)
| OpDeleteTenant (id : pystr)
| OpQueryUserTenant (tenant_id : pystr)
| OpDeleteUserTenant (id : pystr)
| OpDeleteTenantLLM (tenant_id : pystr).

(** One executed statement and whether it went through. *)
Record DbEvent := { ev_op : DbOp; ev_ok : bool }.

Definition is_delete (op : DbOp) : bool :=
  match op with
  | OpDeleteUser _ | OpDeleteTenant _ | OpDeleteUserTenant _
  | OpDeleteTenantLLM _ => true
  | _ => false
  end.

Definition id_is (id : pystr) (x : pystr) : bool := pystr_eqb x id.

(** The effect of a statement that goes through. *)
Definition db_apply (op : DbOp) (d : Database) : Database :=
  match op with
  | OpDeleteUser id =>
      {| users := filter (fun r => negb (id_is id (u_id r))) (users d);
         tenants := tenants d;
         user_tenants := user_tenants d;
         tenant_llms := tenant_llms d |}
  | OpDeleteTenant id =>
      {| users := users d;
         tenants := filter (fun r => negb (id_is id (t_id r))) (tenants d);
         user_tenants := user_tenants d;
         tenant_llms := tenant_llms d |}
  | OpDeleteUserTenant id =>
      {| users := users d;
         tenants := tenants d;
         user_tenants := filter (fun r => negb (id_is id (ut_id r))) (user_tenants d);
         tenant_llms := tenant_llms d |}
  | OpDeleteTenantLLM tid =>
      {| users := users d;
         tenants := tenants d;
         user_tenants := user_tenants d;
         tenant_llms := filter (fun r => negb (id_is tid (tl_tenant_id r))) (tenant_llms d) |}
  | _ => d
  end.

(** Pieces of a printed line: literal text of the source, an interpolated
    value, a value laid out with a width ([{x:<32}]), an exception. *)
Inductive Frag :=
| Lit (s : string)
| Val (v : pyval)
| ValL (v : pyval) (width : nat)
| Err (e : exn).

Definition Line := list Frag.

(** The [UserAdmin] object together with everything it talks to. *)
Record St := {
  (* the object's attributes *)
  self_host : pystr;
  self_headers : list (pystr * pystr);
  self_db_initialized : bool;
  self_public_key : pystr;
  (* RSA.importKey as a function of the key text; the random source *)
  import_key : pystr -> option PKCS1_v1_5.PublicKey;
  entropy : list N;
  (* the server: its answer to a request, given the requests so far
     ([None]: the request fails, e.g. refused or timed out) *)
  net : list Request -> Request -> option Response;
  http_log : list Request;
  (* the terminal *)
  console : list Line;
  stdin : list pystr;
  (* the database, the faults injected into the next statements, and the
     statements executed so far *)
  db : Database;
  db_faults : list bool;
  db_trace : list DbEvent;
  (* the working directory: files by name, and the names that cannot be
     opened for writing *)
  fs : list (pystr * pyval);
  fs_denied : pystr -> bool;
  (* the values [uuid.uuid4()] will return, as text *)
  uuids : list pystr
}.

(** *** State changes

    Each primitive effect changes the world in one of the following ways. *)

(** A line appears on the terminal. *)
Definition put_line (l : Line) (s : St) : St :=
  {| self_host := self_host s; self_headers := self_headers s;
     self_db_initialized := self_db_initialized s;
     self_public_key := self_public_key s; import_key := import_key s;
     entropy := entropy s; net := net s; http_log := http_log s;
     console := console s ++ [l]; stdin := stdin s; db := db s;
     db_faults := db_faults s; db_trace := db_trace s; fs := fs s;
     fs_denied := fs_denied s; uuids := uuids s |}.

(** A line of input is consumed. *)
Definition take_line (s : St) : St :=
  {| self_host := self_host s; self_headers := self_headers s;
     self_db_initialized := self_db_initialized s;
     self_public_key := self_public_key s; import_key := import_key s;
     entropy := entropy s; net := net s; http_log := http_log s;
     console := console s; stdin := tl (stdin s); db := db s;
     db_faults := db_faults s; db_trace := db_trace s; fs := fs s;
     fs_denied := fs_denied s; uuids := uuids s |}.

(** The request the session sends for the given call. *)
Definition mk_request (s : St) (method : string) (url : pystr)
    (json : option pyval) (timeout : option Z) : Request :=
  {| rq_method := method; rq_url := url; rq_headers := self_headers s;
     rq_json := json; rq_timeout := timeout |}.

(** A request is sent. *)
Definition send (method : string) (url : pystr) (json : option pyval)
    (timeout : option Z) (s : St) : St :=
  {| self_host := self_host s; self_headers := self_headers s;
     self_db_initialized := self_db_initialized s;
     self_public_key := self_public_key s; import_key := import_key s;
     entropy := entropy s; net := net s;
     http_log := http_log s ++ [mk_request s method url json timeout];
     console := console s; stdin := stdin s; db := db s;
     db_faults := db_faults s; db_trace := db_trace s; fs := fs s;
     fs_denied := fs_denied s; uuids := uuids s |}.

Definition ascii_lower (c : N) : N :=
  if (65 <=? c) && (c <=? 90) then c + 32 else c.

(** Header names compare without regard to ASCII case. *)
Definition header_eqb (a b : pystr) : bool :=
  pystr_eqb (map ascii_lower a) (map ascii_lower b).

(** A session header is set. *)
Definition put_header (name value : pystr) (s : St) : St :=
  {| self_host := self_host s;
     self_headers := filter (fun kv => negb (header_eqb (fst kv) name)) (self_headers s) ++ [(name, value)];
     self_db_initialized := self_db_initialized s;
     self_public_key := self_public_key s; import_key := import_key s;
     entropy := entropy s; net := net s; http_log := http_log s;
     console := console s; stdin := stdin s; db := db s;
     db_faults := db_faults s; db_trace := db_trace s; fs := fs s;
     fs_denied := fs_denied s; uuids := uuids s |}.

(** The fault injected into the next statement. *)
Definition next_fault (s : St) : bool := hd false (db_faults s).

(** A statement has been executed: it is recorded, its fault is consumed,
    and when it went through the rows change. *)
Definition db_commit (op : DbOp) (ok : bool) (s : St) : St :=
  {| self_host := self_host s; self_headers := self_headers s;
     self_db_initialized := self_db_initialized s;
     self_public_key := self_public_key s; import_key := import_key s;
     entropy := entropy s; net := net s; http_log := http_log s;
     console := console s; stdin := stdin s;
     db := if ok then db_apply op (db s) else db s;
     db_faults := tl (db_faults s);
     db_trace := db_trace s ++ [{| ev_op := op; ev_ok := ok |}]; fs := fs s;
     fs_denied := fs_denied s; uuids := uuids s |}.

(** A file is written, replacing an older one of that name. *)
Definition put_file (filename : pystr) (value : pyval) (s : St) : St :=
  {| self_host := self_host s; self_headers := self_headers s;
     self_db_initialized := self_db_initialized s;
     self_public_key := self_public_key s; import_key := import_key s;
     entropy := entropy s; net := net s; http_log := http_log s;
     console := console s; stdin := stdin s; db := db s;
     db_faults := db_faults s; db_trace := db_trace s;
     fs := (filename, value) :: filter (fun kv => negb (pystr_eqb (fst kv) filename)) (fs s);
     fs_denied := fs_denied s; uuids := uuids s |}.

(** A uuid is consumed. *)
Definition drop_uuid (s : St) : St :=
  {| self_host := self_host s; self_headers := self_headers s;
     self_db_initialized := self_db_initialized s;
     self_public_key := self_public_key s; import_key := import_key s;
     entropy := entropy s; net := net s; http_log := http_log s;
     console := console s; stdin := stdin s; db := db s;
     db_faults := db_faults s; db_trace := db_trace s; fs := fs s;
     fs_denied := fs_denied s; uuids := tl (uuids s) |}.

(** Random bytes are consumed. *)
Definition set_entropy (e : list N) (s : St) : St :=
  {| self_host := self_host s; self_headers := self_headers s;
     self_db_initialized := self_db_initialized s;
     self_public_key := self_public_key s; import_key := import_key s;
     entropy := e; net := net s; http_log := http_log s;
     console := console s; stdin := stdin s; db := db s;
     db_faults := db_faults s; db_trace := db_trace s; fs := fs s;
     fs_denied := fs_denied s; uuids := uuids s |}.

(** *** Primitive effects *)

(** [print(...)]. *)
Definition print (l : Line) : M St unit :=
  fun s => (Ret tt, put_line l s).

(** [input(prompt)]: the prompt is shown, one line is read; at end of
    input [EOFError] is raised. *)
Definition input (prompt : Line) : M St pystr :=
  fun s =>
    match stdin s with
    | [] => (Raise (PyExc EOFError "EOF when reading a line"), put_line prompt s)
    | l :: _ => (Ret l, take_line (put_line prompt s))
    end.

Definition get_host : M St pystr := fun s => (Ret (self_host s), s).

Definition get_db_initialized : M St bool :=
  fun s => (Ret (self_db_initialized s), s).

(** [self.session.request(...)]: the request carries the session headers;
    it is logged whether or not it is answered. *)
Definition session_request (method : string) (url : pystr)
    (json : option pyval) (timeout : option Z) : M St Response :=
  fun s =>
    match net s (http_log s) (mk_request s method url json timeout) with
    | Some r => (Ret r, send method url json timeout s)
    | None => (Raise (PyExc RequestException "request failed"),
               send method url json timeout s)
    end.

(** [self.session.get(url, timeout=...)] and
    [self.session.post(url, json=...)]. *)
Definition session_get (url : pystr) (timeout : Z) : M St Response :=
  session_request "GET" url None (Some timeout).

Definition session_post (url : pystr) (json : pyval) : M St Response :=
  session_request "POST" url (Some json) None.

(** [response.json()]. *)
Definition response_json (r : Response) : M St pyval :=
  lift_option (rs_json r) (PyExc JSONDecodeError "body is not JSON").

(** [headers.get(name)]. *)
Fixpoint headers_get (h : list (pystr * pystr)) (name : pystr) : option pystr :=
  match h with
  | [] => None
  | (k, v) :: h' => if header_eqb k name then Some v else headers_get h' name
  end.

(** [self.session.headers.update({name: value})]. *)
Definition session_headers_update (name value : pystr) : M St unit :=
  fun s => (Ret tt, put_header name value s).

(** One statement against the database: the next injected fault decides
    whether it raises (leaving the rows as they were) or goes through;
    either way it is recorded. *)
Definition db_exec {A} (op : DbOp) (q : Database -> A) : M St A :=
  fun s =>
    if next_fault s
    then (Raise (PyExc DatabaseError "statement failed"), db_commit op false s)
    else (Ret (q (db s)), db_commit op true s).

(** [open(filename, "w")] followed by [json.dump(value, f, ...)]. *)
Definition write_json_file (filename : pystr) (value : pyval) : M St unit :=
  fun s =>
    if fs_denied s filename
    then (Raise (PyExc OSError "cannot open file"), s)
    else (Ret tt, put_file filename value s).

Fixpoint fs_lookup (f : list (pystr * pyval)) (name : pystr) : option pyval :=
  match f with
  | [] => None
  | (k, v) :: f' => if pystr_eqb k name then Some v else fs_lookup f' name
  end.

(** [str(uuid.uuid4())]. *)
Definition uuid4_str : M St pystr :=
  fun s => (Ret (hd [] (uuids s)), drop_uuid s).

Module RSA.

(** [RSA.importKey(self.public_key)]. *)
Definition importKey : M St PKCS1_v1_5.PublicKey :=
  fun s =>
    match import_key s (self_public_key s) with
    | Some k => (Ret k, s)
    | None => (Raise (PyExc ValueError "RSA key format is not supported"), s)
    end.

End RSA.

(** [PKCS1_v1_5.new(rsa_key).encrypt(message)]. *)
Definition cipher_encrypt (rsa_key : PKCS1_v1_5.PublicKey) (message : pybytes)
  : M St pybytes :=
  fun s =>
    match PKCS1_v1_5.encrypt rsa_key (entropy s) message with
    | (Some c, ent') => (Ret c, set_entropy ent' s)
    | (None, ent') => (Raise (PyExc ValueError "Plaintext is too long."), set_entropy ent' s)
    end.

(** ** [UserAdmin]: credential encryption and the registration flow *)

(** [UserAdmin.encrypt_password]. *)
Definition encrypt_password (password : pystr) : M St pyval :=
  try_except
    (password_b64 <- (b <- str_encode password ;;
                      bytes_decode (base64.b64encode b)) ;;
     rsa_key <- RSA.importKey ;;
     encrypted_password <- (m <- str_encode password_b64 ;;
                            cipher_encrypt rsa_key m) ;;
     r <- bytes_decode (base64.b64encode encrypted_password) ;;
     ret (PStr r))
    (fun e =>
       print [Lit "❌ 密码加密失败: "; Err e] ;;
       ret PNone).

(** [UserAdmin.check_server_status]. *)
Definition check_server_status : M St bool :=
  try_except
    (host <- get_host ;;
     let health_url := host ++ u "/v1/user/login/channels" in
     response <- session_get health_url 5 ;;
     if (rs_status response =? 200)%Z then
       print [Lit "✅ RAGFlow服务器运行正常 ("; Val (PStr host); Lit ")"] ;;
       ret true
     else
       print [Lit "⚠️ RAGFlow服务器响应异常: "; Val (PInt (rs_status response))] ;;
       ret false)
    (fun e =>
       print [Lit "❌ RAGFlow服务器无法访问: "; Err e] ;;
       ret false).

(** [UserAdmin._register_user]. *)
Definition _register_user (nickname email password : pystr) : M St pyval :=
  host <- get_host ;;
  let register_url := host ++ u "/v1/user/register" in
  encrypted_password <- encrypt_password password ;;
  if negb (truthy encrypted_password) then ret PNone
  else
    let payload :=
      PDict [(u "nickname", PStr nickname);
             (u "email", PStr email);
             (u "password", encrypted_password)] in
    try_except
      (print [Lit "🔗 通过API注册用户: "; Val (PStr nickname); Lit " (";
              Val (PStr email); Lit ")"] ;;
       response <- session_post register_url payload ;;
       result <- response_json response ;;
       code <- py_get result (u "code") PNone ;;
       if py_eq_zero code then
         (match headers_get (rs_headers response) (u "Authorization") with
          | Some auth_token =>
              if truthy (PStr auth_token)
              then session_headers_update (u "Authorization") auth_token
              else ret tt
          | None => ret tt
          end) ;;
         ret result
       else
         error_msg <- py_get result (u "message") (PStr (u "未知错误")) ;;
         print [Lit "❌ 用户注册失败: "; Val error_msg] ;;
         ret PNone)
      (fun e =>
         print [Lit "❌ API注册请求失败: "; Err e] ;;
         ret PNone).

(** [UserAdmin._get_api_token]. *)
Definition _get_api_token : M St pyval :=
  host <- get_host ;;
  let token_url := host ++ u "/v1/system/new_token" in
  try_except
    (response <- session_post token_url (PDict []) ;;
     result <- response_json response ;;
     code <- py_get result (u "code") PNone ;;
     if py_eq_zero code then
       token_data <- py_get result (u "data") (PDict []) ;;
       api_token <- py_get token_data (u "token") PNone ;;
       ret api_token
     else
       msg <- py_get result (u "message") (PStr (u "未知错误")) ;;
       print [Lit "❌ API Token创建失败: "; Val msg] ;;
       ret PNone)
    (fun e =>
       print [Lit "❌ Token创建请求失败: "; Err e] ;;
       ret PNone).

(** The line shown after a successful registration. *)
Definition registered_line (nickname : pystr) (shown_id : pyval) : Line :=
  [Lit "✅ 用户注册成功: "; Val (PStr nickname); Lit " (ID: "; Val shown_id; Lit ")"].

(** The result returned when registration went through but no token was
    issued. *)
Definition partial_info (user_info : pyval) : pyval :=
  PDict [(u "user", user_info);
         (u "api_token", PNone);
         (u "message", PStr (u "用户注册成功，但API token获取失败"))].

(** The result returned when registration and token issuance both went
    through. *)
Definition complete_info (id nick mail create_time access_token api_token
                          tenant : pyval) : pyval :=
  PDict [(u "user",
          PDict [(u "id", id);
                 (u "nickname", nick);
                 (u "email", mail);
                 (u "create_time", create_time);
                 (u "access_token", access_token)]);
         (u "api_token", api_token);
         (u "tenant_id", tenant);
         (u "success", PBool true)].

(** [UserAdmin.register_user_and_get_api_token]. *)
Definition register_user_and_get_api_token (nickname email password : pystr)
  : M St pyval :=
  ok <- check_server_status ;;
  if negb ok then
    print [Lit "❌ RAGFlow服务器不可用，无法注册用户"] ;;
    ret PNone
  else
    register_result <- _register_user nickname email password ;;
    if negb (truthy register_result) then ret PNone
    else
      user_info <- py_get register_result (u "data") (PDict []) ;;
      shown_id <- py_get user_info (u "id") PNone ;;
      print (registered_line nickname shown_id) ;;
      api_token <- _get_api_token ;;
      if negb (truthy api_token) then
        print [Lit "⚠️ 用户注册成功，但获取API token失败"] ;;
        ret (partial_info user_info)
      else
        id <- py_get user_info (u "id") PNone ;;
        nick <- py_get user_info (u "nickname") PNone ;;
        mail <- py_get user_info (u "email") PNone ;;
        create_time <- py_get user_info (u "create_time") PNone ;;
        access_token <- py_get user_info (u "access_token") PNone ;;
        tenant <- py_get user_info (u "id") PNone ;;
        let complete_info :=
          complete_info id nick mail create_time access_token api_token tenant in
        print [Lit "✅ API Token获取成功: "; Val api_token] ;;
        ret complete_info.

(** The name of the file [create_test_user] writes. *)
Definition test_user_filename (user_suffix : pystr) : pystr :=
  u "ragflow_user_" ++ user_suffix ++ u ".json".

(** The suffix [create_test_user] works with: the one supplied, or the
    first eight characters of a fresh uuid when none (or an empty one) is
    supplied. *)
Definition effective_suffix (user_suffix : option pystr) (s : St) : pystr :=
  match user_suffix with
  | Some (c :: r) => c :: r
  | _ => firstn 8 (hd [] (uuids s))
  end.

(** [UserAdmin.create_test_user]; the suffix is a [str] or [None]. *)
Definition create_test_user (user_suffix : option pystr) : M St pyval :=
  user_suffix <-
    (match user_suffix with
     | Some (c :: r) => ret (c :: r)
     | _ => x <- uuid4_str ;; ret (firstn 8 x)
     end) ;;
  let nickname := u "TestUser_" ++ user_suffix in
  let email := u "user_" ++ user_suffix ++ u "@example.com" in
  let password := u "Test123456" in
  print [Lit "🎯 创建测试用户:"] ;;
  print [Lit "   昵称: "; Val (PStr nickname)] ;;
  print [Lit "   邮箱: "; Val (PStr email)] ;;
  print [Lit "   密码: "; Val (PStr password)] ;;
  print [Lit "--------------------------------------------------"] ;;
  result <- register_user_and_get_api_token nickname email password ;;
  succeeded <-
    (if truthy result
     then x <- py_get result (u "success") PNone ;; ret (truthy x)
     else ret false) ;;
  (if succeeded then
     print [Lit "\n📋 用户创建成功:"] ;;
     user <- py_getitem result (u "user") ;;
     id <- py_getitem user (u "id") ;;
     print [Lit "   用户ID: "; Val id] ;;
     user <- py_getitem result (u "user") ;;
     nick <- py_getitem user (u "nickname") ;;
     print [Lit "   昵称: "; Val nick] ;;
     user <- py_getitem result (u "user") ;;
     mail <- py_getitem user (u "email") ;;
     print [Lit "   邮箱: "; Val mail] ;;
     token <- py_getitem result (u "api_token") ;;
     print [Lit "   API Token: "; Val token] ;;
     tenant <- py_getitem result (u "tenant_id") ;;
     print [Lit "   Tenant ID: "; Val tenant] ;;
     let filename := test_user_filename user_suffix in
     write_json_file filename result ;;
     print [Lit "   💾 用户信息已保存到: "; Val (PStr filename)]
   else ret tt) ;;
  ret result.

(** ** [UserAdmin]: inspection and deletion through the ORM *)

(** [format(v, '<w')]: [None] and containers do not support a layout. *)
Definition fmt_left (v : pyval) (w : nat) : M St Frag :=
  match v with
  | PStr _ | PInt _ | PFloat _ _ | PBool _ => ret (ValL v w)
  | _ => raise (PyExc TypeError "unsupported format string")
  end.

(** [v == s] for a [str] literal [s]. *)
Definition py_eq_str (v : pyval) (s : pystr) : bool :=
  match v with
  | PStr x => pystr_eqb x s
  | _ => false
  end.

Definition dashes_110 : string :=
  "--------------------------------------------------------------------------------------------------------------".

(** The body of the [for user in users] loop of [list_users]. *)
Fixpoint list_users_loop (rows : list User) (user_list : list pyval)
  : M St (list pyval) :=
  match rows with
  | [] => ret user_list
  | user :: rest =>
      let status_text := if py_eq_str (u_status user) (u "1")
                         then u "有效" else u "无效" in
      let superuser_text := if truthy (u_is_superuser user)
                            then u "是" else u "否" in
      f1 <- fmt_left (PStr (u_id user)) 32 ;;
      f2 <- fmt_left (u_nickname user) 15 ;;
      f3 <- fmt_left (u_email user) 30 ;;
      f4 <- fmt_left (PStr status_text) 5 ;;
      f5 <- fmt_left (PStr superuser_text) 8 ;;
      f6 <- fmt_left (u_login_channel user) 10 ;;
      print [f1; Lit " "; f2; Lit " "; f3; Lit " "; f4; Lit " "; f5; Lit " "; f6] ;;
      list_users_loop rest
        (user_list ++
         [PDict [(u "id", PStr (u_id user));
                 (u "nickname", u_nickname user);
                 (u "email", u_email user);
                 (u "status", u_status user);
                 (u "is_superuser", u_is_superuser user);
                 (u "login_channel", u_login_channel user)]])
  end.

(** [UserAdmin.list_users]. *)
Definition list_users : M St pyval :=
  init <- get_db_initialized ;;
  if negb init then
    print [Lit "❌ 数据库未初始化"] ;;
    ret (PList [])
  else
    try_except
      (rows <- db_exec OpSelectUsers users ;;
       match rows with
       | [] =>
           print [Lit "📭 没有找到用户"] ;;
           ret (PList [])
       | _ =>
           print [Lit "\n📋 用户列表:"] ;;
           print [Lit dashes_110] ;;
           print [ValL (PStr (u "ID")) 32; Lit " "; ValL (PStr (u "昵称")) 15; Lit " ";
                  ValL (PStr (u "邮箱")) 30; Lit " "; ValL (PStr (u "状态")) 5; Lit " ";
                  ValL (PStr (u "超级用户")) 8; Lit " "; ValL (PStr (u "登录渠道")) 10] ;;
           print [Lit dashes_110] ;;
           user_list <- list_users_loop rows [] ;;
           print [Lit dashes_110] ;;
           print [Lit "总计: "; Val (PInt (Z.of_nat (length user_list))); Lit " 个用户"] ;;
           ret (PList user_list)
       end)
      (fun e =>
         print [Lit "❌ 获取用户列表失败: "; Err e] ;;
         ret (PList [])).

(** [User.select().where(User.id == user_id)] and its [first()] and
    [exists()]; the same for the organizational units. *)
Definition find_user (user_id : pystr) (d : Database) : option User :=
  find (fun r => id_is user_id (u_id r)) (users d).

Definition user_exists (user_id : pystr) (d : Database) : bool :=
  existsb (fun r => id_is user_id (u_id r)) (users d).

Definition tenant_exists (user_id : pystr) (d : Database) : bool :=
  existsb (fun r => id_is user_id (t_id r)) (tenants d).

(** The line printed for an identifier without account row. *)
Definition not_found_line (user_id : pystr) : Line :=
  [Lit "❌ 用户 "; Val (PStr user_id); Lit " 不存在"].

(** [UserAdmin.get_user_details]: the account row, or [None]. *)
Definition get_user_details (user_id : pystr) : M St (option User) :=
  init <- get_db_initialized ;;
  if negb init then
    print [Lit "❌ 数据库未初始化"] ;;
    ret None
  else
    try_except
      (user <- db_exec (OpFirstUser user_id) (find_user user_id) ;;
       match user with
       | None =>
           print (not_found_line user_id) ;;
           ret None
       | Some user =>
           tenant <- db_exec (OpFirstTenant user_id)
                       (fun d => find (fun r => id_is user_id (t_id r)) (tenants d)) ;;
           user_tenant <- db_exec (OpFirstUserTenant user_id)
                            (fun d => find (fun r => id_is user_id (ut_user_id r))
                                           (user_tenants d)) ;;
           tenant_llm_count <- db_exec (OpCountTenantLLM user_id)
                                 (fun d => length (filter (fun r => id_is user_id (tl_tenant_id r))
                                                          (tenant_llms d))) ;;
           print [Lit "\n📄 用户详细信息:"] ;;
           print [Lit "   👤 用户ID: "; Val (PStr (u_id user))] ;;
           print [Lit "   👤 昵称: "; Val (u_nickname user)] ;;
           print [Lit "   📧 邮箱: "; Val (u_email user)] ;;
           print [Lit "   🔒 状态: ";
                  Val (PStr (if py_eq_str (u_status user) (u "1")
                             then u "有效" else u "无效"))] ;;
           print [Lit "   👑 超级用户: ";
                  Val (PStr (if truthy (u_is_superuser user) then u "是" else u "否"))] ;;
           print [Lit "   🚪 登录渠道: "; Val (u_login_channel user)] ;;
           print [Lit "   🕐 最后登录: "; Val (u_last_login_time user)] ;;
           print [Lit "   📅 创建时间: "; Val (u_create_time user)] ;;
           print [Lit "   📅 更新时间: "; Val (u_update_time user)] ;;
           (match tenant with
            | Some tenant =>
                print [Lit "\n🏢 租户信息:"] ;;
                print [Lit "   🏢 租户ID: "; Val (PStr (t_id tenant))] ;;
                print [Lit "   🏢 租户名称: "; Val (t_name tenant)] ;;
                print [Lit "   🤖 LLM模型: "; Val (t_llm_id tenant)] ;;
                print [Lit "   🔤 嵌入模型: "; Val (t_embd_id tenant)]
            | None => ret tt
            end) ;;
           (match user_tenant with
            | Some user_tenant =>
                print [Lit "\n🔗 用户-租户关联:"] ;;
                print [Lit "   🔗 关联ID: "; Val (PStr (ut_id user_tenant))] ;;
                print [Lit "   👑 角色: "; Val (ut_role user_tenant)] ;;
                print [Lit "   👥 邀请者: "; Val (ut_invited_by user_tenant)]
            | None => ret tt
            end) ;;
           print [Lit "\n⚙️  LLM配置数量: "; Val (PInt (Z.of_nat tenant_llm_count))] ;;
           ret (Some user)
       end)
      (fun e =>
         print [Lit "❌ 获取用户详情失败: "; Err e] ;;
         ret None).

Module UserService.

(** Modelled from the spec: [UserService.delete_by_id] is not in these
    scripts; it deletes the account row with the given identifier. *)
Definition delete_by_id (pid : pystr) : M St unit :=
  db_exec (OpDeleteUser pid) (fun _ => tt).

End UserService.

Module TenantService.

(** Modelled from the spec: [TenantService.delete_by_id] is not in these
    scripts; it deletes the organizational-unit row with the given
    identifier. *)
Definition delete_by_id (pid : pystr) : M St unit :=
  db_exec (OpDeleteTenant pid) (fun _ => tt).

End TenantService.

(** The membership rows [UserTenantService.query(tenant_id=...)] finds. *)
Definition membership_rows (tenant_id : pystr) (d : Database) : list UserTenant :=
  filter (fun r => id_is tenant_id (ut_tenant_id r)) (user_tenants d).

Module UserTenantService.

(** Modelled from the spec: [UserTenantService.query(tenant_id=...)] is not
    in these scripts; it returns the membership rows of the unit. *)
Definition query (tenant_id : pystr) : M St (list UserTenant) :=
  db_exec (OpQueryUserTenant tenant_id) (membership_rows tenant_id).

(** Modelled from the spec: [UserTenantService.delete_by_id] is not in
    these scripts; it deletes the membership row with the given
    identifier. *)
Definition delete_by_id (pid : pystr) : M St unit :=
  db_exec (OpDeleteUserTenant pid) (fun _ => tt).

End UserTenantService.

(** [TenantLLM.delete().where(TenantLLM.tenant_id == user_id).execute()]. *)
Definition TenantLLM_delete_where (tenant_id : pystr) : M St unit :=
  db_exec (OpDeleteTenantLLM tenant_id) (fun _ => tt).

(** [try: m except Exception: pass]. *)
Definition swallow (m : M St unit) : M St unit :=
  try_except m (fun _ => ret tt).

(** [UserAdmin._rollback_user_registration]. *)
Definition _rollback_user_registration (user_id : pystr) : M St unit :=
  swallow (UserService.delete_by_id user_id) ;;
  swallow (TenantService.delete_by_id user_id) ;;
  swallow (rows <- UserTenantService.query user_id ;;
           match rows with
           | first :: _ => UserTenantService.delete_by_id (ut_id first)
           | [] => ret tt
           end) ;;
  swallow (TenantLLM_delete_where user_id).

(** What [delete_user] does once the deletion is confirmed. *)
Definition delete_user_confirmed (user_id : pystr) (user_details : User)
  : M St bool :=
  print [Lit "🗑️  正在完全删除用户..."] ;;
  _rollback_user_registration user_id ;;
  user_exists <- db_exec (OpExistsUser user_id) (user_exists user_id) ;;
  tenant_exists <- db_exec (OpExistsTenant user_id) (tenant_exists user_id) ;;
  if negb user_exists && negb tenant_exists then
    print [Lit "✅ 用户 "; Val (u_nickname user_details); Lit " (";
           Val (u_email user_details); Lit ") 及相关数据已完全删除"] ;;
    ret true
  else
    print [Lit "❌ 删除可能不完整，请检查"] ;;
    ret false.

(** [UserAdmin.delete_user]. *)
Definition delete_user (user_id : pystr) (confirm : bool) : M St bool :=
  init <- get_db_initialized ;;
  if negb init then
    print [Lit "❌ 数据库未初始化"] ;;
    ret false
  else
    try_except
      (user_details <- get_user_details user_id ;;
       match user_details with
       | None => ret false
       | Some user_details =>
           if confirm then
             print [Lit "\n⚠️  警告：这将完全删除用户及其所有相关数据！"] ;;
             print [Lit "   包括：用户记录、租户、用户-租户关联、LLM配置等"] ;;
             line <- input [Lit "\n确认要完全删除用户 "; Val (u_nickname user_details);
                            Lit " ("; Val (u_email user_details);
                            Lit ") 吗? (输入 'DELETE' 确认): "] ;;
             let confirm_input := strip line in
             if negb (pystr_eqb confirm_input (u "DELETE")) then
               print [Lit "❌ 操作已取消"] ;;
               ret false
             else delete_user_confirmed user_id user_details
           else delete_user_confirmed user_id user_details
       end)
      (fun e =>
         print [Lit "❌ 删除用户失败: "; Err e] ;;
         print [Lit "Traceback (most recent call last):"; Err e] ;;
         ret false).

(** ** [RAGFlowSDKClient]: the wrapper around the SDK handle *)

(** The [RAGFlow] handle of the SDK: it keeps the key and the address it
    was built with. *)
Record RAGFlow := { rag_api_key : pyval; rag_base_url : pyval }.

(** The receiver of a remote call: the handle itself, or an object the
    SDK returned earlier (a dataset, a document, a chat, an agent). *)
Inductive Receiver :=
| OnRag (r : RAGFlow)
| OnObject (o : pyval).

(** A call into the SDK with its keyword arguments. *)
Record Call := {
  call_on : Receiver;
  call_method : string;
  call_kwargs : list (string * pyval)
}.

Inductive LogLevel := INFO | ERROR.

(** The SDK and the logger: how the SDK answers a call, given the calls
    so far; the calls made; the records logged. *)
Record Sdk := {
  remote : list Call -> Call -> outcome pyval;
  sdk_calls : list Call;
  sdk_log : list (LogLevel * Line)
}.

(** The attributes of a [RAGFlowSDKClient]. *)
Record RAGFlowSDKClient := {
  base_url : pystr;
  api_token : pyval;
  rag : RAGFlow
}.

Definition remote_call (on : Receiver) (method : string)
    (kwargs : list (string * pyval)) : M Sdk pyval :=
  fun s =>
    let c := {| call_on := on; call_method := method; call_kwargs := kwargs |} in
    (remote s (sdk_calls s) c,
     {| remote := remote s; sdk_calls := sdk_calls s ++ [c]; sdk_log := sdk_log s |}).

Definition logger (level : LogLevel) (l : Line) : M Sdk unit :=
  fun s =>
    (Ret tt,
     {| remote := remote s; sdk_calls := sdk_calls s;
        sdk_log := sdk_log s ++ [(level, l)] |}).

(** A keyword argument [name=value]. *)
Definition kw (name : string) (value : pyval) : string * pyval := (name, value).

(** An argument the caller may leave out: [None] is the omitted argument,
    for which the default of the signature is taken. *)
Definition arg (supplied : option pyval) (default : pyval) : pyval :=
  match supplied with
  | Some v => v
  | None => default
  end.

Definition default_base_url : pystr := u "http://localhost:9380".

(** [v.rstrip('/')]: only a [str] has the method. *)
Definition py_rstrip_slash (v : pyval) : M Sdk pystr :=
  match v with
  | PStr s => ret (rstrip_slash s)
  | _ => raise (PyExc AttributeError "object has no attribute 'rstrip'")
  end.

(** [RAGFlowSDKClient.__init__]. *)
Definition __init__ (base_url api_token : option pyval)
  : M Sdk RAGFlowSDKClient :=
  let base_url := arg base_url (PStr default_base_url) in
  let api_token := arg api_token PNone in
  if negb (truthy api_token) then
    raise (PyExc ValueError "api_token 是必需的参数")
  else
    stripped <- py_rstrip_slash base_url ;;
    ret {| base_url := stripped;
           api_token := api_token;
           rag := {| rag_api_key := api_token; rag_base_url := base_url |} |}.

(** [RAGFlowSDKClient.list_datasets]. *)
Definition list_datasets (self : RAGFlowSDKClient)
    (page page_size name : option pyval) : M Sdk pyval :=
  let page := arg page (PInt 1) in
  let page_size := arg page_size (PInt 30) in
  let name := arg name PNone in
  try_except
    (datasets <- remote_call (OnRag (rag self)) "list_datasets"
       [kw "page" page; kw "page_size" page_size; kw "name" name] ;;
     n <- py_len datasets ;;
     logger INFO [Lit "获取到 "; Val (PInt (Z.of_nat n)); Lit " 个数据集"] ;;
     ret datasets)
    (fun e =>
       logger ERROR [Lit "获取数据集列表失败: "; Err e] ;;
       raise e).

(** [RAGFlowSDKClient.list_documents]. *)
Definition list_documents (self : RAGFlowSDKClient) (dataset : pyval)
    (keywords page page_size : option pyval) : M Sdk pyval :=
  let keywords := arg keywords PNone in
  let page := arg page (PInt 1) in
  let page_size := arg page_size (PInt 30) in
  try_except
    (documents <- remote_call (OnObject dataset) "list_documents"
       [kw "keywords" keywords; kw "page" page; kw "page_size" page_size] ;;
     n <- py_len documents ;;
     logger INFO [Lit "获取到 "; Val (PInt (Z.of_nat n)); Lit " 个文档"] ;;
     ret documents)
    (fun e =>
       logger ERROR [Lit "获取文档列表失败: "; Err e] ;;
       raise e).

(** [RAGFlowSDKClient.list_chunks]. *)
Definition list_chunks (self : RAGFlowSDKClient) (document : pyval)
    (keywords page page_size : option pyval) : M Sdk pyval :=
  let keywords := arg keywords PNone in
  let page := arg page (PInt 1) in
  let page_size := arg page_size (PInt 30) in
  try_except
    (chunks <- remote_call (OnObject document) "list_chunks"
       [kw "keywords" keywords; kw "page" page; kw "page_size" page_size] ;;
     n <- py_len chunks ;;
     logger INFO [Lit "获取到 "; Val (PInt (Z.of_nat n)); Lit " 个块"] ;;
     ret chunks)
    (fun e =>
       logger ERROR [Lit "获取块列表失败: "; Err e] ;;
       raise e).

(** [RAGFlowSDKClient.retrieve_chunks]. *)
Definition retrieve_chunks (self : RAGFlowSDKClient) (question dataset_ids : pyval)
    (document_ids page page_size similarity_threshold vector_similarity_weight
     top_k : option pyval) : M Sdk pyval :=
  let document_ids := arg document_ids PNone in
  let page := arg page (PInt 1) in
  let page_size := arg page_size (PInt 30) in
  let similarity_threshold := arg similarity_threshold (PFloat 2 (-1)) in
  let vector_similarity_weight := arg vector_similarity_weight (PFloat 3 (-1)) in
  let top_k := arg top_k (PInt 1024) in
  try_except
    (chunks <- remote_call (OnRag (rag self)) "retrieve"
       [kw "question" question; kw "dataset_ids" dataset_ids;
        kw "document_ids" document_ids; kw "page" page;
        kw "page_size" page_size;
        kw "similarity_threshold" similarity_threshold;
        kw "vector_similarity_weight" vector_similarity_weight;
        kw "top_k" top_k] ;;
     n <- py_len chunks ;;
     logger INFO [Lit "检索到 "; Val (PInt (Z.of_nat n)); Lit " 个相关块"] ;;
     ret chunks)
    (fun e =>
       logger ERROR [Lit "检索块失败: "; Err e] ;;
       raise e).

(** [RAGFlowSDKClient.list_chat_assistants]. *)
Definition list_chat_assistants (self : RAGFlowSDKClient)
    (page page_size name : option pyval) : M Sdk pyval :=
  let page := arg page (PInt 1) in
  let page_size := arg page_size (PInt 30) in
  let name := arg name PNone in
  try_except
    (chats <- remote_call (OnRag (rag self)) "list_chats"
       [kw "page" page; kw "page_size" page_size; kw "name" name] ;;
     n <- py_len chats ;;
     logger INFO [Lit "获取到 "; Val (PInt (Z.of_nat n)); Lit " 个聊天助手"] ;;
     ret chats)
    (fun e =>
       logger ERROR [Lit "获取聊天助手列表失败: "; Err e] ;;
       raise e).

(** [RAGFlowSDKClient.list_sessions]. *)
Definition list_sessions (self : RAGFlowSDKClient) (chat : pyval)
    (page page_size name : option pyval) : M Sdk pyval :=
  let page := arg page (PInt 1) in
  let page_size := arg page_size (PInt 30) in
  let name := arg name PNone in
  try_except
    (sessions <- remote_call (OnObject chat) "list_sessions"
       [kw "page" page; kw "page_size" page_size; kw "name" name] ;;
     n <- py_len sessions ;;
     logger INFO [Lit "获取到 "; Val (PInt (Z.of_nat n)); Lit " 个会话"] ;;
     ret sessions)
    (fun e =>
       logger ERROR [Lit "获取会话列表失败: "; Err e] ;;
       raise e).

(** [RAGFlowSDKClient.list_agents]. *)
Definition list_agents (self : RAGFlowSDKClient)
    (page page_size title : option pyval) : M Sdk pyval :=
  let page := arg page (PInt 1) in
  let page_size := arg page_size (PInt 30) in
  let title := arg title PNone in
  try_except
    (agents <- remote_call (OnRag (rag self)) "list_agents"
       [kw "page" page; kw "page_size" page_size; kw "title" title] ;;
     n <- py_len agents ;;
     logger INFO [Lit "获取到 "; Val (PInt (Z.of_nat n)); Lit " 个Agent"] ;;
     ret agents)
    (fun e =>
       logger ERROR [Lit "获取Agent列表失败: "; Err e] ;;
       raise e).

(** [RAGFlowSDKClient.list_agent_sessions]. *)
Definition list_agent_sessions (self : RAGFlowSDKClient) (agent : pyval)
    (page page_size : option pyval) : M Sdk pyval :=
  let page := arg page (PInt 1) in
  let page_size := arg page_size (PInt 30) in
  try_except
    (sessions <- remote_call (OnObject agent) "list_sessions"
       [kw "page" page; kw "page_size" page_size] ;;
     n <- py_len sessions ;;
     logger INFO [Lit "获取到 "; Val (PInt (Z.of_nat n)); Lit " 个Agent会话"] ;;
     ret sessions)
    (fun e =>
       logger ERROR [Lit "获取Agent会话列表失败: "; Err e] ;;
       raise e).

(** The methods of the wrapper that return one page of results, with
    their arguments other than the page and the page size. *)
Inductive Listing :=
| ListDatasets (name : option pyval)
| ListDocuments (dataset : pyval) (keywords : option pyval)
| ListChunks (document : pyval) (keywords : option pyval)
| RetrieveChunks (question dataset_ids : pyval)
    (document_ids similarity_threshold vector_similarity_weight
     top_k : option pyval)
| ListChatAssistants (name : option pyval)
| ListSessions (chat : pyval) (name : option pyval)
| ListAgents (title : option pyval)
| ListAgentSessions (agent : pyval).

Definition run_listing (self : RAGFlowSDKClient) (op : Listing)
    (page page_size : option pyval) : M Sdk pyval :=
  match op with
  | ListDatasets name => list_datasets self page page_size name
  | ListDocuments dataset keywords => list_documents self dataset keywords page page_size
  | ListChunks document keywords => list_chunks self document keywords page page_size
  | RetrieveChunks question dataset_ids document_ids similarity_threshold
      vector_similarity_weight top_k =>
      retrieve_chunks self question dataset_ids document_ids page page_size
        similarity_threshold vector_similarity_weight top_k
  | ListChatAssistants name => list_chat_assistants self page page_size name
  | ListSessions chat name => list_sessions self chat page page_size name
  | ListAgents title => list_agents self page page_size title
  | ListAgentSessions agent => list_agent_sessions self agent page page_size
  end.

(** The keyword argument of a call, by name. *)
Fixpoint kwarg (kwargs : list (string * pyval)) (name : string) : option pyval :=
  match kwargs with
  | [] => None
  | (k, v) :: rest => if String.eqb k name then Some v else kwarg rest name
  end.

(** ** Observations on a run *)

(** The statements executed, resp. the requests sent, between two states
    of the world. *)
Definition statements_since (s s' : St) : list DbEvent :=
  skipn (length (db_trace s)) (db_trace s').

Definition requests_since (s s' : St) : list Request :=
  skipn (length (http_log s)) (http_log s').

(** The rows after an executed statement. *)
Definition apply_event (d : Database) (e : DbEvent) : Database :=
  if ev_ok e then db_apply (ev_op e) d else d.

(** No row is deleted by the statements; every statement went through. *)
Definition no_delete (l : list DbEvent) : Prop :=
  Forall (fun e => is_delete (ev_op e) = false) l.

Definition all_ok (l : list DbEvent) : Prop :=
  Forall (fun e => ev_ok e = true) l.

(** The statements of the four attempts of the teardown: the account row,
    the organizational-unit row, the membership attempt [third], the
    model-configuration rows. *)
Definition rollback_statements (user_id : pystr) (ok1 ok2 ok4 : bool)
    (third : list DbEvent) : list DbEvent :=
  {| ev_op := OpDeleteUser user_id; ev_ok := ok1 |}
  :: {| ev_op := OpDeleteTenant user_id; ev_ok := ok2 |}
  :: third ++ [{| ev_op := OpDeleteTenantLLM user_id; ev_ok := ok4 |}].

(** The membership attempt: the lookup fails; or it finds no row; or it
    finds rows and the first of them is deleted, or fails to be. *)
Definition membership_attempt (user_id : pystr) (d : Database)
    (third : list DbEvent) : Prop :=
  third = [{| ev_op := OpQueryUserTenant user_id; ev_ok := false |}]
  \/ (third = [{| ev_op := OpQueryUserTenant user_id; ev_ok := true |}]
      /\ membership_rows user_id d = [])
  \/ exists first rest ok3,
       membership_rows user_id d = first :: rest
       /\ third = [{| ev_op := OpQueryUserTenant user_id; ev_ok := true |};
                   {| ev_op := OpDeleteUserTenant (ut_id first); ev_ok := ok3 |}].

Definition probe_url (s : St) : pystr := self_host s ++ u "/v1/user/login/channels".

Definition register_url (s : St) : pystr := self_host s ++ u "/v1/user/register".

Definition token_url (s : St) : pystr := self_host s ++ u "/v1/system/new_token".

(** ** A small concrete world

    A 29-byte modulus that is a product of distinct odd primes, with the
    usual public exponent; a server that registers and issues a token; a
    database with one account. *)
Module Demo.

Definition primes : list N :=
  [3; 5; 7; 11; 13; 17; 19; 23; 29; 31; 37; 41; 43; 47; 53; 59; 61; 67; 71;
   73; 79; 83; 89; 97; 101; 103; 107; 109; 113; 127; 131; 137; 139; 149;
   151; 157; 163; 167; 173].

Definition modulus : N :=
  83294951893662609690425847675448128125490254797437431023480841994855.

Definition pub : PKCS1_v1_5.PublicKey :=
  {| PKCS1_v1_5.pub_n := modulus; PKCS1_v1_5.pub_e := 65537 |}.

Definition priv : PKCS1_v1_5.PrivateKey :=
  {| PKCS1_v1_5.priv_n := modulus; PKCS1_v1_5.priv_d := 124969536465531191873 |}.

Definition host : pystr := u "http://localhost:9380".

Definition user_data : pyval :=
  PDict [(u "id", PStr (u "a1b2"));
         (u "nickname", PStr (u "TestUser_demo"));
         (u "email", PStr (u "user_demo@example.com"));
         (u "create_time", PInt 1700000000);
         (u "access_token", PStr (u "tok-access"))].

Definition ok_json (data : pyval) : pyval :=
  PDict [(u "code", PInt 0); (u "data", data)].

Definition err_json : pyval :=
  PDict [(u "code", PInt 102); (u "message", PStr (u "denied"))].

(** A server that answers the probe, registers, and issues a token. *)
Definition server (_ : list Request) (rq : Request) : option Response :=
  if pystr_eqb (rq_url rq) (host ++ u "/v1/user/login/channels") then
    Some {| rs_status := 200; rs_headers := []; rs_json := Some (ok_json (PList [])) |}
  else if pystr_eqb (rq_url rq) (host ++ u "/v1/user/register") then
    Some {| rs_status := 200;
            rs_headers := [(u "Authorization", u "session-1")];
            rs_json := Some (ok_json user_data) |}
  else if pystr_eqb (rq_url rq) (host ++ u "/v1/system/new_token") then
    Some {| rs_status := 200; rs_headers := [];
            rs_json := Some (ok_json (PDict [(u "token", PStr (u "ragflow-XYZ"))])) |}
  else None.

(** The same server, except that it refuses to issue tokens. *)
Definition server_no_token (l : list Request) (rq : Request) : option Response :=
  if pystr_eqb (rq_url rq) (host ++ u "/v1/system/new_token") then
    Some {| rs_status := 200; rs_headers := []; rs_json := Some err_json |}
  else server l rq.

(** The same server, except that it refuses to register. *)
Definition server_no_register (l : list Request) (rq : Request) : option Response :=
  if pystr_eqb (rq_url rq) (host ++ u "/v1/user/register") then
    Some {| rs_status := 200; rs_headers := []; rs_json := Some err_json |}
  else server l rq.

(** A server that is down. *)
Definition server_down (_ : list Request) (_ : Request) : option Response := None.

Definition alice : User :=
  {| u_id := u "a1b2"; u_nickname := PStr (u "alice");
     u_email := PStr (u "alice@example.com"); u_status := PStr (u "1");
     u_is_superuser := PBool false; u_login_channel := PStr (u "password");
     u_last_login_time := PNone; u_create_time := PInt 1700000000;
     u_update_time := PInt 1700000000 |}.

Definition database : Database :=
  {| users := [alice];
     tenants := [{| t_id := u "a1b2"; t_name := PStr (u "alice's Kingdom");
                    t_llm_id := PStr (u "qwen"); t_embd_id := PStr (u "bge") |}];
     user_tenants := [{| ut_id := u "m1"; ut_user_id := u "a1b2";
                         ut_tenant_id := u "a1b2"; ut_role := PStr (u "owner");
                         ut_invited_by := PStr (u "a1b2") |}];
     tenant_llms := [{| tl_tenant_id := u "a1b2"; tl_llm_name := PStr (u "qwen") |};
                     {| tl_tenant_id := u "a1b2"; tl_llm_name := PStr (u "bge") |}] |}.

(** A freshly constructed [UserAdmin] in front of [srv], with the given
    terminal input and injected database faults. *)
Definition world (srv : list Request -> Request -> option Response)
    (lines : list pystr) (faults : list bool) : St :=
  {| self_host := host; self_headers := [];
     self_db_initialized := true;
     self_public_key := u "-----BEGIN PUBLIC KEY-----";
     import_key := fun _ => Some pub;
     entropy := [7; 0; 254; 255; 13];
     net := srv; http_log := [];
     console := []; stdin := lines;
     db := database; db_faults := faults; db_trace := [];
     fs := []; fs_denied := fun _ => false;
     uuids := [u "3f2b8c1d-0000-4000-8000-000000000000"] |}.

(** An SDK that has nothing to list. *)
Definition sdk : Sdk :=
  {| remote := fun _ _ => Ret (PList []); sdk_calls := []; sdk_log := [] |}.

End Demo.

(** The one remote call a listing method makes. *)
Definition listing_call (self : RAGFlowSDKClient) (op : Listing)
    (page page_size : option pyval) : Call :=
  match op with
  | ListDatasets name =>
      {| call_on := OnRag (rag self); call_method := "list_datasets";
         call_kwargs := [kw "page" (arg page (PInt 1));
                         kw "page_size" (arg page_size (PInt 30));
                         kw "name" (arg name PNone)] |}
  | ListDocuments dataset keywords =>
      {| call_on := OnObject dataset; call_method := "list_documents";
         call_kwargs := [kw "keywords" (arg keywords PNone);
                         kw "page" (arg page (PInt 1));
                         kw "page_size" (arg page_size (PInt 30))] |}
  | ListChunks document keywords =>
      {| call_on := OnObject document; call_method := "list_chunks";
         call_kwargs := [kw "keywords" (arg keywords PNone);
                         kw "page" (arg page (PInt 1));
                         kw "page_size" (arg page_size (PInt 30))] |}
  | RetrieveChunks question dataset_ids document_ids similarity_threshold
      vector_similarity_weight top_k =>
      {| call_on := OnRag (rag self); call_method := "retrieve";
         call_kwargs := [kw "question" question; kw "dataset_ids" dataset_ids;
                         kw "document_ids" (arg document_ids PNone);
                         kw "page" (arg page (PInt 1));
                         kw "page_size" (arg page_size (PInt 30));
                         kw "similarity_threshold"
                           (arg similarity_threshold (PFloat 2 (-1)));
                         kw "vector_similarity_weight"
                           (arg vector_similarity_weight (PFloat 3 (-1)));
                         kw "top_k" (arg top_k (PInt 1024))] |}
  | ListChatAssistants name =>
      {| call_on := OnRag (rag self); call_method := "list_chats";
         call_kwargs := [kw "page" (arg page (PInt 1));
                         kw "page_size" (arg page_size (PInt 30));
                         kw "name" (arg name PNone)] |}
  | ListSessions chat name =>
      {| call_on := OnObject chat; call_method := "list_sessions";
         call_kwargs := [kw "page" (arg page (PInt 1));
                         kw "page_size" (arg page_size (PInt 30));
                         kw "name" (arg name PNone)] |}
  | ListAgents title =>
      {| call_on := OnRag (rag self); call_method := "list_agents";
         call_kwargs := [kw "page" (arg page (PInt 1));
                         kw "page_size" (arg page_size (PInt 30));
                         kw "title" (arg title PNone)] |}
  | ListAgentSessions agent =>
      {| call_on := OnObject agent; call_method := "list_sessions";
         call_kwargs := [kw "page" (arg page (PInt 1));
                         kw "page_size" (arg page_size (PInt 30))] |}
  end.

(** ** Further observations *)

(** Everything of the world except the terminal and the random source is
    the same in two states. *)
Definition same_but_terminal_and_entropy (s s' : St) : Prop :=
  self_host s' = self_host s
  /\ self_headers s' = self_headers s
  /\ self_db_initialized s' = self_db_initialized s
  /\ self_public_key s' = self_public_key s
  /\ import_key s' = import_key s
  /\ net s' = net s
  /\ http_log s' = http_log s
  /\ stdin s' = stdin s
  /\ db s' = db s
  /\ db_faults s' = db_faults s
  /\ db_trace s' = db_trace s
  /\ fs s' = fs s
  /\ fs_denied s' = fs_denied s
  /\ uuids s' = uuids s.

(** A computation leaves an observation of the world as it was, however
    it ends. *)
Definition preserves {X A} (proj : St -> X) (m : M St A) : Prop :=
  forall s, proj (snd (m s)) = proj s.

(** The values [format(v, '<w')] accepts. *)
Definition formattable (v : pyval) : bool :=
  match v with
  | PStr _ | PInt _ | PFloat _ _ | PBool _ => true
  | _ => false
  end.

(** The fields of an account row that [list_users] lays out as they are. *)
Definition row_formattable (user : User) : bool :=
  formattable (u_nickname user) && formattable (u_email user)
  && formattable (u_login_channel user).

(** The entry [list_users] appends for an account row. *)
Definition user_entry (user : User) : pyval :=
  PDict [(u "id", PStr (u_id user));
         (u "nickname", u_nickname user);
         (u "email", u_email user);
         (u "status", u_status user);
         (u "is_superuser", u_is_superuser user);
         (u "login_channel", u_login_channel user)].

(** No fault is injected into the next [n] statements. *)
Definition no_fault_in_next (n : nat) (s : St) : bool :=
  forallb negb (firstn n (db_faults s)).

(** The rows that belong to other identifiers than [user_id]. *)
Definition rows_of_others {R} (user_id : pystr) (key : R -> pystr)
    (rows : list R) : list R :=
  filter (fun r => negb (id_is user_id (key r))) rows.

(** ** [UserAdmin.admin_menu] and [main] *)

(** [if result and result.get('api_token'): print(...)], as the menu and
    [main] both have it after a registration. *)
Definition show_api_token (result : pyval) : M St unit :=
  shown <- (if truthy result
            then x <- py_get result (u "api_token") PNone ;; ret (truthy x)
            else ret false) ;;
  if shown then
    token <- py_getitem result (u "api_token") ;;
    print [Lit "\n🔑 API Token: "; Val token]
  else ret tt.

(** [input(prompt).strip()]. *)
Definition input_stripped (prompt : Line) : M St pystr :=
  line <- input prompt ;;
  ret (strip line).

(** [s if s else None] for a [str]. *)
Definition nonempty_or_none (s : pystr) : option pystr :=
  match s with
  | [] => None
  | _ :: _ => Some s
  end.

Definition is_nonempty (s : pystr) : bool :=
  match s with
  | [] => false
  | _ :: _ => true
  end.

(** The [if]/[elif] chain of [admin_menu] on the stripped choice; the
    answer says whether the loop goes on ([False] after the [break]). *)
Definition menu_choice (choice : pystr) : M St bool :=
  if pystr_eqb choice (u "0") then
    print [Lit "👋 再见!"] ;;
    ret false
  else if pystr_eqb choice (u "1") then
    list_users ;;
    ret true
  else if pystr_eqb choice (u "2") then
    user_id <- input_stripped [Lit "请输入用户ID: "] ;;
    (if is_nonempty user_id
     then get_user_details user_id ;; ret tt
     else ret tt) ;;
    ret true
  else if pystr_eqb choice (u "3") then
    nickname <- input_stripped [Lit "请输入用户昵称: "] ;;
    email <- input_stripped [Lit "请输入用户邮箱: "] ;;
    password <- input_stripped [Lit "请输入用户密码: "] ;;
    (if is_nonempty nickname && is_nonempty email && is_nonempty password
     then
       result <- register_user_and_get_api_token nickname email password ;;
       show_api_token result
     else ret tt) ;;
    ret true
  else if pystr_eqb choice (u "4") then
    user_suffix <- input_stripped [Lit "请输入用户后缀（留空自动生成）: "] ;;
    create_test_user (nonempty_or_none user_suffix) ;;
    ret true
  else if pystr_eqb choice (u "5") then
    user_id <- input_stripped [Lit "请输入要删除的用户ID: "] ;;
    (if is_nonempty user_id
     then delete_user user_id true ;; ret tt
     else ret tt) ;;
    ret true
  else if pystr_eqb choice (u "6") then
    check_server_status ;;
    ret true
  else
    print [Lit "❌ 无效的选择"] ;;
    ret true.

(** One round of the [while True] loop of [admin_menu]. *)
Definition menu_round : M St bool :=
  print [Lit "\n📋 管理员操作菜单:"] ;;
  print [Lit "1. 列出所有用户"] ;;
  print [Lit "2. 查看用户详情"] ;;
  print [Lit "3. 注册新用户并获取API Token"] ;;
  print [Lit "4. 创建测试用户"] ;;
  print [Lit "5. 删除用户"] ;;
  print [Lit "6. 检查服务器状态"] ;;
  print [Lit "0. 退出"] ;;
  choice <- input_stripped [Lit "\n请选择操作 (0-6): "] ;;
  menu_choice choice.

(** The [while True] loop, for at most [fuel] rounds; [None] when the
    rounds are used up before the loop has ended. *)
Fixpoint menu_loop (fuel : nat) (s : St) : option (outcome unit * St) :=
  match fuel with
  | O => None
  | S fuel' =>
      match menu_round s with
      | (Ret true, s') => menu_loop fuel' s'
      | (Ret false, s') => Some (Ret tt, s')
      | (Raise e, s') => (Some (Raise e, s'))
      end
  end.

Definition sixty_equals : string :=
  "============================================================".

(** [UserAdmin.admin_menu], for at most [fuel] rounds of its loop. *)
Definition admin_menu (fuel : nat) (s : St) : option (outcome unit * St) :=
  let s1 := put_line [Lit sixty_equals]
              (put_line [Lit "🚀 RAGFlow UserAdmin 管理工具"] s) in
  if negb (self_db_initialized s1)
  then Some (Ret tt, put_line [Lit "❌ 数据库未初始化，请检查配置"] s1)
  else menu_loop fuel s1.

(** The rounds that are always enough: every round that does not end the
    loop reads a line. *)
Definition enough_rounds (s : St) : nat := S (length (stdin s)).

(** The parsed command line, the host apart. *)
Record Args := {
  args_command : option pystr;
  args_target : option pystr;
  args_nickname : option pystr;
  args_email : option pystr;
  args_password : option pystr
}.

(** Truthiness of an optional argument: given, and not empty. *)
Definition given (a : option pystr) : bool :=
  match a with
  | Some (_ :: _) => true
  | _ => false
  end.

Definition command_is (args : Args) (name : string) : bool :=
  match args_command args with
  | Some c => pystr_eqb c (u name)
  | None => false
  end.

(** The text of an argument that is known to be given. *)
Definition text_of (a : option pystr) : pystr :=
  match a with
  | Some t => t
  | None => []
  end.

(** [main], from the point where the [UserAdmin] object has been
    constructed: the dispatch on the command. *)
Definition main (fuel : nat) (args : Args) (s : St)
  : option (outcome unit * St) :=
  if given (args_command args) then
    if command_is args "list" then
      Some ((list_users ;; ret tt) s)
    else if command_is args "info" && given (args_target args) then
      Some ((get_user_details (text_of (args_target args)) ;; ret tt) s)
    else if command_is args "delete" && given (args_target args) then
      Some ((delete_user (text_of (args_target args)) true ;; ret tt) s)
    else if command_is args "create" && given (args_nickname args)
            && given (args_email args) && given (args_password args) then
      Some ((result <- register_user_and_get_api_token
                         (text_of (args_nickname args))
                         (text_of (args_email args))
                         (text_of (args_password args)) ;;
             show_api_token result) s)
    else if command_is args "test" then
      Some ((create_test_user (args_target args) ;; ret tt) s)
    else
      Some (print [Lit "❌ 参数不完整"] s)
  else admin_menu fuel s.

(** The state a run of the menu or of [main] ends in ([s] when the rounds
    are used up). *)
Definition final_state (r : option (outcome unit * St)) (s : St) : St :=
  match r with
  | Some (_, s') => s'
  | None => s
  end.

(** A computation takes every state to one related to it, however it
    ends. *)
Definition within {A} (R : St -> St -> Prop) (m : M St A) : Prop :=
  forall s, R s (snd (m s)).

(** The pending input of the second state is what is left of the pending
    input of the first. *)
Definition input_left (s s' : St) : Prop :=
  exists k, stdin s' = skipn k (stdin s).

(** Between two states: the rows are the same, the statements executed
    in between delete nothing, and the pending input of the second is what
    is left of the pending input of the first. *)
Definition nothing_deleted (s s' : St) : Prop :=
  db s' = db s
  /\ (exists l, db_trace s' = db_trace s ++ l /\ no_delete l)
  /\ input_left s s'.

(** No pending line of input confirms a deletion. *)
Definition no_confirmation (s : St) : Prop :=
  forall line, In line (stdin s) -> strip line <> u "DELETE".

(** Unless a pending line confirms a deletion, nothing is deleted. *)
Definition cautious (s s' : St) : Prop :=
  no_confirmation s -> nothing_deleted s s'.

(** ** Further concrete worlds *)
Module Scenario.

(** A server that registers, and answers with [null] for the data. *)
Definition server_null_data (l : list Request) (rq : Request) : option Response :=
  if pystr_eqb (rq_url rq) (Demo.host ++ u "/v1/user/register") then
    Some {| rs_status := 200; rs_headers := [];
            rs_json := Some (Demo.ok_json PNone) |}
  else Demo.server l rq.

(** The demo world in a directory that cannot be written to. *)
Definition world_read_only : St :=
  {| self_host := Demo.host; self_headers := [];
     self_db_initialized := true;
     self_public_key := u "-----BEGIN PUBLIC KEY-----";
     import_key := fun _ => Some Demo.pub;
     entropy := [7; 0; 254; 255; 13];
     net := Demo.server; http_log := [];
     console := []; stdin := [];
     db := Demo.database; db_faults := []; db_trace := [];
     fs := []; fs_denied := fun _ => true;
     uuids := [u "3f2b8c1d-0000-4000-8000-000000000000"] |}.

(** A [UserAdmin] whose database initialisation failed, with the given
    terminal input. *)
Definition world_without_db (lines : list pystr) : St :=
  {| self_host := Demo.host; self_headers := [];
     self_db_initialized := false;
     self_public_key := u "-----BEGIN PUBLIC KEY-----";
     import_key := fun _ => Some Demo.pub;
     entropy := [7; 0; 254; 255; 13];
     net := Demo.server; http_log := [];
     console := []; stdin := lines;
     db := Demo.database; db_faults := []; db_trace := [];
     fs := []; fs_denied := fun _ => false;
     uuids := [u "3f2b8c1d-0000-4000-8000-000000000000"] |}.

(** The demo world over other rows. *)
Definition world_over (d : Database) (lines : list pystr) (faults : list bool)
  : St :=
  {| self_host := Demo.host; self_headers := [];
     self_db_initialized := true;
     self_public_key := u "-----BEGIN PUBLIC KEY-----";
     import_key := fun _ => Some Demo.pub;
     entropy := [7; 0; 254; 255; 13];
     net := Demo.server; http_log := [];
     console := []; stdin := lines;
     db := d; db_faults := faults; db_trace := [];
     fs := []; fs_denied := fun _ => false;
     uuids := [u "3f2b8c1d-0000-4000-8000-000000000000"] |}.

Definition bob_membership : UserTenant :=
  {| ut_id := u "m2"; ut_user_id := u "b0b0";
     ut_tenant_id := u "a1b2"; ut_role := PStr (u "normal");
     ut_invited_by := PStr (u "a1b2") |}.

(** The demo rows, with a second member in alice's unit. *)
Definition database_two_members : Database :=
  {| users := users Demo.database;
     tenants := tenants Demo.database;
     user_tenants := user_tenants Demo.database ++ [bob_membership];
     tenant_llms := tenant_llms Demo.database |}.

(** An account that never logged in through a channel. *)
Definition carol : User :=
  {| u_id := u "c4c4"; u_nickname := PStr (u "carol");
     u_email := PStr (u "carol@example.com"); u_status := PStr (u "1");
     u_is_superuser := PBool false; u_login_channel := PNone;
     u_last_login_time := PNone; u_create_time := PInt 1700000001;
     u_update_time := PInt 1700000001 |}.

Definition database_with_carol : Database :=
  {| users := users Demo.database ++ [carol];
     tenants := tenants Demo.database;
     user_tenants := user_tenants Demo.database;
     tenant_llms := tenant_llms Demo.database |}.

End Scenario.

(** ** [RAGFlowSDKClient]: the other wrappers *)

(** A positional argument of a call: it is recorded under the empty
    name. *)
Definition pos (value : pyval) : string * pyval := (EmptyString, value).

(** [RAGFlowSDKClient.create_dataset]. *)
Definition create_dataset (self : RAGFlowSDKClient) (name : pyval)
    (description embedding_model permission chunk_method : option pyval)
  : M Sdk pyval :=
  let description := arg description (PStr []) in
  let embedding_model :=
    arg embedding_model (PStr (u "BAAI/bge-large-zh-v1.5@BAAI")) in
  let permission := arg permission (PStr (u "me")) in
  let chunk_method := arg chunk_method (PStr (u "naive")) in
  try_except
    (dataset <- remote_call (OnRag (rag self)) "create_dataset"
       [kw "name" name; kw "description" description;
        kw "embedding_model" embedding_model; kw "permission" permission;
        kw "chunk_method" chunk_method] ;;
     logger INFO [Lit "成功创建数据集: "; Val name] ;;
     ret dataset)
    (fun e =>
       logger ERROR [Lit "创建数据集失败: "; Err e] ;;
       raise e).

(** [RAGFlowSDKClient.delete_datasets]. *)
Definition delete_datasets (self : RAGFlowSDKClient)
    (dataset_ids : option pyval) : M Sdk pyval :=
  let dataset_ids := arg dataset_ids PNone in
  try_except
    (remote_call (OnRag (rag self)) "delete_datasets" [kw "ids" dataset_ids] ;;
     logger INFO [Lit "成功删除数据集: "; Val dataset_ids] ;;
     ret PNone)
    (fun e =>
       logger ERROR [Lit "删除数据集失败: "; Err e] ;;
       raise e).

(** [RAGFlowSDKClient.get_dataset_by_name]. *)
Definition get_dataset_by_name (self : RAGFlowSDKClient) (name : pyval)
  : M Sdk pyval :=
  try_except
    (remote_call (OnRag (rag self)) "get_dataset" [kw "name" name])
    (fun e =>
       logger ERROR [Lit "获取数据集失败: "; Err e] ;;
       raise e).

(** [RAGFlowSDKClient.delete_documents]. *)
Definition delete_documents (self : RAGFlowSDKClient) (dataset : pyval)
    (document_ids : option pyval) : M Sdk pyval :=
  let document_ids := arg document_ids PNone in
  try_except
    (remote_call (OnObject dataset) "delete_documents" [kw "ids" document_ids] ;;
     logger INFO [Lit "成功删除文档: "; Val document_ids] ;;
     ret PNone)
    (fun e =>
       logger ERROR [Lit "删除文档失败: "; Err e] ;;
       raise e).

(** [RAGFlowSDKClient.parse_documents]. *)
Definition parse_documents (self : RAGFlowSDKClient) (dataset : pyval)
    (document_ids : pyval) : M Sdk pyval :=
  try_except
    (remote_call (OnObject dataset) "async_parse_documents" [pos document_ids] ;;
     logger INFO [Lit "开始解析文档: "; Val document_ids] ;;
     ret PNone)
    (fun e =>
       logger ERROR [Lit "解析文档失败: "; Err e] ;;
       raise e).

(** [RAGFlowSDKClient.stop_parsing_documents]. *)
Definition stop_parsing_documents (self : RAGFlowSDKClient) (dataset : pyval)
    (document_ids : pyval) : M Sdk pyval :=
  try_except
    (remote_call (OnObject dataset) "async_cancel_parse_documents"
       [pos document_ids] ;;
     logger INFO [Lit "停止解析文档: "; Val document_ids] ;;
     ret PNone)
    (fun e =>
       logger ERROR [Lit "停止解析文档失败: "; Err e] ;;
       raise e).

(** [RAGFlowSDKClient.delete_chunks]. *)
Definition delete_chunks (self : RAGFlowSDKClient) (document : pyval)
    (chunk_ids : option pyval) : M Sdk pyval :=
  let chunk_ids := arg chunk_ids PNone in
  try_except
    (remote_call (OnObject document) "delete_chunks" [pos chunk_ids] ;;
     logger INFO [Lit "成功删除块: "; Val chunk_ids] ;;
     ret PNone)
    (fun e =>
       logger ERROR [Lit "删除块失败: "; Err e] ;;
       raise e).

(** The LLM settings and the prompt settings [create_chat_assistant]
    takes when none are given. *)
Definition default_llm_config : pyval :=
  PDict [(u "model_name", PStr (u "qwen3:32b"));
         (u "temperature", PFloat 1 (-1));
         (u "top_p", PFloat 3 (-1))].

Definition default_prompt_config : pyval :=
  PDict [(u "similarity_threshold", PFloat 2 (-1));
         (u "keywords_similarity_weight", PFloat 7 (-1));
         (u "top_n", PInt 8);
         (u "opener", PStr (u "你好！我是你的AI助手，有什么可以帮助你的吗？"))].

(** [x is None]. *)
Definition is_none (v : pyval) : bool :=
  match v with
  | PNone => true
  | _ => false
  end.

(** [RAGFlowSDKClient.create_chat_assistant].  The instantiations
    [Chat.LLM(self.rag, config)] and [Chat.Prompt(self.rag, config)] are
    calls into the SDK on the handle, with the settings as positional
    argument. *)
Definition create_chat_assistant (self : RAGFlowSDKClient) (name : pyval)
    (dataset_ids avatar llm_config prompt_config : option pyval)
  : M Sdk pyval :=
  let dataset_ids := arg dataset_ids (PList []) in
  let avatar := arg avatar (PStr []) in
  let llm_config := arg llm_config PNone in
  let prompt_config := arg prompt_config PNone in
  try_except
    (let llm_config :=
       if is_none llm_config then default_llm_config else llm_config in
     llm <- remote_call (OnRag (rag self)) "Chat.LLM" [pos llm_config] ;;
     let prompt_config :=
       if is_none prompt_config then default_prompt_config else prompt_config in
     prompt <- remote_call (OnRag (rag self)) "Chat.Prompt" [pos prompt_config] ;;
     chat <- remote_call (OnRag (rag self)) "create_chat"
       [kw "name" name; kw "avatar" avatar; kw "dataset_ids" dataset_ids;
        kw "llm" llm; kw "prompt" prompt] ;;
     logger INFO [Lit "成功创建聊天助手: "; Val name] ;;
     ret chat)
    (fun e =>
       logger ERROR [Lit "创建聊天助手失败: "; Err e] ;;
       raise e).

(** [RAGFlowSDKClient.delete_chat_assistants]. *)
Definition delete_chat_assistants (self : RAGFlowSDKClient)
    (chat_ids : option pyval) : M Sdk pyval :=
  let chat_ids := arg chat_ids PNone in
  try_except
    (remote_call (OnRag (rag self)) "delete_chats" [kw "ids" chat_ids] ;;
     logger INFO [Lit "成功删除聊天助手: "; Val chat_ids] ;;
     ret PNone)
    (fun e =>
       logger ERROR [Lit "删除聊天助手失败: "; Err e] ;;
       raise e).

(** [RAGFlowSDKClient.create_session]. *)
Definition create_session (self : RAGFlowSDKClient) (chat : pyval)
    (name : option pyval) : M Sdk pyval :=
  let name := arg name (PStr (u "新会话")) in
  try_except
    (session <- remote_call (OnObject chat) "create_session" [kw "name" name] ;;
     logger INFO [Lit "成功创建会话: "; Val name] ;;
     ret session)
    (fun e =>
       logger ERROR [Lit "创建会话失败: "; Err e] ;;
       raise e).

(** [RAGFlowSDKClient.delete_sessions]. *)
Definition delete_sessions (self : RAGFlowSDKClient) (chat : pyval)
    (session_ids : option pyval) : M Sdk pyval :=
  let session_ids := arg session_ids PNone in
  try_except
    (remote_call (OnObject chat) "delete_sessions" [kw "ids" session_ids] ;;
     logger INFO [Lit "成功删除会话: "; Val session_ids] ;;
     ret PNone)
    (fun e =>
       logger ERROR [Lit "删除会话失败: "; Err e] ;;
       raise e).

(** [RAGFlowSDKClient.chat_with_assistant]. *)
Definition chat_with_assistant (self : RAGFlowSDKClient) (session question : pyval)
    (stream : option pyval) : M Sdk pyval :=
  let stream := arg stream (PBool false) in
  try_except
    (if truthy stream then
       logger INFO [Lit "开始流式对话"] ;;
       remote_call (OnObject session) "ask"
         [kw "question" question; kw "stream" (PBool true)]
     else
       response <- remote_call (OnObject session) "ask"
         [kw "question" question; kw "stream" (PBool false)] ;;
       logger INFO [Lit "获得对话响应"] ;;
       ret response)
    (fun e =>
       logger ERROR [Lit "对话失败: "; Err e] ;;
       raise e).

(** [RAGFlowSDKClient.create_agent]. *)
Definition create_agent (self : RAGFlowSDKClient) (title dsl : pyval)
    (description : option pyval) : M Sdk pyval :=
  let description := arg description PNone in
  try_except
    (remote_call (OnRag (rag self)) "create_agent"
       [kw "title" title; kw "dsl" dsl; kw "description" description] ;;
     logger INFO [Lit "成功创建Agent: "; Val title] ;;
     ret PNone)
    (fun e =>
       logger ERROR [Lit "创建Agent失败: "; Err e] ;;
       raise e).

(** [RAGFlowSDKClient.update_agent]. *)
Definition update_agent (self : RAGFlowSDKClient) (agent_id : pyval)
    (title description dsl : option pyval) : M Sdk pyval :=
  let title := arg title PNone in
  let description := arg description PNone in
  let dsl := arg dsl PNone in
  try_except
    (remote_call (OnRag (rag self)) "update_agent"
       [kw "agent_id" agent_id; kw "title" title;
        kw "description" description; kw "dsl" dsl] ;;
     logger INFO [Lit "成功更新Agent: "; Val agent_id] ;;
     ret PNone)
    (fun e =>
       logger ERROR [Lit "更新Agent失败: "; Err e] ;;
       raise e).

(** [RAGFlowSDKClient.delete_agent]. *)
Definition delete_agent (self : RAGFlowSDKClient) (agent_id : pyval)
  : M Sdk pyval :=
  try_except
    (remote_call (OnRag (rag self)) "delete_agent" [kw "agent_id" agent_id] ;;
     logger INFO [Lit "成功删除Agent: "; Val agent_id] ;;
     ret PNone)
    (fun e =>
       logger ERROR [Lit "删除Agent失败: "; Err e] ;;
       raise e).

(** [RAGFlowSDKClient.create_agent_session]; [kwargs] are the keyword
    arguments of the call, passed on as they are. *)
Definition create_agent_session (self : RAGFlowSDKClient) (agent : pyval)
    (kwargs : list (string * pyval)) : M Sdk pyval :=
  try_except
    (session <- remote_call (OnObject agent) "create_session" kwargs ;;
     logger INFO [Lit "成功创建Agent会话"] ;;
     ret session)
    (fun e =>
       logger ERROR [Lit "创建Agent会话失败: "; Err e] ;;
       raise e).

(** [RAGFlowSDKClient.delete_agent_sessions]. *)
Definition delete_agent_sessions (self : RAGFlowSDKClient) (agent : pyval)
    (session_ids : option pyval) : M Sdk pyval :=
  let session_ids := arg session_ids PNone in
  try_except
    (remote_call (OnObject agent) "delete_sessions" [kw "ids" session_ids] ;;
     logger INFO [Lit "成功删除Agent会话: "; Val session_ids] ;;
     ret PNone)
    (fun e =>
       logger ERROR [Lit "删除Agent会话失败: "; Err e] ;;
       raise e).

(** [RAGFlowSDKClient.chat_with_agent]. *)
Definition chat_with_agent (self : RAGFlowSDKClient) (session : pyval)
    (question stream : option pyval) : M Sdk pyval :=
  let question := arg question (PStr []) in
  let stream := arg stream (PBool false) in
  try_except
    (if truthy stream then
       logger INFO [Lit "开始与Agent流式对话"] ;;
       remote_call (OnObject session) "ask"
         [kw "question" question; kw "stream" (PBool true)]
     else
       response <- remote_call (OnObject session) "ask"
         [kw "question" question; kw "stream" (PBool false)] ;;
       logger INFO [Lit "获得Agent对话响应"] ;;
       ret response)
    (fun e =>
       logger ERROR [Lit "与Agent对话失败: "; Err e] ;;
       raise e).

(** The methods of the wrapper that return nothing: a deletion, a start
    or stop of parsing, a change to an agent. *)
Inductive Command :=
| DeleteDatasets (dataset_ids : option pyval)
| DeleteDocuments (dataset : pyval) (document_ids : option pyval)
| ParseDocuments (dataset document_ids : pyval)
| StopParsingDocuments (dataset document_ids : pyval)
| DeleteChunks (document : pyval) (chunk_ids : option pyval)
| DeleteChatAssistants (chat_ids : option pyval)
| DeleteSessions (chat : pyval) (session_ids : option pyval)
| CreateAgent (title dsl : pyval) (description : option pyval)
| UpdateAgent (agent_id : pyval) (title description dsl : option pyval)
| DeleteAgent (agent_id : pyval)
| DeleteAgentSessions (agent : pyval) (session_ids : option pyval).

Definition run_command (self : RAGFlowSDKClient) (op : Command) : M Sdk pyval :=
  match op with
  | DeleteDatasets dataset_ids => delete_datasets self dataset_ids
  | DeleteDocuments dataset document_ids =>
      delete_documents self dataset document_ids
  | ParseDocuments dataset document_ids =>
      parse_documents self dataset document_ids
  | StopParsingDocuments dataset document_ids =>
      stop_parsing_documents self dataset document_ids
  | DeleteChunks document chunk_ids => delete_chunks self document chunk_ids
  | DeleteChatAssistants chat_ids => delete_chat_assistants self chat_ids
  | DeleteSessions chat session_ids => delete_sessions self chat session_ids
  | CreateAgent title dsl description => create_agent self title dsl description
  | UpdateAgent agent_id title description dsl =>
      update_agent self agent_id title description dsl
  | DeleteAgent agent_id => delete_agent self agent_id
  | DeleteAgentSessions agent session_ids =>
      delete_agent_sessions self agent session_ids
  end.

(** The one remote call such a method makes. *)
Definition command_call (self : RAGFlowSDKClient) (op : Command) : Call :=
  match op with
  | DeleteDatasets dataset_ids =>
      {| call_on := OnRag (rag self); call_method := "delete_datasets";
         call_kwargs := [kw "ids" (arg dataset_ids PNone)] |}
  | DeleteDocuments dataset document_ids =>
      {| call_on := OnObject dataset; call_method := "delete_documents";
         call_kwargs := [kw "ids" (arg document_ids PNone)] |}
  | ParseDocuments dataset document_ids =>
      {| call_on := OnObject dataset; call_method := "async_parse_documents";
         call_kwargs := [pos document_ids] |}
  | StopParsingDocuments dataset document_ids =>
      {| call_on := OnObject dataset;
         call_method := "async_cancel_parse_documents";
         call_kwargs := [pos document_ids] |}
  | DeleteChunks document chunk_ids =>
      {| call_on := OnObject document; call_method := "delete_chunks";
         call_kwargs := [pos (arg chunk_ids PNone)] |}
  | DeleteChatAssistants chat_ids =>
      {| call_on := OnRag (rag self); call_method := "delete_chats";
         call_kwargs := [kw "ids" (arg chat_ids PNone)] |}
  | DeleteSessions chat session_ids =>
      {| call_on := OnObject chat; call_method := "delete_sessions";
         call_kwargs := [kw "ids" (arg session_ids PNone)] |}
  | CreateAgent title dsl description =>
      {| call_on := OnRag (rag self); call_method := "create_agent";
         call_kwargs := [kw "title" title; kw "dsl" dsl;
                         kw "description" (arg description PNone)] |}
  | UpdateAgent agent_id title description dsl =>
      {| call_on := OnRag (rag self); call_method := "update_agent";
         call_kwargs := [kw "agent_id" agent_id; kw "title" (arg title PNone);
                         kw "description" (arg description PNone);
                         kw "dsl" (arg dsl PNone)] |}
  | DeleteAgent agent_id =>
      {| call_on := OnRag (rag self); call_method := "delete_agent";
         call_kwargs := [kw "agent_id" agent_id] |}
  | DeleteAgentSessions agent session_ids =>
      {| call_on := OnObject agent; call_method := "delete_sessions";
         call_kwargs := [kw "ids" (arg session_ids PNone)] |}
  end.

(** The records logged between two states of the SDK world, by level. *)
Definition logged_since (s s' : Sdk) : list LogLevel :=
  map fst (skipn (length (sdk_log s)) (sdk_log s')).

Definition calls_since (s s' : Sdk) : list Call :=
  skipn (length (sdk_calls s)) (sdk_calls s').

(** A wrapper method passes one call on to the SDK: it makes the call
    [c] and nothing else; the SDK's answer is its result and
    [success_log] is what it logs then; the SDK's exception is raised
    again after one [ERROR] record. *)
Definition passes_on (m : M Sdk pyval) (c : Call) (success_log : list LogLevel)
    (s : Sdk) : Prop :=
  calls_since s (snd (m s)) = [c]
  /\ match remote s (sdk_calls s) c with
     | Ret v => fst (m s) = Ret v /\ logged_since s (snd (m s)) = success_log
     | Raise e => fst (m s) = Raise e /\ logged_since s (snd (m s)) = [ERROR]
     end.

(** The settings [create_chat_assistant] works with: those given, or the
    defaults when none (or [None]) are given. *)
Definition effective_config (given default : option pyval) : pyval :=
  match given, default with
  | Some PNone, Some d | None, Some d => d
  | Some v, _ => v
  | None, None => PNone
  end.

(** An SDK whose every call fails. *)
Definition sdk_down : Sdk :=
  {| remote := fun _ _ => Raise (PyExc RequestException "connection refused");
     sdk_calls := []; sdk_log := [] |}.

(** An SDK that hands out a fresh object for every call. *)
Definition sdk_objects : Sdk :=
  {| remote := fun calls _ => Ret (PObj (N.of_nat (length calls)));
     sdk_calls := []; sdk_log := [] |}.

(** A client built with a token. *)
Definition demo_client : RAGFlowSDKClient :=
  {| base_url := default_base_url;
     api_token := PStr (u "ragflow-XYZ");
     rag := {| rag_api_key := PStr (u "ragflow-XYZ");
               rag_base_url := PStr default_base_url |} |}.

(* ================================================================= *)
(** * Part II: properties *)
(* ================================================================= *)

(** Unfolds the monad operations met on the way, leaving the methods and
    the primitive effects folded. *)
Ltac mred :=
  cbv beta iota delta [bind ret raise try_except lift_option swallow].

(** ** The SDK wrapper *)

Section SdkClient.

Variable self : RAGFlowSDKClient.
Variable s : Sdk.

Ltac listing_cases op :=
  destruct op;
  unfold run_listing, listing_call, list_datasets, list_documents,
    list_chunks, retrieve_chunks, list_chat_assistants, list_sessions,
    list_agents, list_agent_sessions;
  mred; unfold remote_call, py_len, logger; mred;
  match goal with
  | |- context [remote ?w (sdk_calls ?w) ?c] =>
      destruct (remote w (sdk_calls w) c) as [[]|]
  end; reflexivity.

(** Every listing method makes exactly one remote call. *)
Lemma listing_calls_once op page page_size :
  sdk_calls (snd (run_listing self op page page_size s))
  = sdk_calls s ++ [listing_call self op page page_size].
Proof. listing_cases op. Qed.

(** What a listing method hands back: the SDK's answer when it has a
    length, [TypeError] when it has none, the SDK's exception otherwise. *)
Lemma listing_result op page page_size :
  fst (run_listing self op page page_size s)
  = match remote s (sdk_calls s) (listing_call self op page page_size) with
    | Ret (PStr x) => Ret (PStr x)
    | Ret (PList x) => Ret (PList x)
    | Ret (PDict x) => Ret (PDict x)
    | Ret _ => Raise (PyExc TypeError "object has no len()")
    | Raise e => Raise e
    end.
Proof. listing_cases op. Qed.

Lemma listing_call_pages op page page_size :
  kwarg (call_kwargs (listing_call self op page page_size)) "page"
  = Some (arg page (PInt 1))
  /\ kwarg (call_kwargs (listing_call self op page page_size)) "page_size"
     = Some (arg page_size (PInt 30)).
Proof. destruct op; split; reflexivity. Qed.

End SdkClient.

(** The default address needs no stripping. *)
Lemma default_base_url_stripped : rstrip_slash default_base_url = default_base_url.
Proof. reflexivity. Qed.

(** C6, as the code has it: construction needs the bearer token only.
    Whatever is passed as base URL, a token that is left out, [None] or
    empty makes construction raise [ValueError].  With a token,
    construction succeeds when the base URL is left out (the default
    address [http://localhost:9380] is taken) and when it is a [str]; a
    base URL passed as [None] makes it raise. *)
Theorem init_requires_token_only (url token : option pyval) (s : Sdk) :
  (truthy (arg token PNone) = false ->
   __init__ url token s
   = (Raise (PyExc ValueError "api_token 是必需的参数"), s))
  /\ (truthy (arg token PNone) = true -> url = None ->
      __init__ url token s
      = (Ret {| base_url := default_base_url;
                api_token := arg token PNone;
                rag := {| rag_api_key := arg token PNone;
                          rag_base_url := PStr default_base_url |} |}, s))
  /\ (forall address,
        truthy (arg token PNone) = true -> url = Some (PStr address) ->
        __init__ url token s
        = (Ret {| base_url := rstrip_slash address;
                  api_token := arg token PNone;
                  rag := {| rag_api_key := arg token PNone;
                            rag_base_url := PStr address |} |}, s))
  /\ (truthy (arg token PNone) = true -> url = Some PNone ->
      exists e, __init__ url token s = (Raise e, s)).
Proof.
  unfold __init__. repeat split.
  - intros H. rewrite H. reflexivity.
  - intros H ->. rewrite H. cbn [negb arg]. mred. cbn [py_rstrip_slash].
    mred. rewrite default_base_url_stripped. reflexivity.
  - intros address H ->. rewrite H. reflexivity.
  - intros H ->. rewrite H. eexists. reflexivity.
Qed.

(** [init_requires_token_only] at concrete arguments: no token; a token
    and no base URL; a token and an address; a token and [None] as base
    URL. *)
Lemma init_requires_token_only_witness :
  __init__ (Some (PStr (u "http://ragflow:9380/"))) None Demo.sdk
  = (Raise (PyExc ValueError "api_token 是必需的参数"), Demo.sdk)
  /\ fst (__init__ None (Some (PStr (u "ragflow-XYZ"))) Demo.sdk)
     = Ret {| base_url := default_base_url;
              api_token := PStr (u "ragflow-XYZ");
              rag := {| rag_api_key := PStr (u "ragflow-XYZ");
                        rag_base_url := PStr default_base_url |} |}
  /\ fst (__init__ (Some (PStr (u "http://ragflow:9380/")))
            (Some (PStr (u "ragflow-XYZ"))) Demo.sdk)
     = Ret {| base_url := u "http://ragflow:9380";
              api_token := PStr (u "ragflow-XYZ");
              rag := {| rag_api_key := PStr (u "ragflow-XYZ");
                        rag_base_url := PStr (u "http://ragflow:9380/") |} |}
  /\ exists e, __init__ (Some PNone) (Some (PStr (u "ragflow-XYZ"))) Demo.sdk
               = (Raise e, Demo.sdk).
Proof.
  split; [|split; [|split]].
  - apply (init_requires_token_only (Some (PStr (u "http://ragflow:9380/"))) None Demo.sdk).
    reflexivity.
  - rewrite (proj1 (proj2 (init_requires_token_only None
                             (Some (PStr (u "ragflow-XYZ"))) Demo.sdk)));
      reflexivity.
  - rewrite (proj1 (proj2 (proj2 (init_requires_token_only
                                    (Some (PStr (u "http://ragflow:9380/")))
                                    (Some (PStr (u "ragflow-XYZ"))) Demo.sdk)))
               (u "http://ragflow:9380/"));
      reflexivity.
  - apply (init_requires_token_only (Some PNone) (Some (PStr (u "ragflow-XYZ"))) Demo.sdk);
      reflexivity.
Defined.

(** C6 as the spec states it fails: the base URL is left out, a token is
    given, and construction succeeds. *)
Lemma init_without_base_url_succeeds :
  exists client,
    __init__ None (Some (PStr (u "ragflow-XYZ"))) Demo.sdk
    = (Ret client, Demo.sdk)
    /\ base_url client = u "http://localhost:9380".
Proof. eexists. split; reflexivity. Qed.

(** ** Inspection and deletion through the ORM *)

Lemma pystr_eqb_eq (a b : pystr) : pystr_eqb a b = true <-> a = b.
Proof.
  revert b. induction a as [|x a IH]; intros [|y b]; cbn; split;
    try discriminate; try reflexivity.
  - intros H. apply andb_true_iff in H as [Hx Hab].
    apply N.eqb_eq in Hx. apply IH in Hab. now subst.
  - intros H. injection H as -> ->. rewrite N.eqb_refl. now apply IH.
Qed.

Lemma skipn_length_app {A} (l r : list A) : skipn (length l) (l ++ r) = r.
Proof. induction l; cbn; auto. Qed.

Lemma statements_since_app (s s' : St) (l : list DbEvent) :
  db_trace s' = db_trace s ++ l -> statements_since s s' = l.
Proof. unfold statements_since. intros ->. apply skipn_length_app. Qed.

Lemma requests_since_app (s s' : St) (l : list Request) :
  http_log s' = http_log s ++ l -> requests_since s s' = l.
Proof. unfold requests_since. intros ->. apply skipn_length_app. Qed.

(** Reads the fields of a state through the changes made to it. *)
Ltac fields :=
  cbn [self_host self_headers self_db_initialized self_public_key import_key
       entropy net http_log console stdin db db_faults db_trace fs fs_denied
       uuids put_line take_line send put_header db_commit put_file drop_uuid
       set_entropy].

Ltac fields_in H :=
  cbn [self_host self_headers self_db_initialized self_public_key import_key
       entropy net http_log console stdin db db_faults db_trace fs fs_denied
       uuids put_line take_line send put_header db_commit put_file drop_uuid
       set_entropy] in H.

(** Runs the monad operations, printing and the statements met on the
    way; the methods stay folded. *)
Ltac run :=
  cbv beta iota delta [bind ret raise try_except lift_option swallow print
                       db_exec get_db_initialized get_host].

(** Runs one statement and splits on the fault injected into it. *)
Ltac db_step :=
  run;
  match goal with
  | |- context [if next_fault ?st then _ else _] =>
      let F := fresh "F" in destruct (next_fault st) eqn:F
  end; run.

Ltac trace_eq := fields; rewrite <- ?app_assoc; reflexivity.

(** C9: for an identifier without account row, [get_user_details] returns
    [None] and raises nothing; when the database is initialised and the
    lookup is answered, the line it prints says that the user does not
    exist. *)
Theorem details_of_missing_user (user_id : pystr) (s : St) :
  find_user user_id (db s) = None ->
  exists s',
    get_user_details user_id s = (Ret None, s')
    /\ (self_db_initialized s = true -> hd false (db_faults s) = false ->
        console s' = console s ++ [not_found_line user_id]).
Proof.
  intros Hnone. unfold get_user_details. run.
  destruct (self_db_initialized s) eqn:Hinit; cbn [negb]; run.
  - unfold next_fault. destruct (hd false (db_faults s)) eqn:Hf; run.
    + eexists. split; [reflexivity|]. intros _ H; discriminate H.
    + rewrite Hnone. eexists. split; [reflexivity|]. intros _ _. reflexivity.
  - eexists. split; [reflexivity|]. intros H; discriminate H.
Qed.

(** [details_of_missing_user] for an identifier the demo database does not
    hold. *)
Lemma details_of_missing_user_witness :
  exists s',
    get_user_details (u "no-such-id") (Demo.world Demo.server [] []) = (Ret None, s')
    /\ console s' = [not_found_line (u "no-such-id")].
Proof.
  destruct (details_of_missing_user (u "no-such-id") (Demo.world Demo.server [] []))
    as [s' [Hrun Hcons]]; [reflexivity|].
  exists s'. split; [exact Hrun|]. apply Hcons; reflexivity.
Defined.

Ltac details_done :=
  do 3 eexists; split; [reflexivity|]; split; [trace_eq|];
  repeat split; auto; repeat constructor.

Lemma get_user_details_run (user_id : pystr) (s : St) :
  exists r s1 l,
    get_user_details user_id s = (Ret r, s1)
    /\ db_trace s1 = db_trace s ++ l
    /\ db s1 = db s /\ stdin s1 = stdin s
    /\ no_delete l
    /\ (r = None \/ r = find_user user_id (db s)).
Proof.
  unfold get_user_details. run.
  destruct (self_db_initialized s); cbn [negb]; run.
  2:{ exists None, (put_line [Lit "❌ 数据库未初始化"] s), [].
      repeat split; auto. symmetry; apply app_nil_r. constructor. }
  db_step; [details_done|].
  destruct (find_user user_id (db s)) as [user|] eqn:Hfind; run;
    [|details_done].
  db_step; [details_done|].
  db_step; [details_done|].
  db_step; [details_done|].
  repeat match goal with
  | |- context [match ?x with Some _ => _ | None => _ end] => destruct x
  end; run; details_done.
Qed.

(** Deleting never brings a row back. *)
Lemma user_exists_apply_event id d e :
  user_exists id d = false -> user_exists id (apply_event d e) = false.
Proof.
  unfold apply_event. destruct (ev_ok e); [|auto].
  destruct (ev_op e); cbn [db_apply]; auto.
  unfold user_exists; cbn [users]. intros H.
  induction (users d) as [|r l IH]; cbn in *; auto.
  apply orb_false_iff in H as [Hr Hl].
  destruct (negb (id_is id0 (u_id r))); cbn; auto. rewrite Hr. auto.
Qed.

Lemma tenant_exists_apply_event id d e :
  tenant_exists id d = false -> tenant_exists id (apply_event d e) = false.
Proof.
  unfold apply_event. destruct (ev_ok e); [|auto].
  destruct (ev_op e); cbn [db_apply]; auto.
  unfold tenant_exists; cbn [tenants]. intros H.
  induction (tenants d) as [|r l IH]; cbn in *; auto.
  apply orb_false_iff in H as [Hr Hl].
  destruct (negb (id_is id0 (t_id r))); cbn; auto. rewrite Hr. auto.
Qed.

Lemma existsb_filter_negb {A} (p : A -> bool) (l : list A) :
  existsb p (filter (fun r => negb (p r)) l) = false.
Proof.
  induction l as [|x l IH]; cbn; auto.
  destruct (p x) eqn:E; cbn; auto. now rewrite E.
Qed.

Lemma user_gone_after_events id l : forall d,
  In {| ev_op := OpDeleteUser id; ev_ok := true |} l ->
  user_exists id (fold_left apply_event l d) = false.
Proof.
  induction l as [|e l IH]; intros d Hin; [destruct Hin|].
  cbn [fold_left]. destruct Hin as [-> | Hin]; [|now apply IH].
  assert (H : user_exists id (apply_event d {| ev_op := OpDeleteUser id; ev_ok := true |}) = false)
    by apply existsb_filter_negb.
  revert H. generalize (apply_event d {| ev_op := OpDeleteUser id; ev_ok := true |}).
  clear. induction l as [|e l IH]; intros d H; cbn; auto.
  apply IH. now apply user_exists_apply_event.
Qed.

Lemma tenant_gone_after_events id l : forall d,
  In {| ev_op := OpDeleteTenant id; ev_ok := true |} l ->
  tenant_exists id (fold_left apply_event l d) = false.
Proof.
  induction l as [|e l IH]; intros d Hin; [destruct Hin|].
  cbn [fold_left]. destruct Hin as [-> | Hin]; [|now apply IH].
  assert (H : tenant_exists id (apply_event d {| ev_op := OpDeleteTenant id; ev_ok := true |}) = false)
    by apply existsb_filter_negb.
  revert H. generalize (apply_event d {| ev_op := OpDeleteTenant id; ev_ok := true |}).
  clear. induction l as [|e l IH]; intros d H; cbn; auto.
  apply IH. now apply tenant_exists_apply_event.
Qed.

Ltac rollback_done third disjunct :=
  eexists; eexists; eexists; eexists; exists third;
  split; [reflexivity|];
  split; [trace_eq|];
  split; [disjunct|];
  reflexivity.

(** The teardown, statement by statement. *)
Lemma rollback_run (user_id : pystr) (s : St) :
  exists s' ok1 ok2 ok4 third,
    _rollback_user_registration user_id s = (Ret tt, s')
    /\ db_trace s' = db_trace s ++ rollback_statements user_id ok1 ok2 ok4 third
    /\ membership_attempt user_id (db s) third
    /\ db s' = fold_left apply_event
                 (rollback_statements user_id ok1 ok2 ok4 third) (db s).
Proof.
  unfold _rollback_user_registration, UserService.delete_by_id,
    TenantService.delete_by_id, UserTenantService.query,
    UserTenantService.delete_by_id, TenantLLM_delete_where,
    rollback_statements, membership_attempt.
  db_step; db_step; db_step.
  all: try (db_step;
            rollback_done [{| ev_op := OpQueryUserTenant user_id; ev_ok := false |}]
                          ltac:(left; reflexivity)).
  all: fields; unfold membership_rows at 1; cbn [db_apply user_tenants];
    fold (membership_rows user_id (db s));
    destruct (membership_rows user_id (db s)) as [|first rest] eqn:Hrows.
  all: try (db_step;
            rollback_done [{| ev_op := OpQueryUserTenant user_id; ev_ok := true |}]
                          ltac:(right; left; split; reflexivity)).
  all: db_step; db_step;
    first
      [ rollback_done [{| ev_op := OpQueryUserTenant user_id; ev_ok := true |};
                       {| ev_op := OpDeleteUserTenant (ut_id first); ev_ok := true |}]
                      ltac:(right; right; do 3 eexists; split; reflexivity)
      | rollback_done [{| ev_op := OpQueryUserTenant user_id; ev_ok := true |};
                       {| ev_op := OpDeleteUserTenant (ut_id first); ev_ok := false |}]
                      ltac:(right; right; do 3 eexists; split; reflexivity) ].
Qed.

(** C4: whatever faults are injected, [_rollback_user_registration]
    returns normally after four attempts made in this order: delete the
    account row; delete the organizational-unit row; look up the membership
    rows of the unit and, when there is one, delete the first; delete the
    model-configuration rows of the unit.  Each attempt is recorded with its
    own outcome, so a failed one stops none of the others, and the rows
    left are those the successful statements leave. *)
Theorem rollback_attempts_all_four (user_id : pystr) (s : St) :
  exists s' ok1 ok2 ok4 third,
    _rollback_user_registration user_id s = (Ret tt, s')
    /\ statements_since s s' = rollback_statements user_id ok1 ok2 ok4 third
    /\ membership_attempt user_id (db s) third
    /\ db s' = fold_left apply_event (statements_since s s') (db s).
Proof.
  destruct (rollback_run user_id s)
    as (s' & ok1 & ok2 & ok4 & third & Hrun & Htrace & Hthird & Hdb).
  exists s', ok1, ok2, ok4, third.
  rewrite (statements_since_app _ _ _ Htrace). auto.
Qed.

Lemma all_ok_app l r : all_ok (l ++ r) -> all_ok l /\ all_ok r.
Proof. unfold all_ok. apply Forall_app. Qed.

Lemma no_delete_app l r : no_delete l -> no_delete r -> no_delete (l ++ r).
Proof. unfold no_delete. intros. apply Forall_app. auto. Qed.

(** Closes a case of [delete_user_confirmed_run] up to what the case says
    about the answer. *)
Ltac confirmed_case Htrace :=
  do 3 eexists; split; [reflexivity|];
  split; [fields; rewrite Htrace, <- ?app_assoc; reflexivity|];
  split; [rewrite map_app; apply in_or_app; left; left; reflexivity|].

(** The confirmed deletion: the teardown, then the two existence checks. *)
Lemma delete_user_confirmed_run (user_id : pystr) (user_details : User) (s : St) :
  exists r s' l,
    delete_user_confirmed user_id user_details s = (r, s')
    /\ db_trace s' = db_trace s ++ l
    /\ In (OpDeleteUser user_id) (map ev_op l)
    /\ (all_ok l -> r = Ret true)
    /\ (r = Ret true ->
        user_exists user_id (db s') = false
        /\ tenant_exists user_id (db s') = false)
    /\ (r = Ret true \/ r = Ret false \/ exists e, r = Raise e).
Proof.
  unfold delete_user_confirmed. run.
  destruct (rollback_run user_id (put_line [Lit "🗑️  正在完全删除用户..."] s))
    as (s1 & ok1 & ok2 & ok4 & third & Hrun & Htrace & Hthird & Hdb).
  rewrite Hrun. run. fields_in Htrace. fields_in Hdb.
  db_step.
  { (* the first check fails *)
    confirmed_case Htrace.
    split; [intros H; apply all_ok_app in H as [_ H]; inversion H; discriminate|].
    split; [discriminate|]. right; right; eauto. }
  db_step.
  { (* the second check fails *)
    confirmed_case Htrace.
    split; [|split; [discriminate | right; right; eauto]].
    intros H. apply all_ok_app in H as [_ H].
    inversion H as [|? ? _ H']. inversion H'. discriminate. }
  fields; cbn [db_apply].
  assert (Hgone : all_ok (rollback_statements user_id ok1 ok2 ok4 third) ->
                  user_exists user_id (db s1) = false
                  /\ tenant_exists user_id (db s1) = false).
  { intros H. unfold rollback_statements in H.
    inversion H as [|? ? H1 H']; subst. inversion H' as [|? ? H2 _]; subst.
    cbn in H1, H2. subst. rewrite Hdb. split.
    - apply user_gone_after_events. left; reflexivity.
    - apply tenant_gone_after_events. right; left; reflexivity. }
  destruct (user_exists user_id (db s1)) eqn:Hu; cbn [negb andb]; run.
  { (* the account row is still there *)
    confirmed_case Htrace.
    split; [|split; [discriminate | auto]].
    intros H. apply all_ok_app in H as [H _]. apply Hgone in H as [H _].
    discriminate. }
  destruct (tenant_exists user_id (db s1)) eqn:Ht; cbn [negb andb]; run.
  { (* the organizational-unit row is still there *)
    confirmed_case Htrace.
    split; [|split; [discriminate | auto]].
    intros H. apply all_ok_app in H as [H _]. apply Hgone in H as [_ H].
    discriminate. }
  confirmed_case Htrace.
  split; [reflexivity|]. split; [|auto]. intros _. fields. cbn [db_apply]. auto.
Qed.

(** [delete_user] always answers [True] or [False]; [True] only when
    both rows are gone. *)
Lemma delete_user_run (user_id : pystr) (confirm : bool) (s : St) :
  exists b s' l,
    delete_user user_id confirm s = (Ret b, s')
    /\ db_trace s' = db_trace s ++ l
    /\ (In (OpDeleteUser user_id) (map ev_op l) -> all_ok l -> b = true)
    /\ (b = true ->
        user_exists user_id (db s') = false /\ tenant_exists user_id (db s') = false).
Proof.
  unfold delete_user. run.
  destruct (self_db_initialized s); cbn [negb]; run.
  2:{ exists false. do 2 eexists. split; [reflexivity|].
      split; [fields; symmetry; apply app_nil_r|]. split; [intros []|discriminate]. }
  destruct (get_user_details_run user_id s)
    as (r & s1 & l1 & Hrun & Htrace & Hdb & Hin & Hnd & Hr).
  rewrite Hrun. run.
  assert (Hl1 : ~ In (OpDeleteUser user_id) (map ev_op l1)).
  { clear - Hnd. induction Hnd as [|e l He _ IH]; cbn; [tauto|].
    intros [H|H]; [|tauto]. rewrite H in He. discriminate. }
  destruct r as [user_details|]; run.
  2:{ exists false. do 2 eexists. split; [reflexivity|].
      split; [exact Htrace|]. split; [tauto|discriminate]. }
  pose proof (delete_user_confirmed_run user_id user_details) as Hconf.
  destruct confirm; run.
  - unfold input. fields. rewrite Hin.
    destruct (stdin s) as [|line rest]; run.
    { exists false. do 2 eexists. split; [reflexivity|].
      split; [fields; exact Htrace|]. split; [tauto|discriminate]. }
    destruct (pystr_eqb (strip line) (u "DELETE")); cbn [negb]; run.
    2:{ exists false. do 2 eexists. split; [reflexivity|].
        split; [fields; exact Htrace|]. split; [tauto|discriminate]. }
    match goal with |- context [delete_user_confirmed _ _ ?st] =>
      destruct (Hconf st) as (r & s' & l & Hc & Htr & Hdel & Hok & Htrue & Hcases) end.
    rewrite Hc. fields_in Htr. rewrite Htrace, <- app_assoc in Htr.
    destruct Hcases as [-> | [-> | [e ->]]]; run.
    + exists true. do 2 eexists. split; [reflexivity|]. split; [exact Htr|]. auto.
    + exists false. do 2 eexists. split; [reflexivity|]. split; [exact Htr|].
      split; [|discriminate]. intros _ H. apply all_ok_app in H as [_ H].
      apply Hok in H. discriminate.
    + exists false. do 2 eexists. split; [reflexivity|]. split; [fields; exact Htr|].
      split; [|discriminate]. intros _ H. apply all_ok_app in H as [_ H].
      apply Hok in H. discriminate.
  - destruct (Hconf s1) as (r & s' & l & Hc & Htr & Hdel & Hok & Htrue & Hcases).
    rewrite Hc. rewrite Htrace, <- app_assoc in Htr.
    destruct Hcases as [-> | [-> | [e ->]]]; run.
    + exists true. do 2 eexists. split; [reflexivity|]. split; [exact Htr|]. auto.
    + exists false. do 2 eexists. split; [reflexivity|]. split; [exact Htr|].
      split; [|discriminate]. intros _ H. apply all_ok_app in H as [_ H].
      apply Hok in H. discriminate.
    + exists false. do 2 eexists. split; [reflexivity|]. split; [fields; exact Htr|].
      split; [|discriminate]. intros _ H. apply all_ok_app in H as [_ H].
      apply Hok in H. discriminate.
Qed.

(** C5: [delete_user] answers [True] or [False].  When the run reaches the
    deletion of the account row and every statement of the run goes through
    (the four sub-deletes and the two existence checks among them), both
    existence checks find nothing and the answer is [True]; when the
    account row or the organizational-unit row still exists afterwards, the
    answer is [False]. *)
Theorem delete_user_reports (user_id : pystr) (confirm : bool) (s : St) :
  exists b s',
    delete_user user_id confirm s = (Ret b, s')
    /\ (In (OpDeleteUser user_id) (map ev_op (statements_since s s')) ->
        all_ok (statements_since s s') ->
        b = true
        /\ user_exists user_id (db s') = false
        /\ tenant_exists user_id (db s') = false)
    /\ (user_exists user_id (db s') = true \/ tenant_exists user_id (db s') = true ->
        b = false).
Proof.
  destruct (delete_user_run user_id confirm s)
    as (b & s' & l & Hrun & Htrace & Hok & Htrue).
  exists b, s'. rewrite (statements_since_app _ _ _ Htrace).
  split; [exact Hrun|]. split.
  - intros Hin Hall. pose proof (Hok Hin Hall) as Hb. split; [exact Hb|]. auto.
  - intros H. destruct b; [|reflexivity].
    destruct (Htrue eq_refl) as [Hu Ht]. rewrite Hu, Ht in H.
    destruct H; discriminate.
Qed.

(** [delete_user_reports] on the demo database: the deletion of the one
    account is confirmed and nothing fails. *)
Lemma delete_user_reports_witness :
  exists s',
    delete_user (u "a1b2") true (Demo.world Demo.server [u "DELETE"] []) = (Ret true, s')
    /\ user_exists (u "a1b2") (db s') = false
    /\ tenant_exists (u "a1b2") (db s') = false.
Proof.
  destruct (delete_user_reports (u "a1b2") true (Demo.world Demo.server [u "DELETE"] []))
    as (b & s' & Hrun & Hok & _).
  assert (Hs' : s' = snd (delete_user (u "a1b2") true (Demo.world Demo.server [u "DELETE"] [])))
    by (rewrite Hrun; reflexivity).
  destruct Hok as (-> & Hu & Ht).
  - rewrite Hs'. vm_compute. do 4 right. left. reflexivity.
  - rewrite Hs'. vm_compute. repeat constructor.
  - exists s'. auto.
Defined.

(** C10, as the code has it: with confirmation enabled and a confirmation
    line that, once surrounding whitespace is stripped, differs from
    [DELETE] (or no line at all), or with no account row for the
    identifier, [delete_user] answers [False], executes no delete statement
    and leaves every row as it was. *)
Theorem delete_user_declined (user_id : pystr) (confirm : bool) (s : St) :
  (confirm = true
   /\ forall line rest, stdin s = line :: rest -> strip line <> u "DELETE")
  \/ find_user user_id (db s) = None ->
  exists s',
    delete_user user_id confirm s = (Ret false, s')
    /\ db s' = db s
    /\ no_delete (statements_since s s').
Proof.
  intros Hdecl. unfold delete_user. run.
  destruct (self_db_initialized s); cbn [negb]; run.
  2:{ eexists. split; [reflexivity|]. split; [reflexivity|].
      rewrite (statements_since_app _ _ []); [constructor|].
      fields. symmetry. apply app_nil_r. }
  destruct (get_user_details_run user_id s)
    as (r & s1 & l1 & Hrun & Htrace & Hdb & Hin & Hnd & Hr).
  rewrite Hrun. run.
  destruct r as [user_details|]; run.
  2:{ eexists. split; [reflexivity|]. split; [exact Hdb|].
      now rewrite (statements_since_app _ _ _ Htrace). }
  destruct Hdecl as [[-> Hline] | Hnone].
  2:{ destruct Hr as [Hr|Hr]; [discriminate|]. rewrite Hnone in Hr. discriminate. }
  run. unfold input. fields. rewrite Hin.
  destruct (stdin s) as [|line rest]; run.
  { eexists. split; [reflexivity|]. split; [fields; exact Hdb|].
    rewrite (statements_since_app _ _ l1); [exact Hnd|]. fields. exact Htrace. }
  destruct (pystr_eqb (strip line) (u "DELETE")) eqn:E; cbn [negb]; run.
  { apply pystr_eqb_eq in E. exfalso. exact (Hline line rest eq_refl E). }
  eexists. split; [reflexivity|]. split; [fields; exact Hdb|].
  rewrite (statements_since_app _ _ l1); [exact Hnd|]. fields. exact Htrace.
Qed.

(** [delete_user_declined] on the demo database: a lower-case answer, and
    an identifier that is not there. *)
Lemma delete_user_declined_witness :
  (exists s',
     delete_user (u "a1b2") true (Demo.world Demo.server [u "delete"] []) = (Ret false, s')
     /\ db s' = Demo.database)
  /\ (exists s',
        delete_user (u "no-such-id") false (Demo.world Demo.server [] []) = (Ret false, s')
        /\ db s' = Demo.database).
Proof.
  split.
  - destruct (delete_user_declined (u "a1b2") true (Demo.world Demo.server [u "delete"] []))
      as (s' & Hrun & Hdb & _).
    + left. split; [reflexivity|]. intros line rest H. injection H as <- _.
      vm_compute. discriminate.
    + exists s'. auto.
  - destruct (delete_user_declined (u "no-such-id") false (Demo.world Demo.server [] []))
      as (s' & Hrun & Hdb & _).
    + right. reflexivity.
    + exists s'. auto.
Defined.

(** C10 as the spec states it fails: the confirmation line [DELETE ] with
    a trailing blank is not the exact string [DELETE], yet the account is
    deleted and the answer is [True]. *)
Lemma delete_user_accepts_padded_confirmation :
  u "DELETE " <> u "DELETE"
  /\ exists s',
       delete_user (u "a1b2") true (Demo.world Demo.server [u "DELETE "] []) = (Ret true, s')
       /\ In {| ev_op := OpDeleteUser (u "a1b2"); ev_ok := true |} (db_trace s')
       /\ users (db s') = [].
Proof.
  split; [vm_compute; discriminate|].
  eexists. split; [vm_compute; reflexivity|].
  split; [vm_compute; do 4 right; left; reflexivity | reflexivity].
Qed.

(** ** Listings *)

(** [list_users] always hands back a list. *)
Lemma list_users_returns_list (s : St) :
  exists l s', list_users s = (Ret (PList l), s').
Proof.
  unfold list_users. run.
  destruct (self_db_initialized s); cbn [negb]; run; [|eauto].
  db_step; [eauto|].
  destruct (users (db s)) as [|row rows]; run; [eauto|].
  match goal with |- context [list_users_loop ?r ?a ?st] =>
    destruct (list_users_loop r a st) as [[l|e] s1] end; run; eauto.
Qed.

(** With no account row, [list_users] hands back the empty list. *)
Lemma list_users_empty (s : St) :
  users (db s) = [] -> exists s', list_users s = (Ret (PList []), s').
Proof.
  intros Hnone. unfold list_users. run.
  destruct (self_db_initialized s); cbn [negb]; run; [|eauto].
  db_step; [eauto|]. rewrite Hnone. run. eauto.
Qed.

(** C7: every paged method of the wrapper (the seven [list_*] methods and
    [retrieve_chunks]) makes one remote call whose [page] and [page_size]
    are the values it was given (the defaults 1 and 30 when they are left
    out); when the SDK answers with the empty list the method returns the
    empty list, and it never returns [None].  [list_users], which takes no
    page arguments, always returns a list, the empty one when there is no
    account row. *)
Theorem listings_forward_pages (self : RAGFlowSDKClient) (op : Listing)
    (page page_size : option pyval) (w : Sdk) (s : St) :
  let call := listing_call self op page page_size in
  let run := run_listing self op page page_size w in
  sdk_calls (snd run) = sdk_calls w ++ [call]
  /\ kwarg (call_kwargs call) "page" = Some (arg page (PInt 1))
  /\ kwarg (call_kwargs call) "page_size" = Some (arg page_size (PInt 30))
  /\ (remote w (sdk_calls w) call = Ret (PList []) -> fst run = Ret (PList []))
  /\ fst run <> Ret PNone
  /\ (exists l, fst (list_users s) = Ret (PList l))
  /\ (users (db s) = [] -> fst (list_users s) = Ret (PList [])).
Proof.
  cbv zeta. split; [apply listing_calls_once|].
  split; [apply listing_call_pages|]. split; [apply listing_call_pages|].
  rewrite listing_result. split; [intros ->; reflexivity|].
  split.
  - destruct (remote w (sdk_calls w) (listing_call self op page page_size)) as [[]|];
      discriminate.
  - split.
    + destruct (list_users_returns_list s) as (l & s' & H). exists l. now rewrite H.
    + intros H. destruct (list_users_empty s H) as (s' & H'). now rewrite H'.
Qed.

(** [listings_forward_pages] on the demo SDK, which has nothing to list,
    and on a database without accounts. *)
Lemma listings_forward_pages_witness :
  let self := {| base_url := default_base_url; api_token := PStr (u "ragflow-XYZ");
                 rag := {| rag_api_key := PStr (u "ragflow-XYZ");
                           rag_base_url := PStr default_base_url |} |} in
  let s := Demo.world Demo.server [] [] in
  let empty := db_commit (OpDeleteUser (u "a1b2")) true s in
  fst (list_datasets self (Some (PInt 3)) (Some (PInt 50)) None Demo.sdk) = Ret (PList [])
  /\ fst (list_users empty) = Ret (PList []).
Proof.
  intros self s empty.
  destruct (listings_forward_pages self (ListDatasets None) (Some (PInt 3))
              (Some (PInt 50)) Demo.sdk empty)
    as (_ & _ & _ & Hempty & _ & _ & Husers).
  split; [apply Hempty; reflexivity | apply Husers; reflexivity].
Defined.

(** ** The registration flow *)

(** Runs the HTTP and encryption primitives as well. *)
Ltac run_io :=
  cbv beta iota delta [bind ret raise try_except lift_option print get_host
                       str_encode bytes_decode RSA.importKey cipher_encrypt
                       session_get session_post session_request
                       response_json py_get
                       session_headers_update].

(** Splits on whatever the next step depends on. *)
Ltac split_step :=
  match goal with
  | |- context [match ?x with _ => _ end] =>
      lazymatch x with
      | context [match _ with _ => _ end] => fail
      | _ => destruct x eqn:?
      end
  | |- context [if ?x then _ else _] =>
      lazymatch x with
      | context [match _ with _ => _ end] => fail
      | context [if _ then _ else _] => fail
      | _ => destruct x eqn:?
      end
  end; run_io.

(** Encryption sends nothing and leaves the session alone. *)
Lemma encrypt_password_frame (password : pystr) (s : St) :
  exists r s1,
    encrypt_password password s = (Ret r, s1)
    /\ http_log s1 = http_log s
    /\ self_host s1 = self_host s
    /\ self_headers s1 = self_headers s
    /\ net s1 = net s.
Proof.
  unfold encrypt_password. run_io.
  repeat split_step; do 2 eexists; (split; [reflexivity|]); fields; auto.
Qed.

(** The probe sends one request. *)
Lemma check_server_status_run (s : St) :
  exists b s1,
    check_server_status s = (Ret b, s1)
    /\ http_log s1 = http_log s ++ [mk_request s "GET" (probe_url s) None (Some 5%Z)]
    /\ self_host s1 = self_host s.
Proof.
  unfold check_server_status, probe_url. run_io.
  repeat split_step; do 2 eexists; (split; [reflexivity|]); fields; auto.
Qed.

(** Registration sends at most one request, to the registration
    endpoint; what it hands back is [None] or a dict. *)
Lemma register_user_run (nickname email password : pystr) (s : St) :
  exists r s1,
    _register_user nickname email password s = (Ret r, s1)
    /\ (http_log s1 = http_log s
        \/ exists rq, http_log s1 = http_log s ++ [rq]
                      /\ rq_url rq = register_url s)
    /\ self_host s1 = self_host s
    /\ (r = PNone \/ exists d, r = PDict d).
Proof.
  unfold _register_user, register_url. run_io.
  destruct (encrypt_password_frame password s) as (e & s0 & He & Hlog & Hhost & Hhdr & Hnet).
  rewrite He. run_io.
  destruct (truthy e); cbn [negb]; run_io.
  2:{ do 2 eexists. split; [reflexivity|]. auto. }
  repeat split_step; do 2 eexists; (split; [reflexivity|]); fields;
    rewrite ?Hlog, ?Hhost; (split; [right; eexists; split; reflexivity|]); eauto.
Qed.

(** Token issuance sends one request, to the token endpoint. *)
Lemma get_api_token_run (s : St) :
  exists r s1,
    _get_api_token s = (Ret r, s1)
    /\ (exists rq, http_log s1 = http_log s ++ [rq] /\ rq_url rq = token_url s).
Proof.
  unfold _get_api_token, token_url. run_io.
  repeat split_step; do 2 eexists; (split; [reflexivity|]); fields;
    eexists; split; reflexivity.
Qed.

Lemma probe_url_not_token (s : St) : probe_url s <> token_url s.
Proof.
  unfold probe_url, token_url. intros H. apply app_inv_head in H.
  vm_compute in H. discriminate.
Qed.

Lemma register_url_not_token (s : St) : register_url s <> token_url s.
Proof.
  unfold register_url, token_url. intros H. apply app_inv_head in H.
  vm_compute in H. discriminate.
Qed.

(** C3: the steps of the flow are gated.  (a) When the probe fails, the
    result is [None] and the probe is the only request sent.  (b) When the
    probe passes and registration fails, the result is [None], the flow
    stops in the state registration left, and no request went to the token
    endpoint.  (c) When the probe and registration pass (the registered
    data being a JSON object) and only token issuance fails, the result is
    the partial one: the user data, a null [api_token], and a message. *)
Theorem registration_flow_gated (nickname email password : pystr) (s : St) :
  (forall s1,
     check_server_status s = (Ret false, s1) ->
     exists s',
       register_user_and_get_api_token nickname email password s = (Ret PNone, s')
       /\ map rq_url (requests_since s s') = [probe_url s])
  /\ (forall s1 register_result s2,
        check_server_status s = (Ret true, s1) ->
        _register_user nickname email password s1 = (Ret register_result, s2) ->
        truthy register_result = false ->
        register_user_and_get_api_token nickname email password s = (Ret PNone, s2)
        /\ ~ In (token_url s) (map rq_url (requests_since s s2)))
  /\ (forall s1 d user_info s2 api_token s3,
        check_server_status s = (Ret true, s1) ->
        _register_user nickname email password s1 = (Ret (PDict d), s2) ->
        truthy (PDict d) = true ->
        dict_get_or d (u "data") (PDict []) = PDict user_info ->
        _get_api_token
          (put_line (registered_line nickname
                       (dict_get_or user_info (u "id") PNone)) s2)
        = (Ret api_token, s3) ->
        truthy api_token = false ->
        exists s',
          register_user_and_get_api_token nickname email password s
          = (Ret (partial_info (PDict user_info)), s')).
Proof.
  split; [|split].
  - intros s1 Hprobe.
    destruct (check_server_status_run s) as (b & s1' & Hrun & Hlog & _).
    rewrite Hprobe in Hrun. injection Hrun as <- <-.
    unfold register_user_and_get_api_token. run_io. rewrite Hprobe. run_io.
    cbn [negb]. run_io. eexists. split; [reflexivity|].
    erewrite requests_since_app by (fields; exact Hlog). reflexivity.
  - intros s1 rr s2 Hprobe Hreg Hfalsy.
    destruct (check_server_status_run s) as (b & s1' & Hrun & Hlog & Hhost).
    rewrite Hprobe in Hrun. injection Hrun as <- <-.
    destruct (register_user_run nickname email password s1)
      as (r & s2' & Hrun & Hlog2 & _ & _).
    rewrite Hreg in Hrun. injection Hrun as <- <-.
    unfold register_user_and_get_api_token. run_io. rewrite Hprobe. run_io.
    cbn [negb]. rewrite Hreg. run_io. rewrite Hfalsy. cbn [negb]. run_io.
    split; [reflexivity|].
    destruct Hlog2 as [Hlog2 | (rq & Hlog2 & Hurl)].
    + erewrite requests_since_app by (rewrite Hlog2; exact Hlog).
      cbn. intros [H|[]]. now apply (probe_url_not_token s).
    + erewrite requests_since_app
        by (rewrite Hlog2, Hlog, <- app_assoc; reflexivity).
      cbn. rewrite Hurl. unfold register_url. rewrite Hhost.
      intros [H|[H|[]]].
      * now apply (probe_url_not_token s).
      * now apply (register_url_not_token s).
  - intros s1 d user_info s2 api_token s3 Hprobe Hreg Htruthy Hdata Htoken Hfalsy.
    unfold register_user_and_get_api_token. run_io. rewrite Hprobe. run_io.
    cbn [negb]. rewrite Hreg. run_io. rewrite Htruthy. cbn [negb]. run_io.
    rewrite Hdata. run_io. rewrite Htoken.
    run_io. rewrite Hfalsy. cbn [negb]. run_io. eexists. reflexivity.
Qed.

(** [registration_flow_gated] in front of three servers: one that is
    down, one that refuses to register, one that refuses to issue a
    token. *)
Lemma registration_flow_gated_witness :
  let run srv :=
    register_user_and_get_api_token (u "TestUser_demo") (u "user_demo@example.com")
      (u "Test123456") (Demo.world srv [] []) in
  fst (run Demo.server_down) = Ret PNone
  /\ fst (run Demo.server_no_register) = Ret PNone
  /\ fst (run Demo.server_no_token) = Ret (partial_info Demo.user_data).
Proof.
  intros run. subst run. cbv beta.
  split; [|split].
  - pose (w := Demo.world Demo.server_down [] []).
    destruct (proj1 (registration_flow_gated (u "TestUser_demo")
                       (u "user_demo@example.com") (u "Test123456") w)
                (snd (check_server_status w)))
      as (s' & Hrun & _); [vm_compute; reflexivity|].
    fold w. rewrite Hrun. reflexivity.
  - pose (w := Demo.world Demo.server_no_register [] []).
    pose (s1 := snd (check_server_status w)).
    destruct (proj1 (proj2 (registration_flow_gated (u "TestUser_demo")
                       (u "user_demo@example.com") (u "Test123456") w))
                s1 PNone
                (snd (_register_user (u "TestUser_demo") (u "user_demo@example.com")
                        (u "Test123456") s1)))
      as (Hrun & _); [vm_compute; reflexivity | vm_compute; reflexivity | reflexivity |].
    fold w. rewrite Hrun. reflexivity.
  - pose (w := Demo.world Demo.server_no_token [] []).
    pose (s1 := snd (check_server_status w)).
    pose (s2 := snd (_register_user (u "TestUser_demo") (u "user_demo@example.com")
                       (u "Test123456") s1)).
    pose (s2' := put_line (registered_line (u "TestUser_demo") (PStr (u "a1b2"))) s2).
    destruct (proj2 (proj2 (registration_flow_gated (u "TestUser_demo")
                       (u "user_demo@example.com") (u "Test123456") w))
                s1 [(u "code", PInt 0); (u "data", Demo.user_data)]
                [(u "id", PStr (u "a1b2"));
                 (u "nickname", PStr (u "TestUser_demo"));
                 (u "email", PStr (u "user_demo@example.com"));
                 (u "create_time", PInt 1700000000);
                 (u "access_token", PStr (u "tok-access"))]
                s2 PNone (snd (_get_api_token s2')))
      as (s' & Hrun);
      [vm_compute; reflexivity | vm_compute; reflexivity | reflexivity
      | reflexivity | vm_compute; reflexivity | reflexivity |].
    fold w. rewrite Hrun. reflexivity.
Defined.

(** The three results of the flow. *)
Lemma register_result_shape (nickname email password : pystr) (s : St) r s' :
  register_user_and_get_api_token nickname email password s = (Ret r, s') ->
  r = PNone
  \/ (exists user_info, r = partial_info user_info)
  \/ (exists id nick mail create_time access_token api_token,
        truthy api_token = true
        /\ r = complete_info id nick mail create_time access_token api_token id).
Proof.
  unfold register_user_and_get_api_token. run_io.
  repeat split_step; intros H; try discriminate H; injection H as <- <-;
    first [ now left
          | right; left; eexists; reflexivity
          | right; right; do 6 eexists;
            split; [apply negb_false_iff; eassumption | reflexivity] ].
Qed.

(** Looks a literal key up in a dict that is written out. *)
Ltac eval_lookup :=
  match goal with
  | |- context [dict_get_or ?d ?k ?v] =>
      let x := eval vm_compute in (dict_get_or d k v) in
      change (dict_get_or d k v) with x
  | |- context [dict_get ?d ?k] =>
      let x := eval vm_compute in (dict_get d k) in
      change (dict_get d k) with x
  end.

Lemma pystr_eqb_refl (a : pystr) : pystr_eqb a a = true.
Proof. now apply pystr_eqb_eq. Qed.

(** C8: when [create_test_user] returns a result that reports success,
    the file [ragflow_user_<suffix>.json] (the suffix being the supplied
    one, or the first eight characters of a fresh uuid) holds that result;
    the token of the result is the one shown on the [API Token] line of the
    terminal; and the [tenant_id] of the result is the [id] of its user. *)
Theorem create_test_user_writes_file (user_suffix : option pystr) (s : St)
    (result : pyval) (s' : St) :
  create_test_user user_suffix s = (Ret result, s') ->
  (exists d ok, result = PDict d
                /\ dict_get d (u "success") = Some ok /\ truthy ok = true) ->
  fs_lookup (fs s') (test_user_filename (effective_suffix user_suffix s))
  = Some result
  /\ exists d user token id,
       result = PDict d
       /\ dict_get d (u "api_token") = Some token
       /\ In [Lit "   API Token: "; Val token] (console s')
       /\ dict_get d (u "user") = Some (PDict user)
       /\ dict_get user (u "id") = Some id
       /\ dict_get d (u "tenant_id") = Some id.
Proof.
  intros Hrun (d & ok & -> & Hsuccess & Hok).
  revert Hrun. unfold create_test_user.
  set (sfx := effective_suffix user_suffix s).
  assert (Hs : exists s0,
             (match user_suffix with
              | Some (c :: r) => ret (c :: r)
              | _ => x <- uuid4_str;; ret (firstn 8 x)
              end) s = (Ret sfx, s0)).
  { subst sfx. destruct user_suffix as [[|c r]|]; eexists; reflexivity. }
  destruct Hs as (s0 & Hs). unfold bind at 1. rewrite Hs. clear Hs.
  generalize dependent sfx. intros sfx. run_io.
  match goal with |- context [register_user_and_get_api_token ?a ?b ?c ?st] =>
    destruct (register_user_and_get_api_token a b c st) as [[r|e] s1] eqn:Hreg
  end; run_io; [|discriminate].
  apply register_result_shape in Hreg.
  destruct Hreg as [-> | [(ui & ->) | (id & nick & mail & ct & at_ & tok & Htok & ->)]].
  - cbn [truthy]. run_io. discriminate.
  - unfold partial_info at 1. cbn [truthy]. run_io.
    cbv beta iota delta [partial_info]. eval_lookup. cbn [truthy]. run_io.
    intros H. injection H as <- <-. vm_compute in Hsuccess. discriminate.
  - unfold complete_info at 1. cbn [truthy]. run_io.
    cbv beta iota delta [complete_info py_getitem]. repeat (progress eval_lookup; run_io).
    cbn [truthy]. run_io.
    unfold write_json_file.
    match goal with |- context [fs_denied ?st ?f] => destruct (fs_denied st f) end;
      run_io; [discriminate|].
    intros H. injection H as <- <-. split.
    + fields. cbn [fs_lookup]. now rewrite pystr_eqb_refl.
    + do 4 eexists. split; [reflexivity|]. split; [reflexivity|].
      split; [|repeat split; reflexivity].
      fields. apply in_or_app. left. apply in_or_app. left.
      apply in_or_app. right. left. reflexivity.
Qed.

(** [create_test_user_writes_file] in front of the demo server, with a
    generated suffix. *)
Lemma create_test_user_writes_file_witness :
  let s := Demo.world Demo.server [] [] in
  let run := create_test_user None s in
  fs_lookup (fs (snd run)) (u "ragflow_user_3f2b8c1d.json")
  = Some (complete_info (PStr (u "a1b2")) (PStr (u "TestUser_demo"))
            (PStr (u "user_demo@example.com")) (PInt 1700000000)
            (PStr (u "tok-access")) (PStr (u "ragflow-XYZ")) (PStr (u "a1b2"))).
Proof.
  intros s run.
  pose (result := complete_info (PStr (u "a1b2")) (PStr (u "TestUser_demo"))
            (PStr (u "user_demo@example.com")) (PInt 1700000000)
            (PStr (u "tok-access")) (PStr (u "ragflow-XYZ")) (PStr (u "a1b2"))).
  destruct (create_test_user_writes_file None s result (snd run)) as (Hfile & _).
  - vm_compute. reflexivity.
  - do 2 eexists. split; [reflexivity|]. split; reflexivity.
  - exact Hfile.
Defined.

(** ** Bytes, UTF-8 and base64 *)

(** Quotients and remainders by constants are left to [lia]. *)
Ltac Zify.zify_post_hook ::= Z.to_euclidean_division_equations.

Lemma to_N_lt_256 (b : byte) : Byte.to_N b < 256.
Proof. pose proof (Byte.to_N_bounded b). lia. Qed.

Lemma to_N_byte_of_N (x : N) : x < 256 -> Byte.to_N (byte_of_N x) = x.
Proof.
  intros H. unfold byte_of_N. rewrite N.mod_small by exact H.
  destruct (Byte.of_N x) as [b|] eqn:E.
  - now apply Byte.to_of_N.
  - apply Byte.of_N_None_iff in E. lia.
Qed.

Lemma byte_of_N_to_N (b : byte) : byte_of_N (Byte.to_N b) = b.
Proof.
  unfold byte_of_N. rewrite N.mod_small by apply to_N_lt_256.
  now rewrite Byte.of_to_N.
Qed.

(** Decides the comparisons of a goal by arithmetic. *)
Ltac cmp_lia :=
  repeat match goal with
  | |- context [?a <? ?b] =>
      destruct (N.ltb_spec a b); try lia
  | |- context [?a <=? ?b] =>
      destruct (N.leb_spec a b); try lia
  | |- context [?a =? ?b] =>
      destruct (N.eqb_spec a b); try lia
  end.

(** The four shapes of a well-formed sequence. *)
Lemma decode_1 (b0 : byte) (rest : pybytes) :
  Byte.to_N b0 < 0x80 ->
  Utf8.decode (b0 :: rest) = option_map (cons (Byte.to_N b0)) (Utf8.decode rest).
Proof.
  intros H. cbn [Utf8.decode]. cbv zeta. cmp_lia. reflexivity.
Qed.

Lemma decode_2 (b0 b1 : byte) (rest : pybytes) :
  0xC2 <= Byte.to_N b0 < 0xE0 ->
  0x80 <= Byte.to_N b1 < 0xC0 ->
  Utf8.decode (b0 :: b1 :: rest)
  = option_map (cons ((Byte.to_N b0 - 0xC0) * 64 + (Byte.to_N b1 - 0x80)))
      (Utf8.decode rest).
Proof.
  intros H0 H1. cbn [Utf8.decode]. cbv zeta. unfold Utf8.is_cont.
  cmp_lia. reflexivity.
Qed.

Lemma decode_3 (b0 b1 b2 : byte) (rest : pybytes) :
  let c := (Byte.to_N b0 - 0xE0) * 4096 + (Byte.to_N b1 - 0x80) * 64
           + (Byte.to_N b2 - 0x80) in
  0xE0 <= Byte.to_N b0 < 0xF0 ->
  0x80 <= Byte.to_N b1 < 0xC0 ->
  0x80 <= Byte.to_N b2 < 0xC0 ->
  0x800 <= c -> (c < 0xD800 \/ 0xDFFF < c) ->
  Utf8.decode (b0 :: b1 :: b2 :: rest) = option_map (cons c) (Utf8.decode rest).
Proof.
  intros c H0 H1 H2 Hc Hs. cbn [Utf8.decode]. cbv zeta. unfold Utf8.is_cont.
  fold c. cmp_lia; reflexivity.
Qed.

Lemma decode_4 (b0 b1 b2 b3 : byte) (rest : pybytes) :
  let c := (Byte.to_N b0 - 0xF0) * 262144 + (Byte.to_N b1 - 0x80) * 4096
           + (Byte.to_N b2 - 0x80) * 64 + (Byte.to_N b3 - 0x80) in
  0xF0 <= Byte.to_N b0 < 0xF5 ->
  0x80 <= Byte.to_N b1 < 0xC0 ->
  0x80 <= Byte.to_N b2 < 0xC0 ->
  0x80 <= Byte.to_N b3 < 0xC0 ->
  0x10000 <= c < 0x110000 ->
  Utf8.decode (b0 :: b1 :: b2 :: b3 :: rest) = option_map (cons c) (Utf8.decode rest).
Proof.
  intros c H0 H1 H2 H3 Hc. cbn [Utf8.decode]. cbv zeta. unfold Utf8.is_cont.
  fold c. cmp_lia; reflexivity.
Qed.

Lemma some_eq {A} (x y : A) : Some x = Some y -> x = y.
Proof. congruence. Qed.

(** Decoding undoes the encoding of one code point. *)
Lemma decode_encode_char (c : N) (bs rest : pybytes) :
  Utf8.encode_char c = Some bs ->
  Utf8.decode (bs ++ rest) = option_map (cons c) (Utf8.decode rest).
Proof.
  unfold Utf8.encode_char.
  destruct (N.ltb_spec c 0x80).
  { intros H'. apply some_eq in H'. subst bs. change ([?x] ++ rest) with (x :: rest).
    rewrite decode_1; rewrite to_N_byte_of_N by lia; [reflexivity|lia]. }
  destruct (N.ltb_spec c 0x800).
  { intros H'. apply some_eq in H'. subst bs.
    change ([?x; ?y] ++ rest) with (x :: y :: rest).
    rewrite decode_2; rewrite ?to_N_byte_of_N by lia; [|lia|lia].
    f_equal. f_equal. lia. }
  destruct (N.leb_spec 0xD800 c); [destruct (N.leb_spec c 0xDFFF)|];
    cbn [andb]; [discriminate| |].
  all: destruct (N.ltb_spec c 0x10000).
  all: try (intros H'; apply some_eq in H'; subst bs;
            change ([?x; ?y; ?z] ++ rest) with (x :: y :: z :: rest);
            rewrite decode_3; rewrite ?to_N_byte_of_N by lia; try lia;
            f_equal; f_equal; lia).
  all: destruct (N.ltb_spec c 0x110000); [|discriminate].
  all: intros H'; apply some_eq in H'; subst bs;
    change ([?x; ?y; ?z; ?t] ++ rest) with (x :: y :: z :: t :: rest);
    rewrite decode_4; rewrite ?to_N_byte_of_N by lia; try lia;
    f_equal; f_equal; lia.
Qed.

(** UTF-8 round trip: what [encode] produces, [decode] reads back. *)
Lemma decode_encode (s : pystr) (bs : pybytes) :
  Utf8.encode s = Some bs -> Utf8.decode bs = Some s.
Proof.
  revert bs. induction s as [|c s IH]; intros bs; cbn [Utf8.encode].
  - intros H. injection H as <-. reflexivity.
  - destruct (Utf8.encode_char c) as [cb|] eqn:Hc; [|discriminate].
    destruct (Utf8.encode s) as [rest|]; [|discriminate].
    intros H. injection H as <-.
    rewrite (decode_encode_char _ _ _ Hc), (IH rest eq_refl). reflexivity.
Qed.

(** Bytes below 128 are their own UTF-8. *)
Lemma decode_ascii (bs : pybytes) :
  ascii_bytes bs -> Utf8.decode bs = Some (ascii_text bs).
Proof.
  induction 1 as [|b bs Hb _ IH]; [reflexivity|].
  rewrite decode_1 by exact Hb. rewrite IH. reflexivity.
Qed.

Lemma encode_ascii (bs : pybytes) :
  ascii_bytes bs -> Utf8.encode (ascii_text bs) = Some bs.
Proof.
  induction 1 as [|b bs Hb _ IH]; [reflexivity|].
  unfold ascii_text in *. cbn [map Utf8.encode]. rewrite IH. unfold Utf8.encode_char.
  destruct (N.ltb_spec (Byte.to_N b) 0x80); [|lia].
  now rewrite byte_of_N_to_N.
Qed.

(** The alphabet: 64 distinct ASCII characters, none of them the pad. *)
Lemma char_of_spec (v : N) :
  v < 64 ->
  base64.value_of (base64.char_of v) = Some v
  /\ base64.is_pad (base64.char_of v) = false
  /\ Byte.to_N (base64.char_of v) < 128.
Proof.
  intros Hv. unfold base64.value_of, base64.is_pad, base64.char_of.
  destruct (N.ltb_spec v 26); [|destruct (N.ltb_spec v 52);
    [|destruct (N.ltb_spec v 62); [|destruct (N.eqb_spec v 62)]]];
    rewrite !to_N_byte_of_N by lia; cbv zeta; cmp_lia; cbn [andb];
    (split; [f_equal; lia | split; [reflexivity | lia]]).
Qed.

Lemma pad_spec :
  base64.is_pad base64.pad = true /\ Byte.to_N base64.pad < 128.
Proof. split; vm_compute; reflexivity. Qed.

(** Induction over a list three elements at a time. *)
Lemma list_ind3 {A} (P : list A -> Prop) :
  P [] -> (forall a, P [a]) -> (forall a b, P [a; b]) ->
  (forall a b c rest, P rest -> P (a :: b :: c :: rest)) ->
  forall l, P l.
Proof.
  intros H0 H1 H2 H3. fix IH 1.
  intros [|a [|b [|c rest]]];
    [exact H0 | apply H1 | apply H2 | apply H3; apply IH].
Qed.

Ltac byte_bounds :=
  repeat match goal with
  | b : byte |- _ =>
      lazymatch goal with
      | _ : Byte.to_N b < 256 |- _ => fail
      | _ => pose proof (to_N_lt_256 b)
      end
  end.

Lemma b64encode_ascii (bs : pybytes) : ascii_bytes (base64.b64encode bs).
Proof.
  induction bs as [|a|a b|a b c rest IH] using list_ind3;
    cbn [base64.b64encode]; cbv zeta;
    repeat (apply Forall_cons || apply Forall_nil);
    try apply pad_spec; try exact IH;
    apply char_of_spec; byte_bounds; lia.
Qed.

(** base64 round trip. *)
Lemma b64decode_b64encode (bs : pybytes) :
  base64.b64decode (base64.b64encode bs) = Some bs.
Proof.
  induction bs as [|a|a b|a b c rest IH] using list_ind3;
    cbn [base64.b64encode]; cbv zeta; [reflexivity| | |];
    cbn [base64.b64decode]; byte_bounds.
  - destruct (char_of_spec (Byte.to_N a / 4)) as (-> & _ & _); [lia|].
    destruct (char_of_spec (Byte.to_N a mod 4 * 16)) as (-> & _ & _); [lia|].
    rewrite (proj1 pad_spec). cbv zeta. f_equal. f_equal.
    rewrite <- (byte_of_N_to_N a) at 3. f_equal. lia.
  - destruct (char_of_spec (Byte.to_N a / 4)) as (-> & _ & _); [lia|].
    destruct (char_of_spec (Byte.to_N a mod 4 * 16 + Byte.to_N b / 16))
      as (-> & _ & _); [lia|].
    destruct (char_of_spec (Byte.to_N b mod 16 * 4)) as (-> & -> & _); [lia|].
    rewrite (proj1 pad_spec). cbv zeta. f_equal. f_equal; [|f_equal].
    + rewrite <- (byte_of_N_to_N a) at 3. f_equal. lia.
    + rewrite <- (byte_of_N_to_N b) at 3. f_equal. lia.
  - destruct (char_of_spec (Byte.to_N a / 4)) as (-> & _ & _); [lia|].
    destruct (char_of_spec (Byte.to_N a mod 4 * 16 + Byte.to_N b / 16))
      as (-> & _ & _); [lia|].
    destruct (char_of_spec (Byte.to_N b mod 16 * 4 + Byte.to_N c / 64))
      as (-> & -> & _); [lia|].
    destruct (char_of_spec (Byte.to_N c mod 64)) as (-> & -> & _); [lia|].
    cbv zeta. rewrite IH. cbn [option_map]. f_equal. f_equal; [|f_equal; [|f_equal]].
    + rewrite <- (byte_of_N_to_N a) at 3. f_equal. lia.
    + rewrite <- (byte_of_N_to_N b) at 3. f_equal. lia.
    + rewrite <- (byte_of_N_to_N c) at 3. f_equal. lia.
Qed.

(** ** RSA with PKCS#1 v1.5 padding *)

Lemma N_to_le_length (x : N) (k : nat) : length (PKCS1_v1_5.N_to_le x k) = k.
Proof. revert x. induction k; intros x; cbn; auto. Qed.

Lemma le_to_N_bound (bs : pybytes) : PKCS1_v1_5.le_to_N bs < 256 ^ N.of_nat (length bs).
Proof.
  induction bs as [|b bs IH]; cbn [PKCS1_v1_5.le_to_N length]; [reflexivity|].
  rewrite Nat2N.inj_succ, N.pow_succ_r'. pose proof (to_N_lt_256 b). lia.
Qed.

Lemma le_to_N_N_to_le (k : nat) : forall x,
  x < 256 ^ N.of_nat k -> PKCS1_v1_5.le_to_N (PKCS1_v1_5.N_to_le x k) = x.
Proof.
  induction k as [|k IH]; intros x Hx.
  - cbn in *. lia.
  - cbn [PKCS1_v1_5.N_to_le PKCS1_v1_5.le_to_N].
    rewrite Nat2N.inj_succ, N.pow_succ_r' in Hx.
    rewrite IH by (apply N.Div0.div_lt_upper_bound; lia).
    unfold byte_of_N. destruct (Byte.of_N (x mod 256)) as [b|] eqn:E.
    + apply Byte.to_of_N in E. rewrite E. lia.
    + apply Byte.of_N_None_iff in E. lia.
Qed.

Lemma N_to_le_le_to_N (bs : pybytes) :
  PKCS1_v1_5.N_to_le (PKCS1_v1_5.le_to_N bs) (length bs) = bs.
Proof.
  induction bs as [|b bs IH]; cbn [PKCS1_v1_5.le_to_N length PKCS1_v1_5.N_to_le]; [reflexivity|].
  pose proof (to_N_lt_256 b). f_equal.
  - rewrite <- (byte_of_N_to_N b) at 2. unfold byte_of_N. 
    replace ((Byte.to_N b + 256 * PKCS1_v1_5.le_to_N bs) mod 256) with (Byte.to_N b mod 256) by lia.
    reflexivity.
  - replace ((Byte.to_N b + 256 * PKCS1_v1_5.le_to_N bs) / 256) with (PKCS1_v1_5.le_to_N bs) by lia.
    exact IH.
Qed.

Lemma bytes_to_long_long_to_bytes (x : N) (k : nat) :
  x < 256 ^ N.of_nat k ->
  PKCS1_v1_5.bytes_to_long (PKCS1_v1_5.long_to_bytes x k) = x.
Proof.
  intros H. unfold PKCS1_v1_5.bytes_to_long, PKCS1_v1_5.long_to_bytes.
  rewrite rev_involutive. now apply le_to_N_N_to_le.
Qed.

Lemma long_to_bytes_bytes_to_long (bs : pybytes) :
  PKCS1_v1_5.long_to_bytes (PKCS1_v1_5.bytes_to_long bs) (length bs) = bs.
Proof.
  unfold PKCS1_v1_5.bytes_to_long, PKCS1_v1_5.long_to_bytes.
  rewrite <- (length_rev bs), N_to_le_le_to_N. apply rev_involutive.
Qed.

Lemma long_to_bytes_length (x : N) (k : nat) :
  length (PKCS1_v1_5.long_to_bytes x k) = k.
Proof. unfold PKCS1_v1_5.long_to_bytes. now rewrite length_rev, N_to_le_length. Qed.

(** The modulus fits in its byte size. *)
Lemma modulus_bound (n : N) : n < 256 ^ N.of_nat (PKCS1_v1_5.size_in_bytes n).
Proof.
  unfold PKCS1_v1_5.size_in_bytes. rewrite N2Nat.id.
  pose proof (N.size_gt n) as H.
  replace 256 with (2 ^ 8) by reflexivity. rewrite <- N.pow_mul_r.
  eapply N.lt_le_trans; [exact H|]. apply N.pow_le_mono_r; lia.
Qed.

Lemma modpow_pos_lt (a : N) (e : positive) (n : N) :
  n <> 0 -> PKCS1_v1_5.modpow_pos a e n < n.
Proof.
  intros Hn. destruct e; cbn [PKCS1_v1_5.modpow_pos]; cbv zeta; now apply N.mod_lt.
Qed.

Lemma modpow_lt (a e n : N) : n <> 0 -> PKCS1_v1_5.modpow a e n < n.
Proof.
  intros Hn. destruct e; cbn [PKCS1_v1_5.modpow];
    [now apply N.mod_lt | now apply modpow_pos_lt].
Qed.

(** The padding string has the length asked for and no zero byte. *)
Lemma draw_padding_spec (len : nat) : forall ent ps ent',
  PKCS1_v1_5.draw_padding ent len = (ps, ent') ->
  length ps = len /\ Forall (fun b => Byte.to_N b <> 0) ps.
Proof.
  induction len as [|len IH]; intros ent ps ent'; cbn [PKCS1_v1_5.draw_padding].
  - intros H. injection H as <- _. split; [reflexivity|constructor].
  - destruct (PKCS1_v1_5.draw_padding (tl ent) len) as [ps0 ent0] eqn:E.
    intros H. apply pair_equal_spec in H as [<- _].
    destruct (IH _ _ _ E) as [Hlen Hnz]. split; [cbn; now f_equal|].
    constructor; [|exact Hnz]. unfold PKCS1_v1_5.nonzero_byte.
    rewrite to_N_byte_of_N; lia.
Qed.

Lemma split_at_zero_padding (ps m : pybytes) :
  Forall (fun b => Byte.to_N b <> 0) ps ->
  PKCS1_v1_5.split_at_zero (ps ++ Byte.x00 :: m) = Some (ps, m).
Proof.
  induction 1 as [|b ps Hb _ IH]; cbn [app PKCS1_v1_5.split_at_zero].
  - reflexivity.
  - destruct (N.eqb_spec (Byte.to_N b) 0); [contradiction|]. now rewrite IH.
Qed.

(** Decryption with a matching private key undoes encryption. *)
Lemma decrypt_encrypt (pub : PKCS1_v1_5.PublicKey) (priv : PKCS1_v1_5.PrivateKey)
    (ent ent' : list N) (message ct : pybytes) :
  PKCS1_v1_5.matching pub priv ->
  PKCS1_v1_5.encrypt pub ent message = (Some ct, ent') ->
  PKCS1_v1_5.decrypt priv ct = Some message.
Proof.
  intros [Hn Hinv]. unfold PKCS1_v1_5.encrypt, PKCS1_v1_5.decrypt. rewrite Hn.
  set (n := PKCS1_v1_5.pub_n pub) in *. set (k := PKCS1_v1_5.size_in_bytes n).
  destruct (Nat.ltb_spec k (length message + 11)) as [|Hk]; [discriminate|].
  destruct (PKCS1_v1_5.draw_padding ent (k - length message - 3)) as [ps ent0] eqn:Hps.
  destruct (draw_padding_spec _ _ _ _ Hps) as [Hlen Hnz].
  set (em := Byte.x00 :: Byte.x02 :: ps ++ Byte.x00 :: message).
  destruct (N.leb_spec n (PKCS1_v1_5.bytes_to_long em)) as [|Hem]; [discriminate|].
  intros H. apply pair_equal_spec in H as [H _]. apply some_eq in H. subst ct.
  assert (Hn0 : n <> 0) by lia.
  pose proof (modulus_bound n) as Hbound. fold k in Hbound.
  rewrite long_to_bytes_length, Nat.eqb_refl. cbn [negb].
  rewrite bytes_to_long_long_to_bytes
    by (eapply N.lt_trans; [apply modpow_lt; exact Hn0 | exact Hbound]).
  destruct (N.leb_spec n (PKCS1_v1_5.modpow (PKCS1_v1_5.bytes_to_long em) (PKCS1_v1_5.pub_e pub) n))
    as [Hbad|_]; [pose proof (modpow_lt (PKCS1_v1_5.bytes_to_long em) (PKCS1_v1_5.pub_e pub) n Hn0); lia|].
  rewrite (Hinv _ Hem).
  assert (Hk' : length em = k).
  { subst em. cbn [length]. rewrite length_app. cbn [length]. lia. }
  rewrite <- Hk', long_to_bytes_bytes_to_long. subst em.
  change (Byte.to_N Byte.x00 =? 0) with true.
  change (Byte.to_N Byte.x02 =? 2) with true. cbn [andb].
  rewrite split_at_zero_padding by exact Hnz.
  destruct (Nat.leb_spec 8 (length ps)); [reflexivity|lia].
Qed.

(** ** The demo key pair *)

Lemma pow_mod_l (a b n : N) : (a mod n) ^ b mod n = a ^ b mod n.
Proof.
  induction b as [|b IH] using N.peano_ind; [reflexivity|].
  rewrite !N.pow_succ_r'.
  rewrite N.Div0.mul_mod, N.Div0.mod_mod, IH, <- N.Div0.mul_mod. reflexivity.
Qed.

Lemma modpow_pos_spec (a : N) (e : positive) (n : N) :
  PKCS1_v1_5.modpow_pos a e n = a ^ N.pos e mod n.
Proof.
  induction e as [e IH|e IH|]; cbn [PKCS1_v1_5.modpow_pos]; cbv zeta.
  - rewrite IH. replace (N.pos e~1) with (N.succ (N.pos e + N.pos e)) by lia.
    rewrite N.pow_succ_r', N.pow_add_r.
    now rewrite <- N.Div0.mul_mod, N.Div0.mul_mod_idemp_r.
  - rewrite IH. replace (N.pos e~0) with (N.pos e + N.pos e) by lia.
    rewrite N.pow_add_r. now rewrite <- N.Div0.mul_mod.
  - now rewrite N.pow_1_r.
Qed.

Lemma modpow_spec (a e n : N) : PKCS1_v1_5.modpow a e n = a ^ e mod n.
Proof. destruct e; [reflexivity | apply modpow_pos_spec]. Qed.

Lemma mod_mod_divide (a n p : N) : (p | n) -> (a mod n) mod p = a mod p.
Proof.
  intros [c ->]. rewrite (N.Div0.div_mod a (c * p)) at 2.
  rewrite (N.add_comm _ (a mod (c * p))), (N.mul_comm (c * p)), N.mul_assoc.
  now rewrite N.Div0.mod_add.
Qed.

(** Raising to a power modulo [n], seen modulo a divisor of [n]. *)
Lemma modpow_mod_divide (a e n p : N) :
  (p | n) -> PKCS1_v1_5.modpow a e n mod p = PKCS1_v1_5.modpow (a mod p) e p.
Proof.
  intros H. rewrite !modpow_spec, mod_mod_divide by exact H.
  symmetry. apply pow_mod_l.
Qed.

Lemma mod_eq_divide (a b p : N) : b <= a -> a mod p = b mod p -> (p | a - b).
Proof.
  intros Hle H. exists (a / p - b / p).
  pose proof (N.Div0.div_mod a p) as Ha. pose proof (N.Div0.div_mod b p) as Hb.
  rewrite H in Ha. rewrite N.mul_sub_distr_r, !(N.mul_comm _ p).
  revert Ha Hb. generalize (p * (a / p)) (p * (b / p)) (b mod p).
  intros x y r Ha Hb. lia.
Qed.

Lemma divide_mod_eq (a b n : N) : b <= a -> (n | a - b) -> a mod n = b mod n.
Proof.
  intros Hle [c Hc]. replace a with (b + c * n) by lia.
  apply N.Div0.mod_add.
Qed.

(** Numbers that agree modulo every element of a list agree modulo the
    least common multiple of the list. *)
Lemma agree_mod_lcm (ps : list N) (a b : N) :
  (forall p, In p ps -> a mod p = b mod p) ->
  a mod fold_right N.lcm 1 ps = b mod fold_right N.lcm 1 ps.
Proof.
  intros H.
  assert (Hd : forall x y, y <= x -> (forall p, In p ps -> x mod p = y mod p) ->
               (fold_right N.lcm 1 ps | x - y)).
  { intros x y Hle Hxy. clear H. induction ps as [|p ps IH]; cbn [fold_right].
    - apply N.divide_1_l.
    - apply N.lcm_least.
      + apply mod_eq_divide; [exact Hle | apply Hxy; now left].
      + apply IH. intros q Hq. apply Hxy. now right. }
  destruct (N.le_ge_cases b a) as [Hle|Hle].
  - apply divide_mod_eq; [exact Hle | now apply Hd].
  - symmetry. apply divide_mod_eq; [exact Hle|]. apply Hd; [exact Hle|].
    intros p Hp. symmetry. now apply H.
Qed.

(** For every prime [p] of the demo modulus, the product of the two
    exponents is 1 modulo [p - 1], and every non-zero residue raised to
    [p - 1] is 1: checked by evaluation. *)
Lemma demo_primes_checked :
  forallb
    (fun p =>
       ((PKCS1_v1_5.pub_e Demo.pub * PKCS1_v1_5.priv_d Demo.priv) mod (p - 1) =? 1)
       && forallb (fun r => PKCS1_v1_5.modpow r (p - 1) p =? 1)
            (map N.of_nat (seq 1 (N.to_nat p - 1))))
    Demo.primes = true.
Proof. vm_compute. reflexivity. Qed.

Lemma demo_modulus_lcm : fold_right N.lcm 1 Demo.primes = Demo.modulus.
Proof. vm_compute. reflexivity. Qed.

Lemma demo_prime_divides (p : N) : In p Demo.primes -> (p | Demo.modulus).
Proof.
  rewrite <- demo_modulus_lcm. generalize Demo.primes. intros ps Hp.
  induction ps as [|q ps IH]; [destruct Hp|]. cbn [fold_right].
  destruct Hp as [-> | Hp].
  - apply N.divide_lcm_l.
  - eapply N.divide_trans; [apply IH; exact Hp | apply N.divide_lcm_r].
Qed.

(** Modulo a prime of the demo modulus, the private exponent undoes the
    public one. *)
Lemma demo_prime_residue (p r : N) :
  In p Demo.primes -> r < p ->
  PKCS1_v1_5.modpow (PKCS1_v1_5.modpow r (PKCS1_v1_5.pub_e Demo.pub) p) (PKCS1_v1_5.priv_d Demo.priv) p = r.
Proof.
  intros Hp Hr.
  pose proof demo_primes_checked as Hall.
  rewrite forallb_forall in Hall. specialize (Hall p Hp).
  apply andb_true_iff in Hall as [Hed Hfermat].
  apply N.eqb_eq in Hed. rewrite forallb_forall in Hfermat.
  rewrite !modpow_spec, pow_mod_l, <- N.pow_mul_r.
  destruct (N.eq_dec r 0) as [->|Hr0].
  - rewrite N.pow_0_l; [apply N.Div0.mod_0_l|].
    intros H. rewrite H in Hed. rewrite N.Div0.mod_0_l in Hed. discriminate.
  - assert (H1 : r ^ (p - 1) mod p = 1).
    { rewrite <- modpow_spec. apply N.eqb_eq. apply Hfermat.
      rewrite <- (N2Nat.id r). apply in_map. apply in_seq. lia. }
    set (ed := PKCS1_v1_5.pub_e Demo.pub * PKCS1_v1_5.priv_d Demo.priv) in *.
    rewrite (N.Div0.div_mod ed (p - 1)), Hed.
    rewrite N.pow_add_r, N.pow_1_r, N.pow_mul_r.
    rewrite N.Div0.mul_mod, <- pow_mod_l, H1, N.pow_1_l.
    rewrite <- N.Div0.mul_mod, N.mul_1_l. now apply N.mod_small.
Qed.

Lemma demo_primes_nonzero (p : N) : In p Demo.primes -> p <> 0.
Proof.
  intros Hp ->. revert Hp. vm_compute. intuition discriminate.
Qed.

(** The demo keys match. *)
Lemma demo_keys_match : PKCS1_v1_5.matching Demo.pub Demo.priv.
Proof.
  split; [reflexivity|]. intros m Hm.
  change (PKCS1_v1_5.pub_n Demo.pub) with Demo.modulus in *.
  set (R := PKCS1_v1_5.modpow _ _ _).
  assert (HR : R < Demo.modulus) by (apply modpow_lt; discriminate).
  rewrite <- (N.mod_small R Demo.modulus HR), <- (N.mod_small m Demo.modulus Hm).
  rewrite <- demo_modulus_lcm. apply agree_mod_lcm. intros p Hp.
  subst R. rewrite !modpow_mod_divide by (apply demo_prime_divides; exact Hp).
  apply demo_prime_residue; [exact Hp|].
  apply N.mod_lt. now apply demo_primes_nonzero.
Qed.

(** ** Credential encryption *)

(** [encrypt_password], step by step: it returns what the procedure of
    the spec gives, [None] when a step fails, and the only thing it
    changes is the random source (and the terminal, on failure). *)
Lemma encrypt_password_run (password : pystr) (s : St) :
  exists s',
    encrypt_password password s
    = (Ret (match encryption_procedure (import_key s (self_public_key s))
                    (entropy s) password with
            | Some r => PStr r
            | None => PNone
            end), s').
Proof.
  unfold encrypt_password, encryption_procedure. run_io.
  destruct (Utf8.encode password) as [utf8|]; run_io; [|eauto].
  rewrite (decode_ascii _ (b64encode_ascii utf8)). run_io.
  destruct (import_key s (self_public_key s)) as [key|]; run_io; [|eauto].
  rewrite (encode_ascii _ (b64encode_ascii utf8)). run_io.
  destruct (PKCS1_v1_5.encrypt key (entropy s) (base64.b64encode utf8))
    as [[ciphertext|] ent']; cbn [fst]; run_io; [|eauto].
  rewrite (decode_ascii _ (b64encode_ascii ciphertext)). run_io. eauto.
Qed.

(** C1: [encrypt_password] never raises.  Its result is the one of the
    procedure: the UTF-8 bytes of the password are base64-encoded, that
    text is encrypted with the loaded public key under PKCS#1 v1.5
    padding, and the ciphertext is base64-encoded; when a step of the
    procedure fails the result is [None]. *)
Theorem encrypt_password_follows_procedure (password : pystr) (s : St) :
  fst (encrypt_password password s)
  = Ret (match encryption_procedure (import_key s (self_public_key s))
                 (entropy s) password with
         | Some r => PStr r
         | None => PNone
         end).
Proof.
  destruct (encrypt_password_run password s) as (s' & H). now rewrite H.
Qed.

(** C2, as the code has it: whenever [encrypt_password] returns a text
    (that is, the password has a UTF-8 form and its base64 text is at most
    [k - 11] bytes long for a key of [k] bytes), the server-side inverse
    with a matching private key gives the password back. *)
Theorem password_round_trip (password : pystr) (s : St)
    (pub : PKCS1_v1_5.PublicKey) (priv : PKCS1_v1_5.PrivateKey) (r : pystr) :
  import_key s (self_public_key s) = Some pub ->
  PKCS1_v1_5.matching pub priv ->
  fst (encrypt_password password s) = Ret (PStr r) ->
  server_decrypt priv r = Some password.
Proof.
  intros Hkey Hmatch Hrun.
  destruct (encrypt_password_run password s) as (s' & H).
  rewrite H in Hrun. cbn [fst] in Hrun. rewrite Hkey in Hrun.
  unfold encryption_procedure in Hrun.
  destruct (Utf8.encode password) as [utf8|] eqn:Hutf8; [|discriminate].
  cbv zeta in Hrun.
  destruct (PKCS1_v1_5.encrypt pub (entropy s) (base64.b64encode utf8))
    as [[ciphertext|] ent'] eqn:Henc; cbn [fst] in Hrun; [|discriminate].
  assert (Hr : r = ascii_text (base64.b64encode ciphertext)) by congruence.
  subst r. unfold server_decrypt.
  rewrite (encode_ascii _ (b64encode_ascii ciphertext)), b64decode_b64encode.
  rewrite (decrypt_encrypt _ _ _ _ _ _ Hmatch Henc), b64decode_b64encode.
  now apply decode_encode.
Qed.

(** [password_round_trip] for the password of the test users and the demo
    key pair. *)
Lemma password_round_trip_witness :
  exists r,
    fst (encrypt_password (u "Test123456") (Demo.world Demo.server [] [])) = Ret (PStr r)
    /\ server_decrypt Demo.priv r = Some (u "Test123456").
Proof.
  eexists. split; [vm_compute; reflexivity|].
  apply (password_round_trip (u "Test123456") (Demo.world Demo.server [] []) Demo.pub).
  - reflexivity.
  - exact demo_keys_match.
  - vm_compute. reflexivity.
Defined.

(** A text longer than the key allows is refused, whatever the key. *)
Lemma encrypt_password_too_long (password : pystr) (s : St)
    (pub : PKCS1_v1_5.PublicKey) (utf8 : pybytes) :
  import_key s (self_public_key s) = Some pub ->
  Utf8.encode password = Some utf8 ->
  (PKCS1_v1_5.size_in_bytes (PKCS1_v1_5.pub_n pub) < length (base64.b64encode utf8) + 11)%nat ->
  fst (encrypt_password password s) = Ret PNone.
Proof.
  intros Hkey Hutf8 Hlong.
  destruct (encrypt_password_run password s) as (s' & H). rewrite H. cbn [fst].
  unfold encryption_procedure. rewrite Hkey, Hutf8. cbv zeta.
  unfold PKCS1_v1_5.encrypt.
  destruct (Nat.ltb_spec (PKCS1_v1_5.size_in_bytes (PKCS1_v1_5.pub_n pub))
              (length (base64.b64encode utf8) + 11)); [reflexivity|lia].
Qed.

(** C2 as the spec states it fails: the demo keys match, yet for a
    password of sixteen characters [encrypt_password] returns [None], so
    there is no text the server could turn back into the password. *)
Lemma round_trip_fails_on_long_password :
  PKCS1_v1_5.matching Demo.pub Demo.priv
  /\ fst (encrypt_password (u "Test123456789012") (Demo.world Demo.server [] []))
     = Ret PNone
  /\ ~ exists r,
         fst (encrypt_password (u "Test123456789012") (Demo.world Demo.server [] []))
         = Ret (PStr r)
         /\ server_decrypt Demo.priv r = Some (u "Test123456789012").
Proof.
  split; [exact demo_keys_match|].
  assert (H : fst (encrypt_password (u "Test123456789012")
                     (Demo.world Demo.server [] [])) = Ret PNone)
    by (vm_compute; reflexivity).
  split; [exact H|]. intros (r & Hr & _). rewrite H in Hr. discriminate.
Qed.

(** ** More on credential encryption *)

Lemma b64encode_length (bs : pybytes) :
  length (base64.b64encode bs) = (4 * ((length bs + 2) / 3))%nat.
Proof.
  induction bs as [|a|a b|a b c rest IH] using list_ind3;
    cbn [base64.b64encode length]; cbv zeta; try reflexivity.
  cbn [length]. rewrite IH.
  replace (S (S (S (length rest))) + 2)%nat with (length rest + 2 + 1 * 3)%nat by lia.
  rewrite Nat.div_add by lia. lia.
Qed.

(** A byte string that starts with a zero byte is below the modulus whose
    byte size is its length. *)
Lemma leading_zero_below_modulus (n : N) (rest : pybytes) :
  n <> 0 ->
  S (length rest) = PKCS1_v1_5.size_in_bytes n ->
  PKCS1_v1_5.bytes_to_long (Byte.x00 :: rest) < n.
Proof.
  intros Hn Hlen.
  assert (Hb : PKCS1_v1_5.bytes_to_long (Byte.x00 :: rest)
               < 256 ^ N.of_nat (length rest)).
  { unfold PKCS1_v1_5.bytes_to_long. cbn [rev].
    assert (H : forall l, PKCS1_v1_5.le_to_N (l ++ [Byte.x00]) = PKCS1_v1_5.le_to_N l).
    { induction l as [|b l IH]; cbn [app PKCS1_v1_5.le_to_N]; [reflexivity|].
      now rewrite IH. }
    rewrite H. rewrite <- (length_rev rest). apply le_to_N_bound. }
  eapply N.lt_le_trans; [exact Hb|].
  unfold PKCS1_v1_5.size_in_bytes in Hlen.
  pose proof (N.size_le n) as Hs.
  assert (Hsz : N.size n <> 0).
  { destruct n; [contradiction|]. cbn. lia. }
  replace 256 with (2 ^ 8) by reflexivity. rewrite <- N.pow_mul_r.
  assert (Hle : 8 * N.of_nat (length rest) <= N.pred (N.size n)) by lia.
  eapply N.le_trans; [apply N.pow_le_mono_r; [lia | exact Hle]|].
  replace (N.size n) with (N.succ (N.pred (N.size n))) in Hs by lia.
  rewrite N.pow_succ_r' in Hs.
  rewrite N.succ_double_spec in Hs.
  revert Hs. generalize (2 ^ N.pred (N.size n)). intros x Hs. lia.
Qed.

(** Encryption goes through exactly when the message fits. *)
Lemma encrypt_fits (key : PKCS1_v1_5.PublicKey) (ent : list N) (message : pybytes) :
  (length message + 11 <= PKCS1_v1_5.size_in_bytes (PKCS1_v1_5.pub_n key))%nat ->
  exists ct ent',
    PKCS1_v1_5.encrypt key ent message = (Some ct, ent')
    /\ length ct = PKCS1_v1_5.size_in_bytes (PKCS1_v1_5.pub_n key).
Proof.
  intros Hfit. unfold PKCS1_v1_5.encrypt.
  set (n := PKCS1_v1_5.pub_n key) in *. set (k := PKCS1_v1_5.size_in_bytes n) in *.
  destruct (Nat.ltb_spec k (length message + 11)); [lia|].
  destruct (PKCS1_v1_5.draw_padding ent (k - length message - 3)) as [ps ent0] eqn:Hps.
  destruct (draw_padding_spec _ _ _ _ Hps) as [Hlen _].
  assert (Hn : n <> 0).
  { intros H0. subst k. rewrite H0 in Hfit. cbn in Hfit. lia. }
  destruct (N.leb_spec n
              (PKCS1_v1_5.bytes_to_long
                 (Byte.x00 :: Byte.x02 :: ps ++ Byte.x00 :: message))) as [Hbad|_].
  - exfalso. apply N.le_ngt in Hbad. apply Hbad.
    apply leading_zero_below_modulus; [exact Hn|].
    cbn [length]. rewrite length_app. cbn [length]. fold k. lia.
  - do 2 eexists. split; [reflexivity|]. apply long_to_bytes_length.
Qed.

(** Encryption refuses a message that does not fit. *)
Lemma encrypt_some_fits (key : PKCS1_v1_5.PublicKey) (ent : list N)
    (message ct : pybytes) :
  fst (PKCS1_v1_5.encrypt key ent message) = Some ct ->
  (length message + 11 <= PKCS1_v1_5.size_in_bytes (PKCS1_v1_5.pub_n key))%nat
  /\ length ct = PKCS1_v1_5.size_in_bytes (PKCS1_v1_5.pub_n key).
Proof.
  intros H.
  destruct (Nat.ltb_spec (PKCS1_v1_5.size_in_bytes (PKCS1_v1_5.pub_n key))
              (length message + 11)) as [Hlt|Hge].
  - exfalso. revert H. unfold PKCS1_v1_5.encrypt.
    destruct (Nat.ltb_spec (PKCS1_v1_5.size_in_bytes (PKCS1_v1_5.pub_n key))
                (length message + 11)); [discriminate | lia].
  - split; [exact Hge|].
    destruct (encrypt_fits key ent message Hge) as (ct' & ent' & Hrun & Hlen).
    rewrite Hrun in H. cbn [fst] in H. now injection H as <-.
Qed.

Lemma ascii_text_length (bs : pybytes) : length (ascii_text bs) = length bs.
Proof. unfold ascii_text. apply length_map. Qed.

(** X1: [encrypt_password] returns a text exactly when the password has a
    UTF-8 encoding, the key text of the object is accepted as an RSA key,
    and the base64 text of the password, which has four characters for
    every three bytes begun, leaves eleven bytes of room in the modulus.
    Nothing else of the world matters, the random source included. *)
Theorem encrypt_password_accepts_iff (password : pystr) (s : St) :
  (exists r, fst (encrypt_password password s) = Ret (PStr r))
  <-> exists utf8 key,
        Utf8.encode password = Some utf8
        /\ import_key s (self_public_key s) = Some key
        /\ (4 * ((length utf8 + 2) / 3) + 11
            <= PKCS1_v1_5.size_in_bytes (PKCS1_v1_5.pub_n key))%nat.
Proof.
  destruct (encrypt_password_run password s) as (s' & H). rewrite H. cbn [fst].
  unfold encryption_procedure. split.
  - intros (r & Hr).
    destruct (Utf8.encode password) as [utf8|]; [|discriminate].
    destruct (import_key s (self_public_key s)) as [key|]; [|discriminate].
    destruct (fst (PKCS1_v1_5.encrypt key (entropy s) (base64.b64encode utf8)))
      as [ct|] eqn:Hct; [|discriminate].
    apply encrypt_some_fits in Hct as [Hfit _].
    rewrite b64encode_length in Hfit. eauto.
  - intros (utf8 & key & -> & -> & Hfit).
    rewrite <- b64encode_length in Hfit.
    destruct (encrypt_fits key (entropy s) _ Hfit) as (ct & ent' & -> & _).
    cbn [fst]. eauto.
Qed.

(** X2: the text [encrypt_password] returns has a length fixed by the key
    alone: four characters for every three bytes begun of the modulus,
    whatever the password and the random padding. *)
Theorem encrypt_password_output_length (password : pystr) (s : St) (r : pystr) :
  fst (encrypt_password password s) = Ret (PStr r) ->
  exists key,
    import_key s (self_public_key s) = Some key
    /\ length r
       = (4 * ((PKCS1_v1_5.size_in_bytes (PKCS1_v1_5.pub_n key) + 2) / 3))%nat.
Proof.
  destruct (encrypt_password_run password s) as (s' & H). rewrite H. cbn [fst].
  unfold encryption_procedure.
  destruct (Utf8.encode password) as [utf8|]; [|discriminate].
  destruct (import_key s (self_public_key s)) as [key|]; [|discriminate].
  destruct (fst (PKCS1_v1_5.encrypt key (entropy s) (base64.b64encode utf8)))
    as [ct|] eqn:Hct; [|discriminate].
  intros Hr. injection Hr as <-.
  apply encrypt_some_fits in Hct as [_ Hlen].
  exists key. split; [reflexivity|].
  now rewrite ascii_text_length, b64encode_length, Hlen.
Qed.

(** [encrypt_password_output_length] with the 29-byte demo key: forty
    characters. *)
Lemma encrypt_password_output_length_witness :
  exists r,
    fst (encrypt_password (u "Test123456") (Demo.world Demo.server [] []))
    = Ret (PStr r)
    /\ length r = 40%nat.
Proof.
  pose (s := Demo.world Demo.server [] []).
  pose (o := fst (encrypt_password (u "Test123456") s)).
  assert (Ho : exists r, o = Ret (PStr r)).
  { vm_compute. eexists. reflexivity. }
  destruct Ho as (r & Ho). exists r. split; [exact Ho|].
  destruct (encrypt_password_output_length (u "Test123456") s r Ho)
    as (key & Hkey & Hlen).
  injection Hkey as <-. exact Hlen.
Defined.

(** X3: [encrypt_password] never raises, and all it touches is the random
    source and, to report a failure, the terminal: no request is sent, no
    statement executed, no file written, no input read; when it returns a
    text nothing is printed either. *)
Theorem encrypt_password_leaves_world (password : pystr) (s : St) :
  exists r s',
    encrypt_password password s = (Ret r, s')
    /\ same_but_terminal_and_entropy s s'
    /\ (r <> PNone -> console s' = console s).
Proof.
  unfold encrypt_password, same_but_terminal_and_entropy. run_io.
  repeat split_step; do 2 eexists; (split; [reflexivity|]); fields;
    (split; [repeat split|]); solve [reflexivity | congruence].
Qed.

(** ** What a computation leaves alone *)

Lemma preserves_ret {X A} (proj : St -> X) (a : A) : preserves proj (ret a).
Proof. intros s. reflexivity. Qed.

Lemma preserves_raise {X A} (proj : St -> X) (e : exn) :
  preserves proj (@raise St A e).
Proof. intros s. reflexivity. Qed.

Lemma preserves_bind {X A B} (proj : St -> X) (m : M St A) (k : A -> M St B) :
  preserves proj m -> (forall a, preserves proj (k a)) ->
  preserves proj (bind m k).
Proof.
  intros Hm Hk s. unfold bind. specialize (Hm s).
  destruct (m s) as [[a|e] s1]; cbn [snd] in *; [|exact Hm].
  now rewrite Hk.
Qed.

Lemma preserves_try_except {X A} (proj : St -> X) (m : M St A) (h : exn -> M St A) :
  preserves proj m -> (forall e, preserves proj (h e)) ->
  preserves proj (try_except m h).
Proof.
  intros Hm Hh s. unfold try_except. specialize (Hm s).
  destruct (m s) as [[a|e] s1]; cbn [snd] in *; [exact Hm|].
  now rewrite Hh.
Qed.

(** A primitive effect: run it and read the observation off the state. *)
Ltac frame_primitive :=
  let s := fresh "s" in
  intros s;
  cbv beta iota delta [print input get_host get_db_initialized session_get
                       session_post session_request response_json
                       session_headers_update db_exec write_json_file
                       uuid4_str RSA.importKey cipher_encrypt str_encode
                       bytes_decode lift_option py_get py_getitem py_len
                       fmt_left ret raise
                       UserService.delete_by_id TenantService.delete_by_id
                       UserTenantService.query UserTenantService.delete_by_id
                       TenantLLM_delete_where];
  repeat match goal with
         | |- context [match ?x with _ => _ end] => destruct x
         | |- context [if ?x then _ else _] => destruct x
         end;
  reflexivity.

(** Walks through a method, step by step. *)
Ltac frame :=
  repeat first
    [ assumption
    | match goal with
      | H : context [preserves] |- preserves _ _ => simple apply H
      end
    | apply preserves_ret
    | apply preserves_raise
    | apply preserves_bind; [|intros ?]
    | apply preserves_try_except; [|intros ?]
    | match goal with
      | |- preserves _ (if ?b then _ else _) => destruct b
      | |- preserves _ (match ?x with _ => _ end) => destruct x
      | |- preserves _ (let _ := _ in _) => cbv zeta
      end
    | solve [frame_primitive] ].

(** ** More on the registration flow *)

Lemma encrypt_password_keeps {X} (proj : St -> X) (password : pystr) :
  (forall l s, proj (put_line l s) = proj s) ->
  (forall e s, proj (set_entropy e s) = proj s) ->
  preserves proj (encrypt_password password).
Proof.
  intros Hline Hent s. unfold encrypt_password. run_io.
  repeat split_step; cbn [snd]; rewrite ?Hline, ?Hent; reflexivity.
Qed.

(** X4: [check_server_status] never raises and sends exactly one request:
    a GET to [/v1/user/login/channels] under the host, with the session's
    headers and a timeout of five seconds.  It answers [True] exactly when
    that request is answered with status 200. *)
Theorem check_server_status_verdict (s : St) :
  let probe := mk_request s "GET" (probe_url s) None (Some 5%Z) in
  exists b s',
    check_server_status s = (Ret b, s')
    /\ requests_since s s' = [probe]
    /\ (b = true <-> exists r, net s (http_log s) probe = Some r
                               /\ rs_status r = 200%Z).
Proof.
  cbv zeta. unfold check_server_status, probe_url. run_io.
  destruct (net s (http_log s) _) as [r|] eqn:Hnet; run_io.
  - destruct (Z.eqb_spec (rs_status r) 200) as [Hst|Hst]; run_io;
      do 2 eexists; (split; [reflexivity|]);
      (split; [apply requests_since_app; reflexivity|]).
    + split; [eauto|reflexivity].
    + split; [discriminate|]. intros (r' & Hr' & H200).
      injection Hr' as <-. contradiction.
  - do 2 eexists. split; [reflexivity|].
    split; [apply requests_since_app; reflexivity|].
    split; [discriminate|]. intros (r' & Hr' & _). discriminate.
Qed.
Lemma encrypt_password_step (password : pystr) (s : St) :
  exists s0,
    encrypt_password password s
    = (Ret (match encryption_procedure (import_key s (self_public_key s))
                    (entropy s) password with
            | Some r => PStr r
            | None => PNone
            end), s0)
    /\ http_log s0 = http_log s
    /\ self_host s0 = self_host s
    /\ self_headers s0 = self_headers s
    /\ net s0 = net s.
Proof.
  destruct (encrypt_password_run password s) as (s0 & Hrun).
  destruct (encrypt_password_frame password s) as (r & s1 & Hf & H).
  rewrite Hrun in Hf. injection Hf as <- <-. eauto.
Qed.

Lemma headers_get_put (h : list (pystr * pystr)) (name value : pystr) :
  headers_get (filter (fun kv => negb (header_eqb (fst kv) name)) h ++ [(name, value)])
    name = Some value.
Proof.
  induction h as [|[k v] h IH]; cbn [filter headers_get app fst].
  - unfold header_eqb. now rewrite pystr_eqb_refl.
  - destruct (header_eqb k name) eqn:Hk; cbn [negb]; [exact IH|].
    cbn [app headers_get]. now rewrite Hk.
Qed.

(** X6: a result of [_register_user] other than [None] is the JSON object
    the server answered with, and its [code] is zero.  It answers the one
    request sent, a POST to [/v1/user/register] whose body carries the
    nickname, the e-mail address and the encrypted password (what the
    encryption procedure gives for it, not the password itself).  An
    [Authorization] header of the answer that is not empty has become a
    header of the session; otherwise the session headers are as before. *)
Theorem register_user_answer (nickname email password : pystr) (s : St)
    (result : pyval) (s' : St) :
  _register_user nickname email password s = (Ret result, s') ->
  result <> PNone ->
  exists cipher resp d,
    encryption_procedure (import_key s (self_public_key s)) (entropy s) password
    = Some cipher
    /\ requests_since s s'
       = [mk_request s "POST" (register_url s)
            (Some (PDict [(u "nickname", PStr nickname);
                          (u "email", PStr email);
                          (u "password", PStr cipher)])) None]
    /\ net s (http_log s)
         (mk_request s "POST" (register_url s)
            (Some (PDict [(u "nickname", PStr nickname);
                          (u "email", PStr email);
                          (u "password", PStr cipher)])) None) = Some resp
    /\ rs_json resp = Some result
    /\ result = PDict d
    /\ py_eq_zero (dict_get_or d (u "code") PNone) = true
    /\ match headers_get (rs_headers resp) (u "Authorization") with
       | Some (c :: a) =>
           headers_get (self_headers s') (u "Authorization") = Some (c :: a)
       | _ => self_headers s' = self_headers s
       end.
Proof.
  unfold _register_user, register_url. run_io.
  destruct (encrypt_password_step password s) as (s0 & He & Hlog & Hhost & Hhdr & Hnet).
  rewrite He. run_io.
  destruct (encryption_procedure _ _ _) as [[|c cipher]|]; cbn [truthy negb]; run_io;
    try (intros H Hne; injection H as <- <-; congruence).
  unfold mk_request. fields. rewrite Hnet, Hlog, Hhdr.
  destruct (net s (http_log s) _) as [resp|] eqn:Hresp; run_io;
    [|intros H Hne; injection H as <- <-; congruence].
  destruct (rs_json resp) as [[| | | | |? |d|]|] eqn:Hjson; run_io;
    try (intros H Hne; injection H as <- <-; congruence).
  destruct (py_eq_zero (dict_get_or d (u "code") PNone)) eqn:Hcode; run_io.
  2:{ intros H Hne; injection H as <- <-; congruence. }
  destruct (headers_get (rs_headers resp) (u "Authorization")) as [[|c' a]|] eqn:Hauth;
    run_io; intros H Hne; injection H as <- <-;
    exists (c :: cipher), resp, d;
    (split; [reflexivity|]);
    (split; [apply requests_since_app; fields; unfold mk_request; fields;
             rewrite Hlog, Hhdr; reflexivity|]);
    (split; [exact Hresp|]); (split; [exact Hjson|]); (split; [reflexivity|]);
    (split; [exact Hcode|]); rewrite Hauth; fields; rewrite ?Hhdr; try reflexivity.
  apply headers_get_put.
Qed.


(** [register_user_answer] in front of the demo server, whose answer
    carries [Authorization: session-1]. *)
Lemma register_user_answer_witness :
  let run := _register_user (u "TestUser_demo") (u "user_demo@example.com")
               (u "Test123456") (Demo.world Demo.server [] []) in
  fst run = Ret (Demo.ok_json Demo.user_data)
  /\ headers_get (self_headers (snd run)) (u "Authorization") = Some (u "session-1").
Proof.
  intros run.
  assert (Hrun : run = (Ret (Demo.ok_json Demo.user_data), snd run)).
  { vm_compute. reflexivity. }
  destruct (register_user_answer _ _ _ _ _ _ Hrun)
    as (cipher & resp & d & _ & _ & Hresp & _ & _ & _ & Hauth);
    [discriminate|].
  split; [rewrite Hrun; reflexivity|].
  vm_compute in Hresp. injection Hresp as <-. exact Hauth.
Defined.

(** X5: when the password cannot be encrypted, [_register_user] returns
    [None] without sending a request; the session headers stay as they
    were. *)
Theorem register_user_without_ciphertext (nickname email password : pystr)
    (s : St) :
  encryption_procedure (import_key s (self_public_key s)) (entropy s) password
  = None ->
  exists s',
    _register_user nickname email password s = (Ret PNone, s')
    /\ requests_since s s' = []
    /\ self_headers s' = self_headers s.
Proof.
  intros Hnone. unfold _register_user. run_io.
  destruct (encrypt_password_step password s) as (s0 & He & Hlog & Hhost & Hhdr & Hnet).
  rewrite He, Hnone. run_io. cbn [truthy negb]. run_io.
  eexists. split; [reflexivity|]. split; [|exact Hhdr].
  apply requests_since_app. rewrite Hlog. now rewrite app_nil_r.
Qed.

(** [register_user_without_ciphertext] for a password of sixteen
    characters, too long for the 29-byte demo key. *)
Lemma register_user_without_ciphertext_witness :
  let run := _register_user (u "TestUser_demo") (u "user_demo@example.com")
               (u "Test123456789012") (Demo.world Demo.server [] []) in
  fst run = Ret PNone /\ http_log (snd run) = [].
Proof.
  intros run.
  destruct (register_user_without_ciphertext (u "TestUser_demo")
              (u "user_demo@example.com") (u "Test123456789012")
              (Demo.world Demo.server [] []))
    as (s' & Hrun & Hreq & _); [vm_compute; reflexivity|].
  subst run. rewrite Hrun. split; [reflexivity|]. exact Hreq.
Defined.
(** X7: [_get_api_token] never raises and sends exactly one request, a
    POST of an empty object to [/v1/system/new_token] with the session's
    headers.  A result other than [None] is the [token] entry of the
    [data] object of an answer whose [code] is zero. *)
Theorem get_api_token_answer (s : St) :
  let rq := mk_request s "POST" (token_url s) (Some (PDict [])) None in
  exists r s',
    _get_api_token s = (Ret r, s')
    /\ requests_since s s' = [rq]
    /\ self_headers s' = self_headers s
    /\ (r <> PNone ->
        exists resp d data,
          net s (http_log s) rq = Some resp
          /\ rs_json resp = Some (PDict d)
          /\ py_eq_zero (dict_get_or d (u "code") PNone) = true
          /\ dict_get_or d (u "data") (PDict []) = PDict data
          /\ dict_get data (u "token") = Some r).
Proof.
  cbv zeta. unfold _get_api_token, token_url. run_io.
  destruct (net s (http_log s) _) as [resp|] eqn:Hresp; run_io.
  2:{ do 2 eexists. split; [reflexivity|].
      split; [apply requests_since_app; reflexivity|]. split; [reflexivity|].
      intros H. now contradiction H. }
  destruct (rs_json resp) as [[| | | | |? |d|]|] eqn:Hjson; run_io;
    try (do 2 eexists; split; [reflexivity|];
         split; [apply requests_since_app; reflexivity|]; split; [reflexivity|];
         intros H; now contradiction H).
  destruct (py_eq_zero (dict_get_or d (u "code") PNone)) eqn:Hcode; run_io.
  2:{ do 2 eexists. split; [reflexivity|].
      split; [apply requests_since_app; reflexivity|]. split; [reflexivity|].
      intros H. now contradiction H. }
  destruct (dict_get_or d (u "data") (PDict [])) as [| | | | |? |data|] eqn:Hdata; run_io;
    try (do 2 eexists; split; [reflexivity|];
         split; [apply requests_since_app; reflexivity|]; split; [reflexivity|];
         intros H; now contradiction H).
  do 2 eexists. split; [reflexivity|].
  split; [apply requests_since_app; reflexivity|]. split; [reflexivity|].
  intros Hne. exists resp, d, data. split; [reflexivity|]. repeat (split; [assumption|]).
  unfold dict_get_or in Hne |- *.
  destruct (dict_get data (u "token")); [reflexivity|now contradiction Hne].
Qed.

Lemma registration_keeps {X} (proj : St -> X) (nickname email password : pystr) :
  (forall l s, proj (put_line l s) = proj s) ->
  (forall e s, proj (set_entropy e s) = proj s) ->
  (forall m a j t s, proj (send m a j t s) = proj s) ->
  (forall n v s, proj (put_header n v s) = proj s) ->
  preserves proj (register_user_and_get_api_token nickname email password).
Proof.
  intros Hline Hent Hsend Hhdr.
  assert (Hprint : forall l, preserves proj (print l)).
  { intros l s. apply Hline. }
  unfold register_user_and_get_api_token, check_server_status, _register_user,
    _get_api_token.
  frame.
  all: intros s;
    cbv beta iota delta [session_get session_post session_request cipher_encrypt
                         session_headers_update];
    repeat match goal with
           | |- context [match ?x with _ => _ end] => destruct x
           end;
    cbn [snd]; auto.
Qed.


(** A result of registration other than [None] comes with its request. *)
Lemma register_user_request (nickname email password : pystr) (s : St) :
  exists r s1,
    _register_user nickname email password s = (Ret r, s1)
    /\ self_host s1 = self_host s
    /\ ((r = PNone
         /\ (http_log s1 = http_log s
             \/ exists rq, http_log s1 = http_log s ++ [rq]
                           /\ rq_url rq = register_url s))
        \/ ((exists d, r = PDict d)
            /\ exists rq, http_log s1 = http_log s ++ [rq]
                          /\ rq_url rq = register_url s)).
Proof.
  unfold _register_user, register_url. run_io.
  destruct (encrypt_password_frame password s) as (e & s0 & He & Hlog & Hhost & Hhdr & Hnet).
  rewrite He. run_io.
  destruct (truthy e); cbn [negb]; run_io.
  2:{ do 2 eexists. split; [reflexivity|]. auto. }
  repeat split_step; do 2 eexists; (split; [reflexivity|]); fields;
    rewrite ?Hlog, ?Hhost; (split; [reflexivity|]);
    first [ left; split; [reflexivity|]; right; eexists; split; reflexivity
          | right; split; [eexists; reflexivity|]; eexists; split; reflexivity ].
Qed.

(** Reads the requests of a run off the log. *)
Ltac requests_done Hlog :=
  unfold requests_since; fields; rewrite ?Hlog; rewrite <- ?app_assoc;
  rewrite skipn_length_app; cbn [map app].

(** X9: the requests of [register_user_and_get_api_token] go out in a
    fixed order, each only after the one before: the probe, then the
    registration, then the token request.  A run that returns something
    other than [None] has sent exactly these three. *)
Theorem registration_requests_in_order (nickname email password : pystr) (s : St) :
  let run := register_user_and_get_api_token nickname email password s in
  let urls := map rq_url (requests_since s (snd run)) in
  (urls = [probe_url s]
   \/ urls = [probe_url s; register_url s]
   \/ urls = [probe_url s; register_url s; token_url s])
  /\ (forall r, fst run = Ret r -> r <> PNone ->
      urls = [probe_url s; register_url s; token_url s]).
Proof.
  cbv zeta. unfold register_user_and_get_api_token. run_io.
  destruct (check_server_status_run s) as (b & s1 & Hprobe & Hlog1 & Hhost1).
  rewrite Hprobe. run_io.
  destruct b; cbn [negb]; run_io; cbn [fst snd].
  2:{ erewrite requests_since_app by (fields; exact Hlog1).
      split; [left; reflexivity|]. intros r H; injection H as <-. congruence. }
  destruct (register_user_request nickname email password s1)
    as (r & s2 & Hreg & Hhost2 & Hr).
  rewrite Hreg. run_io.
  assert (Hurl : register_url s1 = register_url s).
  { unfold register_url. now rewrite Hhost1. }
  rewrite Hurl in Hr. clear Hurl.
  destruct Hr as [[-> Hlog2] | ((d & ->) & rq & Hlog2 & Hrq)].
  { cbn [truthy negb]. run_io. cbn [fst snd]. split.
    - destruct Hlog2 as [Hlog2 | (rq & Hlog2 & Hrq)].
      + erewrite requests_since_app by (rewrite Hlog2; exact Hlog1).
        left. reflexivity.
      + erewrite requests_since_app
          by (rewrite Hlog2, Hlog1, <- app_assoc; reflexivity).
        right. left. cbn. now rewrite Hrq.
    - intros r' H; injection H as <-. congruence. }
  rewrite Hlog1 in Hlog2.
  destruct (truthy (PDict d)); cbn [negb]; run_io; cbn [fst snd].
  2:{ requests_done Hlog2. rewrite Hrq.
      split; [right; left; reflexivity|].
      intros r' H; injection H as <-. congruence. }
  destruct (dict_get_or d (u "data") (PDict [])) as [| | | | |? |data|]; run_io;
    cbn [fst snd];
    try (requests_done Hlog2; rewrite Hrq;
         split; [right; left; reflexivity | intros r' H; discriminate H]).
  match goal with |- context [_get_api_token ?st] =>
    destruct (get_api_token_run st) as (tok & s3 & Htok & rq3 & Hlog3 & Hrq3);
    rewrite Htok; fields_in Hlog3; rewrite Hlog2 in Hlog3;
    assert (Hurl : token_url st = token_url s)
      by (unfold token_url; fields; now rewrite Hhost2, Hhost1);
    rewrite Hurl in Hrq3; clear Hurl
  end.
  run_io.
  destruct (truthy tok); cbn [negb]; run_io; cbn [fst snd];
    requests_done Hlog3; rewrite Hrq, Hrq3; auto.
Qed.
(** X8: registration that the server accepts with a [data] entry that is
    not an object (a [null], say) makes
    [register_user_and_get_api_token] raise [AttributeError]: the lookup of
    the identifier in it is outside every [try].  The flow stops in the
    state registration left: the account exists on the server, no token is
    requested. *)
Theorem registration_raises_on_malformed_data (nickname email password : pystr)
    (s s1 : St) (d : list (pystr * pyval)) (s2 : St) :
  check_server_status s = (Ret true, s1) ->
  _register_user nickname email password s1 = (Ret (PDict d), s2) ->
  d <> [] ->
  (forall user_info, dict_get_or d (u "data") (PDict []) <> PDict user_info) ->
  exists msg,
    register_user_and_get_api_token nickname email password s
    = (Raise (PyExc AttributeError msg), s2).
Proof.
  intros Hprobe Hreg Hd Hdata.
  unfold register_user_and_get_api_token. run_io. rewrite Hprobe. run_io.
  cbn [negb]. rewrite Hreg. run_io.
  destruct d as [|kv d]; [contradiction|]. cbn [truthy negb]. run_io.
  destruct (dict_get_or (kv :: d) (u "data") (PDict [])) as [| | | | |? |data|];
    run_io; try (eexists; reflexivity).
  now contradiction (Hdata data).
Qed.

(** [registration_raises_on_malformed_data] in front of a server that
    answers the registration with [data: null]. *)
Lemma registration_raises_on_malformed_data_witness :
  exists msg s',
    register_user_and_get_api_token (u "TestUser_demo") (u "user_demo@example.com")
      (u "Test123456") (Demo.world Scenario.server_null_data [] [])
    = (Raise (PyExc AttributeError msg), s')
    /\ map rq_url (http_log s')
       = [Demo.host ++ u "/v1/user/login/channels"; Demo.host ++ u "/v1/user/register"].
Proof.
  pose (w := Demo.world Scenario.server_null_data [] []).
  pose (s1 := snd (check_server_status w)).
  pose (s2 := snd (_register_user (u "TestUser_demo") (u "user_demo@example.com")
                     (u "Test123456") s1)).
  destruct (registration_raises_on_malformed_data (u "TestUser_demo")
              (u "user_demo@example.com") (u "Test123456") w s1
              [(u "code", PInt 0); (u "data", PNone)] s2)
    as (msg & Hrun);
    [vm_compute; reflexivity | vm_compute; reflexivity | discriminate
    | intros user_info; vm_compute; discriminate |].
  exists msg, s2. split; [exact Hrun|]. vm_compute. reflexivity.
Defined.

(** X10: [register_user_and_get_api_token] works through the HTTP session
    alone: however it ends, the rows of the database, the statements
    executed, the files, the pending terminal input and the host are as
    before. *)
Theorem registration_leaves_rows_and_files (nickname email password : pystr) :
  let run := register_user_and_get_api_token nickname email password in
  preserves db run /\ preserves db_trace run /\ preserves fs run
  /\ preserves stdin run /\ preserves self_host run.
Proof.
  cbv zeta. repeat split; apply registration_keeps; reflexivity.
Qed.


(** The flow raises nothing but the [AttributeError] of a lookup. *)
Lemma registration_raises_attribute_error (nickname email password : pystr)
    (s : St) cls msg s' :
  register_user_and_get_api_token nickname email password s
  = (Raise (PyExc cls msg), s') ->
  cls = AttributeError.
Proof.
  unfold register_user_and_get_api_token. run_io.
  destruct (check_server_status_run s) as (b & s1 & Hprobe & _).
  rewrite Hprobe. run_io.
  destruct b; cbn [negb]; run_io; [|discriminate].
  destruct (register_user_request nickname email password s1)
    as (r & s2 & Hreg & _). rewrite Hreg. run_io.
  destruct (truthy r); cbn [negb]; run_io; [|discriminate].
  destruct r; run_io; try (intros H; injection H as <- _ _; reflexivity).
  match goal with |- context [dict_get_or ?d ?k ?v] =>
    destruct (dict_get_or d k v) end;
    run_io; try (intros H; injection H as <- _ _; reflexivity).
  match goal with |- context [_get_api_token ?st] =>
    destruct (get_api_token_run st) as (tok & s3 & Htok & _); rewrite Htok
  end.
  run_io. destruct (truthy tok); cbn [negb]; run_io; discriminate.
Qed.


(** X12: in a directory where the file cannot be opened for writing,
    [create_test_user] never returns a complete result: it returns [None]
    or the partial result, or an exception escapes, the [OSError] of the
    failed write or the [AttributeError] of the flow.  No file changes. *)
Theorem create_test_user_unwritable (user_suffix : option pystr) (s : St)
    (o : outcome pyval) (s' : St) :
  create_test_user user_suffix s = (o, s') ->
  fs_denied s (test_user_filename (effective_suffix user_suffix s)) = true ->
  fs s' = fs s
  /\ match o with
     | Ret r => r = PNone \/ exists user_info, r = partial_info user_info
     | Raise (PyExc cls _) => cls = OSError \/ cls = AttributeError
     end.
Proof.
  unfold create_test_user.
  set (sfx := effective_suffix user_suffix s).
  assert (Hs : exists s0,
             (match user_suffix with
              | Some (c :: r) => ret (c :: r)
              | _ => x <- uuid4_str;; ret (firstn 8 x)
              end) s = (Ret sfx, s0) /\ fs s0 = fs s
             /\ fs_denied s0 = fs_denied s).
  { subst sfx. destruct user_suffix as [[|c r]|]; eexists; repeat split; reflexivity. }
  destruct Hs as (s0 & Hs & Hfs0 & Hden0). unfold bind at 1. rewrite Hs. clear Hs.
  generalize dependent sfx. intros sfx. run_io.
  match goal with |- context [register_user_and_get_api_token ?a ?b ?c ?st] =>
    pose proof (registration_keeps fs a b c
                  (fun _ _ => eq_refl) (fun _ _ => eq_refl)
                  (fun _ _ _ _ _ => eq_refl) (fun _ _ _ => eq_refl) st) as Hfs1;
    pose proof (registration_keeps fs_denied a b c
                  (fun _ _ => eq_refl) (fun _ _ => eq_refl)
                  (fun _ _ _ _ _ => eq_refl) (fun _ _ _ => eq_refl) st) as Hden1;
    destruct (register_user_and_get_api_token a b c st) as [[r|[cls msg]] s1] eqn:Hreg
  end; run_io; cbn [snd] in Hfs1, Hden1; fields_in Hfs1; fields_in Hden1;
    rewrite Hfs0 in Hfs1; rewrite Hden0 in Hden1.
  2:{ intros H Hden. injection H as <- <-. split; [exact Hfs1|].
      right. eapply registration_raises_attribute_error. exact Hreg. }
  apply register_result_shape in Hreg.
  destruct Hreg as [-> | [(ui & ->) | (id & nick & mail & ct & at_ & tok & Htok & ->)]].
  - cbn [truthy]. run_io. intros H _. injection H as <- <-. split; [exact Hfs1|].
    left. reflexivity.
  - unfold partial_info at 1. cbn [truthy]. run_io.
    cbv beta iota delta [partial_info]. eval_lookup. cbn [truthy]. run_io.
    intros H _. injection H as <- <-. split; [exact Hfs1|].
    right. eexists. reflexivity.
  - unfold complete_info at 1. cbn [truthy]. run_io.
    cbv beta iota delta [complete_info py_getitem]. repeat (progress eval_lookup; run_io).
    cbn [truthy]. run_io.
    unfold write_json_file. fields. rewrite Hden1.
    intros H Hden. rewrite Hden in H. injection H as <- <-.
    fields. split; [exact Hfs1|]. left. reflexivity.
Qed.

(** [create_test_user_unwritable] in front of the demo server: the user
    is registered and a token issued, then [OSError] escapes. *)
Lemma create_test_user_unwritable_witness :
  exists msg s',
    create_test_user None Scenario.world_read_only
    = (Raise (PyExc OSError msg), s')
    /\ fs s' = [] /\ length (http_log s') = 3%nat.
Proof.
  pose (run := create_test_user None Scenario.world_read_only).
  assert (Hrun : exists msg, run = (Raise (PyExc OSError msg), snd run)).
  { vm_compute. eexists. reflexivity. }
  destruct Hrun as (msg & Hrun).
  destruct (create_test_user_unwritable None Scenario.world_read_only _ _ Hrun)
    as (Hfs & _); [reflexivity|].
  exists msg, (snd run). split; [exact Hrun|]. split; [exact Hfs|].
  vm_compute. reflexivity.
Defined.

(** ** More on inspection and deletion *)

Lemma no_fault_next (n : nat) (s : St) :
  no_fault_in_next (S n) s = true ->
  next_fault s = false /\ forallb negb (firstn n (tl (db_faults s))) = true.
Proof.
  unfold no_fault_in_next, next_fault.
  destruct (db_faults s) as [|f l]; cbn [firstn forallb hd tl].
  - intros _. split; [reflexivity|]. now destruct n.
  - intros H. apply andb_true_iff in H as [Hf Hl]. split; [|exact Hl].
    now destruct f.
Qed.

(** Runs one statement that is known to go through. *)
Ltac db_ok H :=
  run;
  match goal with
  | |- context [next_fault ?st] =>
      let F := fresh "F" in
      let H' := fresh "Hfault" in
      assert (F : next_fault st = false /\
                  forallb negb (firstn _ (tl (db_faults st))) = true)
        by (apply no_fault_next; unfold no_fault_in_next; fields; exact H);
      destruct F as [F H']; rewrite F; clear H; rename H' into H
  end; run.

Lemma list_users_loop_keeps {X} (proj : St -> X) (rows : list User) :
  (forall l s, proj (put_line l s) = proj s) ->
  forall user_list, preserves proj (list_users_loop rows user_list).
Proof.
  intros Hline.
  assert (Hprint : forall l, preserves proj (print l)) by (intros l s; apply Hline).
  induction rows as [|user rest IH]; intros user_list; cbn [list_users_loop]; frame.
Qed.

(** The loop over formattable rows appends their entries. *)
Lemma list_users_loop_formattable (rows : list User) :
  forallb row_formattable rows = true ->
  forall user_list s,
  exists s',
    list_users_loop rows user_list s = (Ret (user_list ++ map user_entry rows), s').
Proof.
  induction rows as [|user rest IH]; intros Hrows user_list s; cbn [list_users_loop].
  - eexists. cbn [map]. now rewrite app_nil_r.
  - cbn [forallb] in Hrows. apply andb_true_iff in Hrows as [Hrow Hrest].
    unfold row_formattable in Hrow.
    apply andb_true_iff in Hrow as [Hrow Hchannel].
    apply andb_true_iff in Hrow as [Hnick Hmail].
    run. unfold fmt_left at 1. run. cbn [map]. unfold user_entry at 1.
    destruct (u_nickname user); try discriminate Hnick;
      destruct (u_email user); try discriminate Hmail;
      destruct (u_login_channel user); try discriminate Hchannel;
      cbn [fmt_left]; run;
      match goal with |- context [list_users_loop rest ?a ?st] =>
        destruct (IH Hrest a st) as (s' & H); rewrite H
      end;
      eexists; rewrite <- app_assoc; reflexivity.
Qed.

(** The loop stops at the first row that cannot be laid out. *)
Lemma list_users_loop_unformattable (rows : list User) :
  forallb row_formattable rows = false ->
  forall user_list s,
  exists msg s',
    list_users_loop rows user_list s = (Raise (PyExc TypeError msg), s').
Proof.
  induction rows as [|user rest IH]; intros Hrows user_list s; cbn [list_users_loop].
  - discriminate.
  - cbn [forallb] in Hrows. run. unfold fmt_left at 1. run.
    unfold row_formattable in Hrows.
    destruct (u_nickname user); cbn [formattable andb] in Hrows;
      cbn [fmt_left]; run; try (do 2 eexists; reflexivity);
      destruct (u_email user); cbn [formattable andb] in Hrows;
      cbn [fmt_left]; run; try (do 2 eexists; reflexivity);
      destruct (u_login_channel user); cbn [formattable andb] in Hrows;
      cbn [fmt_left]; run; try (do 2 eexists; reflexivity);
      match goal with |- context [list_users_loop rest ?a ?st] =>
        destruct (IH Hrows a st) as (msg & s' & H); rewrite H
      end; do 2 eexists; reflexivity.
Qed.
(** X13: with the database initialised and the statement answered,
    [list_users] returns one entry for every account row, in the order of
    the rows, provided the nickname, the e-mail address and the login
    channel of every row can be laid out (none is [None]).  It executes
    the one select and changes no row. *)
Theorem list_users_lists_every_row (s : St) :
  self_db_initialized s = true ->
  no_fault_in_next 1 s = true ->
  forallb row_formattable (users (db s)) = true ->
  exists s',
    list_users s = (Ret (PList (map user_entry (users (db s)))), s')
    /\ statements_since s s' = [{| ev_op := OpSelectUsers; ev_ok := true |}]
    /\ db s' = db s.
Proof.
  intros Hinit Hfault Hrows. unfold list_users. run. rewrite Hinit. cbn [negb].
  db_ok Hfault.
  destruct (users (db s)) as [|row rows] eqn:Husers; run.
  { eexists. split; [reflexivity|]. split; [|reflexivity].
    apply statements_since_app. reflexivity. }
  match goal with |- context [list_users_loop ?r ?a ?st] =>
    destruct (list_users_loop_formattable r Hrows a st) as (s1 & Hloop);
    pose proof (list_users_loop_keeps db r (fun _ _ => eq_refl) a st) as Hdb;
    pose proof (list_users_loop_keeps db_trace r (fun _ _ => eq_refl) a st) as Htrace;
    rewrite Hloop in *
  end.
  run. cbn [snd] in Hdb, Htrace. fields_in Hdb. fields_in Htrace.
  eexists. split; [reflexivity|]. split.
  - apply statements_since_app. fields. exact Htrace.
  - fields. exact Hdb.
Qed.

(** [list_users_lists_every_row] on the demo database. *)
Lemma list_users_lists_every_row_witness :
  fst (list_users (Demo.world Demo.server [] []))
  = Ret (PList [user_entry Demo.alice]).
Proof.
  destruct (list_users_lists_every_row (Demo.world Demo.server [] []))
    as (s' & Hrun & _); [reflexivity | reflexivity | reflexivity |].
  rewrite Hrun. reflexivity.
Defined.

(** X14: one account row whose nickname, e-mail address or login channel
    cannot be laid out (a [None], say) makes [list_users] return the
    empty list although rows exist: the [TypeError] of the layout is
    caught, reported on the terminal, and the entries collected so far are
    dropped. *)
Theorem list_users_hides_rows_on_format_error (s : St) :
  self_db_initialized s = true ->
  no_fault_in_next 1 s = true ->
  forallb row_formattable (users (db s)) = false ->
  exists msg s',
    list_users s = (Ret (PList []), s')
    /\ last (console s') []
       = [Lit "❌ 获取用户列表失败: "; Err (PyExc TypeError msg)].
Proof.
  intros Hinit Hfault Hrows. unfold list_users. run. rewrite Hinit. cbn [negb].
  db_ok Hfault.
  destruct (users (db s)) as [|row rows] eqn:Husers; run; [discriminate|].
  match goal with |- context [list_users_loop ?r ?a ?st] =>
    destruct (list_users_loop_unformattable r Hrows a st) as (msg & s1 & Hloop);
    rewrite Hloop
  end.
  run. do 2 eexists. split; [reflexivity|]. fields. apply last_last.
Qed.

(** [list_users_hides_rows_on_format_error] on a database whose second
    account has no login channel. *)
Lemma list_users_hides_rows_on_format_error_witness :
  let s := Scenario.world_over Scenario.database_with_carol [] [] in
  length (users (db s)) = 2%nat
  /\ fst (list_users s) = Ret (PList []).
Proof.
  intros s. split; [reflexivity|].
  destruct (list_users_hides_rows_on_format_error s)
    as (msg & s' & Hrun & _); [reflexivity | reflexivity | reflexivity |].
  rewrite Hrun. reflexivity.
Defined.

(** X15: [list_users] and [get_user_details] only read: however they
    end, the rows, the HTTP log, the files, the pending terminal input and
    the session headers are as before. *)
Theorem inspection_is_read_only (user_id : pystr) :
  (preserves db list_users /\ preserves http_log list_users
   /\ preserves fs list_users /\ preserves stdin list_users
   /\ preserves self_headers list_users)
  /\ (preserves db (get_user_details user_id)
      /\ preserves http_log (get_user_details user_id)
      /\ preserves fs (get_user_details user_id)
      /\ preserves stdin (get_user_details user_id)
      /\ preserves self_headers (get_user_details user_id)).
Proof.
  split.
  - repeat split; unfold list_users; frame;
      apply list_users_loop_keeps; reflexivity.
  - repeat split; unfold get_user_details; frame.
Qed.
Lemma faults_step (n : nat) (l : list bool) :
  forallb negb (firstn (S n) l)
  = negb (hd false l) && forallb negb (firstn n (tl l)).
Proof.
  destruct l as [|f l]; cbn [firstn forallb hd tl negb andb]; [|reflexivity].
  now destruct n.
Qed.

(** Runs one statement, splitting on the fault injected into it. *)
Ltac db_split :=
  run; unfold next_fault; fields; rewrite faults_step;
  match goal with
  | |- context [if hd false ?l then _ else _] =>
      let F := fresh "F" in destruct (hd false l) eqn:F
  end; cbn [negb andb]; run.

(** X16: [get_user_details] returns an account row exactly when the
    database is initialised, the row is the first one with the identifier,
    and all four statements of the method go through: a fault in one of
    the three auxiliary queries (unit, membership, model configurations)
    makes it return [None] for an account that exists. *)
Theorem get_user_details_some_iff (user_id : pystr) (s : St) (user : User) :
  fst (get_user_details user_id s) = Ret (Some user)
  <-> self_db_initialized s = true
      /\ find_user user_id (db s) = Some user
      /\ no_fault_in_next 4 s = true.
Proof.
  unfold get_user_details, no_fault_in_next. run.
  destruct (self_db_initialized s); cbn [negb]; run.
  2:{ cbn [fst]. split; [discriminate|]. intros (H & _); discriminate. }
  db_split.
  { cbn [fst]. split; [discriminate|]. intros (_ & _ & H); discriminate. }
  destruct (find_user user_id (db s)) as [found|] eqn:Hfind; run.
  2:{ cbn [fst]. split; [discriminate|]. intros (_ & H & _); discriminate. }
  do 3 (db_split;
        [cbn [fst]; split; [discriminate|]; intros (_ & _ & H); discriminate|]).
  fields. cbn [db_apply].
  repeat match goal with
  | |- context [match ?x with Some _ => _ | None => _ end] =>
      lazymatch x with find _ _ => destruct x end
  end; run; cbn [fst firstn forallb];
    (split; [intros H; injection H as <-; auto | intros (_ & H & _); congruence]).
Qed.
(** Runs one statement, splitting on the fault injected into it; the
    faults of the coming statements are read off the list. *)
Ltac fault_split :=
  run; unfold next_fault; fields;
  match goal with
  | |- context [if hd false ?l then _ else _] =>
      let F := fresh "F" in destruct (hd false l) eqn:F
  end; cbn [negb andb]; run.

(** Decides from the rows whether a statement of the teardown went
    through. *)
Ltac pick_flag :=
  match goal with
  | |- _ = (if ?b then _ else _) =>
      first [ unify b true; reflexivity | unify b false; reflexivity ]
  | |- _ = _ => reflexivity
  end.

(** The rows the teardown leaves, table by table. *)
Lemma rollback_rows (user_id : pystr) (s : St) :
  exists s' ok1 ok2 ok3 ok4,
    _rollback_user_registration user_id s = (Ret tt, s')
    /\ users (db s')
       = (if ok1 : bool then rows_of_others user_id u_id (users (db s))
          else users (db s))
    /\ tenants (db s')
       = (if ok2 : bool then rows_of_others user_id t_id (tenants (db s))
          else tenants (db s))
    /\ user_tenants (db s')
       = match membership_rows user_id (db s) with
         | first :: _ =>
             if ok3 : bool
             then rows_of_others (ut_id first) ut_id (user_tenants (db s))
             else user_tenants (db s)
         | [] => user_tenants (db s)
         end
    /\ tenant_llms (db s')
       = (if ok4 : bool
          then rows_of_others user_id tl_tenant_id (tenant_llms (db s))
          else tenant_llms (db s))
    /\ (no_fault_in_next 5 s = true ->
        ok1 = true /\ ok2 = true /\ ok3 = true /\ ok4 = true).
Proof.
  unfold _rollback_user_registration, UserService.delete_by_id,
    TenantService.delete_by_id, UserTenantService.query,
    UserTenantService.delete_by_id, TenantLLM_delete_where, no_fault_in_next.
  run; unfold next_fault; fields; rewrite !faults_step.
  destruct (membership_rows user_id (db s)) as [|first rest] eqn:Hrows.
  all: unfold membership_rows in Hrows.
  all: fault_split; fault_split; fault_split.
  all: fields; unfold membership_rows; cbn [db_apply user_tenants];
    rewrite ?Hrows; run.
  all: try fault_split.
  all: try fault_split.
  all: do 5 eexists; (split; [reflexivity|]); fields;
    cbn [db_apply users tenants user_tenants tenant_llms].
  all: do 4 (split; [pick_flag|]).
  all: intros H; try discriminate H; repeat split; reflexivity.
  Unshelve. all: exact true.
Qed.

Lemma filter_idem {A} (p : A -> bool) (l : list A) :
  filter p (filter p l) = filter p l.
Proof.
  induction l as [|x l IH]; cbn [filter]; [reflexivity|].
  destruct (p x) eqn:E; cbn [filter]; [rewrite E, IH|]; auto.
Qed.

(** X17: [_rollback_user_registration] touches only rows of its
    identifier: the account rows, the unit rows and the
    model-configuration rows that belong to other identifiers are as
    before, in the same order, whatever fails on the way; and no table
    gains a row. *)
Theorem rollback_spares_other_rows (user_id : pystr) (s : St) :
  let s' := snd (_rollback_user_registration user_id s) in
  rows_of_others user_id u_id (users (db s'))
  = rows_of_others user_id u_id (users (db s))
  /\ rows_of_others user_id t_id (tenants (db s'))
     = rows_of_others user_id t_id (tenants (db s))
  /\ rows_of_others user_id tl_tenant_id (tenant_llms (db s'))
     = rows_of_others user_id tl_tenant_id (tenant_llms (db s))
  /\ incl (users (db s')) (users (db s))
  /\ incl (tenants (db s')) (tenants (db s))
  /\ incl (user_tenants (db s')) (user_tenants (db s))
  /\ incl (tenant_llms (db s')) (tenant_llms (db s)).
Proof.
  cbv zeta.
  destruct (rollback_rows user_id s)
    as (s' & ok1 & ok2 & ok3 & ok4 & Hrun & Hu & Ht & Hm & Hl & _).
  rewrite Hrun. cbn [snd]. rewrite Hu, Ht, Hm, Hl. unfold rows_of_others.
  repeat split.
  - destruct ok1; [apply filter_idem | reflexivity].
  - destruct ok2; [apply filter_idem | reflexivity].
  - destruct ok4; [apply filter_idem | reflexivity].
  - destruct ok1; [apply incl_filter | apply incl_refl].
  - destruct ok2; [apply incl_filter | apply incl_refl].
  - destruct (membership_rows user_id (db s)); [apply incl_refl|].
    destruct ok3; [apply incl_filter | apply incl_refl].
  - destruct ok4; [apply incl_filter | apply incl_refl].
Qed.

(** X18: of the membership rows of the unit, [_rollback_user_registration]
    deletes at most the first: every membership row whose identifier
    differs from that of the first row found for the unit is still there
    afterwards, the other members of the unit included. *)
Theorem rollback_keeps_later_memberships (user_id : pystr) (s : St)
    (first : UserTenant) (rest : list UserTenant) (r : UserTenant) :
  membership_rows user_id (db s) = first :: rest ->
  In r (user_tenants (db s)) ->
  ut_id r <> ut_id first ->
  In r (user_tenants (db (snd (_rollback_user_registration user_id s)))).
Proof.
  intros Hrows Hin Hne.
  destruct (rollback_rows user_id s)
    as (s' & ok1 & ok2 & ok3 & ok4 & Hrun & _ & _ & Hm & _).
  rewrite Hrun. cbn [snd]. rewrite Hm, Hrows.
  destruct ok3; [|exact Hin].
  unfold rows_of_others. apply filter_In. split; [exact Hin|].
  apply negb_true_iff. unfold id_is.
  destruct (pystr_eqb (ut_id r) (ut_id first)) eqn:E; [|reflexivity].
  apply pystr_eqb_eq in E. contradiction.
Qed.

(** [rollback_keeps_later_memberships] on a unit with two members: the
    second member's row survives the teardown of the unit. *)
Lemma rollback_keeps_later_memberships_witness :
  let s := Scenario.world_over Scenario.database_two_members [] [] in
  let s' := snd (_rollback_user_registration (u "a1b2") s) in
  tenants (db s') = []
  /\ In Scenario.bob_membership (user_tenants (db s')).
Proof.
  intros s s'. split; [reflexivity|].
  eapply (rollback_keeps_later_memberships (u "a1b2") s).
  - reflexivity.
  - right. left. reflexivity.
  - vm_compute. discriminate.
Defined.

(** X19: when none of its statements fails, [_rollback_user_registration]
    leaves no account row, no unit row and no model-configuration row of
    the identifier, and the membership rows that carry the identifier of
    the first membership row found for the unit are gone; all other rows
    stay. *)
Theorem rollback_effect_without_faults (user_id : pystr) (s : St) :
  no_fault_in_next 5 s = true ->
  let s' := snd (_rollback_user_registration user_id s) in
  users (db s') = rows_of_others user_id u_id (users (db s))
  /\ tenants (db s') = rows_of_others user_id t_id (tenants (db s))
  /\ user_tenants (db s')
     = match membership_rows user_id (db s) with
       | first :: _ => rows_of_others (ut_id first) ut_id (user_tenants (db s))
       | [] => user_tenants (db s)
       end
  /\ tenant_llms (db s')
     = rows_of_others user_id tl_tenant_id (tenant_llms (db s))
  /\ user_exists user_id (db s') = false
  /\ tenant_exists user_id (db s') = false.
Proof.
  intros Hfaults. cbv zeta.
  destruct (rollback_rows user_id s)
    as (s' & ok1 & ok2 & ok3 & ok4 & Hrun & Hu & Ht & Hm & Hl & Hok).
  destruct (Hok Hfaults) as (-> & -> & -> & ->).
  rewrite Hrun. cbn [snd]. repeat (split; [assumption|]).
  unfold user_exists, tenant_exists. rewrite Hu, Ht. unfold rows_of_others.
  split; apply existsb_filter_negb.
Qed.

(** [rollback_effect_without_faults] on the demo database, which holds
    one account with its unit, membership and model configurations. *)
Lemma rollback_effect_without_faults_witness :
  db (snd (_rollback_user_registration (u "a1b2") (Demo.world Demo.server [] [])))
  = {| users := []; tenants := []; user_tenants := []; tenant_llms := [] |}.
Proof.
  pose (s := Demo.world Demo.server [] []).
  destruct (rollback_effect_without_faults (u "a1b2") s eq_refl)
    as (Hu & Ht & Hm & Hl & _).
  fold s.
  destruct (db (snd (_rollback_user_registration (u "a1b2") s))) as [us ts ms ls].
  cbn [users tenants user_tenants tenant_llms] in Hu, Ht, Hm, Hl.
  rewrite Hu, Ht, Hm, Hl. reflexivity.
Defined.
Lemma rollback_keeps {X} (proj : St -> X) (user_id : pystr) :
  (forall op ok s, proj (db_commit op ok s) = proj s) ->
  preserves proj (_rollback_user_registration user_id).
Proof.
  intros Hdb.
  assert (Hexec : forall A op (q : Database -> A), preserves proj (db_exec op q)).
  { intros A op q s. unfold db_exec. destruct (next_fault s); apply Hdb. }
  unfold _rollback_user_registration, swallow, UserService.delete_by_id,
    TenantService.delete_by_id, UserTenantService.query,
    UserTenantService.delete_by_id, TenantLLM_delete_where.
  frame; apply Hexec.
Qed.

Lemma delete_user_keeps {X} (proj : St -> X) (user_id : pystr) (confirm : bool) :
  (forall op ok s, proj (db_commit op ok s) = proj s) ->
  (forall l s, proj (put_line l s) = proj s) ->
  (confirm = true -> forall s, proj (take_line s) = proj s) ->
  preserves proj (delete_user user_id confirm).
Proof.
  intros Hdb Hline Htake.
  assert (Hexec : forall A op (q : Database -> A), preserves proj (db_exec op q)).
  { intros A op q s. unfold db_exec. destruct (next_fault s); apply Hdb. }
  assert (Hprint : forall l, preserves proj (print l)) by (intros l s; apply Hline).
  assert (Hroll := rollback_keeps proj user_id Hdb).
  assert (Hconf : forall d, preserves proj (delete_user_confirmed user_id d)).
  { intros d. unfold delete_user_confirmed. frame; apply Hexec. }
  unfold delete_user, get_user_details. frame; try apply Hexec.
  all: intros s; unfold input; destruct (stdin s); cbn [snd];
    rewrite ?Htake, ?Hline; auto.
Qed.

(** X20: [delete_user] works through the database and the terminal
    alone: however it ends, the HTTP log, the session headers and the
    files are as before; called with [confirm=False] it reads no input
    either. *)
Theorem delete_user_stays_local (user_id : pystr) (confirm : bool) :
  preserves http_log (delete_user user_id confirm)
  /\ preserves self_headers (delete_user user_id confirm)
  /\ preserves fs (delete_user user_id confirm)
  /\ preserves stdin (delete_user user_id false).
Proof.
  repeat split; apply delete_user_keeps; try reflexivity; discriminate.
Qed.

(** The faults of the coming statements, one by one. *)
Ltac faults_clear H :=
  unfold no_fault_in_next in H; rewrite !faults_step in H;
  repeat (let H' := fresh "Hclear" in
          apply andb_true_iff in H as [H' H];
          apply negb_true_iff in H').

(** Runs one statement that is known to go through. *)
Ltac clear_step :=
  run; unfold next_fault; fields;
  match goal with
  | H : hd false ?l = false |- context [if hd false ?l then _ else _] =>
      rewrite H
  end; run.

(** X21: [delete_user] answers [True] on the strength of the account row
    and the unit row alone.  For an account that exists, with the deletion
    confirmed and no statement failing, the answer is [True] although
    every membership row of the unit other than the first one found (by
    identifier) is still in the database. *)
Theorem delete_user_true_despite_orphans (user_id : pystr) (confirm : bool)
    (s : St) (user : User) (first : UserTenant) (rest : list UserTenant)
    (r : UserTenant) :
  self_db_initialized s = true ->
  find_user user_id (db s) = Some user ->
  no_fault_in_next 11 s = true ->
  (confirm = true ->
   exists line lines, stdin s = line :: lines /\ strip line = u "DELETE") ->
  membership_rows user_id (db s) = first :: rest ->
  In r (user_tenants (db s)) ->
  ut_id r <> ut_id first ->
  exists s',
    delete_user user_id confirm s = (Ret true, s')
    /\ In r (user_tenants (db s')).
Proof.
  intros Hinit Hfind Hfaults Hconfirm Hrows Hin Hne.
  faults_clear Hfaults. unfold membership_rows in Hrows.
  unfold delete_user, get_user_details.
  do 2 (run; rewrite Hinit; cbn [negb]). run.
  clear_step. rewrite Hfind. do 3 clear_step.
  repeat match goal with
  | |- context [match ?x with Some _ => _ | None => _ end] =>
      lazymatch x with find _ _ => destruct x end
  end; run.
  all: destruct confirm; run;
    [ destruct (Hconfirm eq_refl) as (line & lines & Hstdin & Hline);
      unfold input; fields; rewrite Hstdin; run; rewrite Hline;
      rewrite pystr_eqb_refl; cbn [negb]
    | ].
  all: unfold delete_user_confirmed, _rollback_user_registration, swallow,
         UserService.delete_by_id, TenantService.delete_by_id,
         UserTenantService.query, UserTenantService.delete_by_id,
         TenantLLM_delete_where.
  all: do 3 clear_step.
  all: unfold membership_rows; fields; cbn [db_apply user_tenants];
    rewrite Hrows; run.
  all: do 4 clear_step.
  all: fields; cbn [db_apply]; unfold user_exists, tenant_exists;
    cbn [users tenants]; rewrite !existsb_filter_negb; cbn [negb andb]; run.
  all: eexists; (split; [reflexivity|]); fields; cbn [db_apply user_tenants].
  all: apply filter_In; (split; [exact Hin|]);
    apply negb_true_iff; unfold id_is;
    destruct (pystr_eqb (ut_id r) (ut_id first)) eqn:E; [|reflexivity];
    apply pystr_eqb_eq in E; contradiction.
Qed.

(** [delete_user_true_despite_orphans] on a unit with two members. *)
Lemma delete_user_true_despite_orphans_witness :
  let s := Scenario.world_over Scenario.database_two_members [u "DELETE"] [] in
  exists s',
    delete_user (u "a1b2") true s = (Ret true, s')
    /\ In Scenario.bob_membership (user_tenants (db s')).
Proof.
  intros s.
  apply (delete_user_true_despite_orphans (u "a1b2") true s Demo.alice
           (hd Scenario.bob_membership (user_tenants Demo.database))
           [Scenario.bob_membership]).
  - reflexivity.
  - reflexivity.
  - reflexivity.
  - intros _. exists (u "DELETE"), []. split; reflexivity.
  - reflexivity.
  - right. left. reflexivity.
  - vm_compute. discriminate.
Defined.

(** ** The menu and the command line *)

Section Within.

Context (R : St -> St -> Prop).
Hypothesis R_refl : forall s, R s s.
Hypothesis R_trans : forall s1 s2 s3, R s1 s2 -> R s2 s3 -> R s1 s3.

Lemma within_ret {A} (a : A) : within R (ret a).
Proof. intros s. apply R_refl. Qed.

Lemma within_raise {A} (e : exn) : within R (@raise St A e).
Proof. intros s. apply R_refl. Qed.

Lemma within_bind {A B} (m : M St A) (k : A -> M St B) :
  within R m -> (forall a, within R (k a)) -> within R (bind m k).
Proof.
  intros Hm Hk s. unfold bind. specialize (Hm s).
  destruct (m s) as [[a|e] s1]; cbn [snd] in *; [|exact Hm].
  eapply R_trans; [exact Hm | apply Hk].
Qed.

Lemma within_try_except {A} (m : M St A) (h : exn -> M St A) :
  within R m -> (forall e, within R (h e)) -> within R (try_except m h).
Proof.
  intros Hm Hh s. unfold try_except. specialize (Hm s).
  destruct (m s) as [[a|e] s1]; cbn [snd] in *; [exact Hm|].
  eapply R_trans; [exact Hm | apply Hh].
Qed.

End Within.

(** Walks through a method, leaving the calls and the primitive effects. *)
Ltac walk Hrefl Htrans :=
  repeat first
    [ assumption
    | match goal with
      | H : context [within] |- within _ _ => simple apply H
      end
    | apply (within_ret _ Hrefl)
    | apply (within_raise _ Hrefl)
    | apply (within_bind _ Htrans); [|intros ?]
    | apply (within_try_except _ Htrans); [|intros ?]
    | match goal with
      | |- within _ (if ?b then _ else _) => destruct b
      | |- within _ (match ?x with _ => _ end) => destruct x
      end ].

Lemma skipn_skipn_add {A} (k1 k2 : nat) (l : list A) :
  skipn k2 (skipn k1 l) = skipn (k1 + k2) l.
Proof.
  revert l. induction k1 as [|k1 IH]; intros l; [reflexivity|].
  destruct l as [|x l]; cbn [skipn Nat.add]; [now destruct k2 | apply IH].
Qed.

Lemma input_left_refl (s : St) : input_left s s.
Proof. exists 0%nat. reflexivity. Qed.

Lemma input_left_trans (s1 s2 s3 : St) :
  input_left s1 s2 -> input_left s2 s3 -> input_left s1 s3.
Proof.
  intros (k1 & H1) (k2 & H2). exists (k1 + k2)%nat.
  now rewrite H2, H1, skipn_skipn_add.
Qed.

Lemma nothing_deleted_refl (s : St) : nothing_deleted s s.
Proof.
  split; [reflexivity|]. split; [|apply input_left_refl].
  exists []. split; [symmetry; apply app_nil_r | constructor].
Qed.

Lemma nothing_deleted_trans (s1 s2 s3 : St) :
  nothing_deleted s1 s2 -> nothing_deleted s2 s3 -> nothing_deleted s1 s3.
Proof.
  intros (Hdb1 & (l1 & Ht1 & Hn1) & Hi1) (Hdb2 & (l2 & Ht2 & Hn2) & Hi2).
  split; [congruence|]. split; [|eapply input_left_trans; eassumption].
  exists (l1 ++ l2). split; [now rewrite Ht2, Ht1, app_assoc|].
  now apply no_delete_app.
Qed.

Lemma skipn_In {A} (k : nat) (l : list A) (x : A) : In x (skipn k l) -> In x l.
Proof.
  revert l. induction k as [|k IH]; intros [|y l]; cbn [skipn]; auto.
  intros H. right. now apply IH.
Qed.

Lemma no_confirmation_left (s s' : St) :
  input_left s s' -> no_confirmation s -> no_confirmation s'.
Proof.
  intros (k & Hk) H line Hin. apply H. rewrite Hk in Hin.
  eapply skipn_In. exact Hin.
Qed.

Lemma cautious_refl (s : St) : cautious s s.
Proof. intros _. apply nothing_deleted_refl. Qed.

Lemma cautious_trans (s1 s2 s3 : St) :
  cautious s1 s2 -> cautious s2 s3 -> cautious s1 s3.
Proof.
  intros H1 H2 Hno. specialize (H1 Hno).
  eapply nothing_deleted_trans; [exact H1|]. apply H2.
  eapply no_confirmation_left; [|exact Hno]. apply H1.
Qed.

(** What leaves the rows, the statements and the input alone deletes
    nothing. *)
Lemma quiet_nothing_deleted {A} (m : M St A) :
  preserves db m -> preserves db_trace m -> preserves stdin m ->
  within nothing_deleted m.
Proof.
  intros Hdb Htrace Hin s. split; [apply Hdb|]. split.
  - exists []. rewrite Htrace. split; [symmetry; apply app_nil_r | constructor].
  - exists 0%nat. apply Hin.
Qed.

Lemma quiet_input_left {A} (m : M St A) :
  preserves stdin m -> within input_left m.
Proof. intros Hin s. exists 0%nat. apply Hin. Qed.

Lemma nothing_deleted_cautious {A} (m : M St A) :
  within nothing_deleted m -> within cautious m.
Proof. intros H s _. apply H. Qed.

Lemma print_nothing_deleted (l : Line) : within nothing_deleted (print l).
Proof. apply quiet_nothing_deleted; intros s; reflexivity. Qed.

Lemma input_input_left (prompt : Line) : within input_left (input prompt).
Proof.
  intros s. unfold input. destruct (stdin s) as [|line rest] eqn:E; cbn [snd].
  - exists 0%nat. fields. now rewrite E.
  - exists 1%nat. fields. now rewrite E.
Qed.

Lemma input_nothing_deleted (prompt : Line) : within nothing_deleted (input prompt).
Proof.
  intros s. split; [|split; [|apply input_input_left]].
  - unfold input. destruct (stdin s); reflexivity.
  - exists []. split; [|constructor].
    unfold input. destruct (stdin s); cbn [snd]; fields; symmetry; apply app_nil_r.
Qed.

Lemma input_stripped_nothing_deleted (prompt : Line) :
  within nothing_deleted (input_stripped prompt).
Proof.
  unfold input_stripped.
  walk nothing_deleted_refl nothing_deleted_trans. apply input_nothing_deleted.
Qed.

Lemma db_exec_nothing_deleted {A} (op : DbOp) (q : Database -> A) :
  is_delete op = false -> within nothing_deleted (db_exec op q).
Proof.
  intros Hop s. unfold db_exec.
  destruct (next_fault s); cbn [snd]; (split; [|split; [|exists 0%nat; reflexivity]]).
  - reflexivity.
  - eexists. split; [reflexivity|]. repeat constructor. exact Hop.
  - fields. now destruct op.
  - eexists. split; [reflexivity|]. repeat constructor. exact Hop.
Qed.
Lemma check_server_status_keeps {X} (proj : St -> X) :
  (forall l s, proj (put_line l s) = proj s) ->
  (forall m a j t s, proj (send m a j t s) = proj s) ->
  preserves proj check_server_status.
Proof.
  intros Hline Hsend.
  assert (Hprint : forall l, preserves proj (print l)) by (intros l s; apply Hline).
  unfold check_server_status. frame.
  intros s. unfold session_get, session_request.
  destruct (net s _ _); apply Hsend.
Qed.

Lemma show_api_token_keeps {X} (proj : St -> X) (result : pyval) :
  (forall l s, proj (put_line l s) = proj s) ->
  preserves proj (show_api_token result).
Proof.
  intros Hline.
  assert (Hprint : forall l, preserves proj (print l)) by (intros l s; apply Hline).
  unfold show_api_token. frame.
Qed.

Lemma create_test_user_keeps {X} (proj : St -> X) (user_suffix : option pystr) :
  (forall l s, proj (put_line l s) = proj s) ->
  (forall e s, proj (set_entropy e s) = proj s) ->
  (forall m a j t s, proj (send m a j t s) = proj s) ->
  (forall n v s, proj (put_header n v s) = proj s) ->
  (forall s, proj (drop_uuid s) = proj s) ->
  (forall f v s, proj (put_file f v s) = proj s) ->
  preserves proj (create_test_user user_suffix).
Proof.
  intros Hline Hent Hsend Hhdr Huuid Hfile.
  assert (Hprint : forall l, preserves proj (print l)) by (intros l s; apply Hline).
  assert (Hreg : forall a b c,
             preserves proj (register_user_and_get_api_token a b c))
    by (intros; now apply registration_keeps).
  unfold create_test_user. frame.
  all: intros s; unfold uuid4_str, write_json_file;
    try match goal with |- context [fs_denied ?st ?f] => destruct (fs_denied st f) end;
    cbn [snd]; auto.
Qed.

Lemma list_users_nothing_deleted : within nothing_deleted list_users.
Proof.
  pose proof print_nothing_deleted as Hprint.
  assert (Hloop : forall rows user_list,
             within nothing_deleted (list_users_loop rows user_list))
    by (intros; apply quiet_nothing_deleted; apply list_users_loop_keeps;
        reflexivity).
  unfold list_users.
  walk nothing_deleted_refl nothing_deleted_trans.
  - apply quiet_nothing_deleted; intros s; reflexivity.
  - now apply db_exec_nothing_deleted.
Qed.

Lemma get_user_details_nothing_deleted (user_id : pystr) :
  within nothing_deleted (get_user_details user_id).
Proof.
  intros s.
  destruct (get_user_details_run user_id s)
    as (r & s1 & l & Hrun & Htrace & Hdb & Hin & Hnd & _).
  rewrite Hrun. cbn [snd]. split; [exact Hdb|]. split; [eauto|].
  exists 0%nat. exact Hin.
Qed.

Lemma rollback_input_left (user_id : pystr) :
  preserves stdin (_rollback_user_registration user_id).
Proof. apply rollback_keeps. reflexivity. Qed.

Lemma delete_user_input_left (user_id : pystr) (confirm : bool) :
  within input_left (delete_user user_id confirm).
Proof.
  assert (Hconf : forall d, within input_left (delete_user_confirmed user_id d)).
  { intros d. apply quiet_input_left. unfold delete_user_confirmed.
    pose proof (rollback_input_left user_id). frame. }
  assert (Hdetails : within input_left (get_user_details user_id)).
  { apply quiet_input_left. unfold get_user_details. frame. }
  assert (Hinput := input_input_left).
  unfold delete_user.
  walk input_left_refl input_left_trans.
  all: apply quiet_input_left; frame.
Qed.

(** With confirmation asked, [delete_user] deletes nothing unless the
    line it reads confirms. *)
Lemma delete_user_cautious (user_id : pystr) :
  within cautious (delete_user user_id true).
Proof.
  intros s Hno. unfold delete_user. run.
  destruct (self_db_initialized s); cbn [negb]; run.
  2:{ apply print_nothing_deleted. }
  destruct (get_user_details_run user_id s)
    as (r & s1 & l1 & Hrun & Htrace & Hdb & Hin & Hnd & _).
  rewrite Hrun. run.
  destruct r as [user_details|]; run; cbn [snd].
  2:{ split; [exact Hdb|]. split; [eauto|]. exists 0%nat. exact Hin. }
  unfold input. fields. rewrite Hin.
  destruct (stdin s) as [|line rest] eqn:Hs; run; cbn [snd].
  { split; [fields; exact Hdb|]. split; [exists l1; fields; auto|].
    exists 0%nat. unfold input_left. fields. now rewrite Hin, Hs. }
  destruct (pystr_eqb (strip line) (u "DELETE")) eqn:E; cbn [negb]; run; cbn [snd].
  { apply pystr_eqb_eq in E. exfalso. apply (Hno line); [|exact E].
    rewrite Hs. left. reflexivity. }
  split; [fields; exact Hdb|]. split; [exists l1; fields; auto|].
  exists 1%nat. fields. now rewrite Hin, Hs.
Qed.

Lemma menu_choice_cautious (choice : pystr) : within cautious (menu_choice choice).
Proof.
  assert (Hq : forall A (m : M St A),
             preserves db m -> preserves db_trace m -> preserves stdin m ->
             within cautious m).
  { intros. now apply nothing_deleted_cautious, quiet_nothing_deleted. }
  assert (Hprint : forall l, within cautious (print l))
    by (intros; apply nothing_deleted_cautious, print_nothing_deleted).
  assert (Hinput : forall p, within cautious (input_stripped p))
    by (intros; apply nothing_deleted_cautious, input_stripped_nothing_deleted).
  assert (Hlist : within cautious list_users)
    by apply nothing_deleted_cautious, list_users_nothing_deleted.
  assert (Hdetails : forall i, within cautious (get_user_details i))
    by (intros; apply nothing_deleted_cautious, get_user_details_nothing_deleted).
  assert (Hreg : forall a b c,
             within cautious (register_user_and_get_api_token a b c))
    by (intros; apply Hq; apply registration_keeps; reflexivity).
  assert (Hshow : forall r, within cautious (show_api_token r))
    by (intros; apply Hq; apply show_api_token_keeps; reflexivity).
  assert (Htest : forall x, within cautious (create_test_user x))
    by (intros; apply Hq; apply create_test_user_keeps; reflexivity).
  assert (Hprobe : within cautious check_server_status)
    by (apply Hq; apply check_server_status_keeps; reflexivity).
  assert (Hdelete := delete_user_cautious).
  clear Hq.
  unfold menu_choice. walk cautious_refl cautious_trans.
Qed.

Lemma menu_choice_input_left (choice : pystr) :
  within input_left (menu_choice choice).
Proof.
  assert (Hprint : forall l, within input_left (print l))
    by (intros; apply quiet_input_left; intros s; reflexivity).
  assert (Hinput : forall p, within input_left (input_stripped p)).
  { intros p s. apply (input_stripped_nothing_deleted p s). }
  assert (Hlist : within input_left list_users).
  { intros s. apply (list_users_nothing_deleted s). }
  assert (Hdetails : forall i, within input_left (get_user_details i)).
  { intros i s. apply (get_user_details_nothing_deleted i s). }
  assert (Hreg : forall a b c,
             within input_left (register_user_and_get_api_token a b c))
    by (intros; apply quiet_input_left; apply registration_keeps; reflexivity).
  assert (Hshow : forall r, within input_left (show_api_token r))
    by (intros; apply quiet_input_left; apply show_api_token_keeps; reflexivity).
  assert (Htest : forall x, within input_left (create_test_user x))
    by (intros; apply quiet_input_left; apply create_test_user_keeps; reflexivity).
  assert (Hprobe : within input_left check_server_status)
    by (apply quiet_input_left; apply check_server_status_keeps; reflexivity).
  assert (Hdelete := delete_user_input_left).
  unfold menu_choice. walk input_left_refl input_left_trans.
Qed.

(** The loop ends only on the choice [0]. *)
Lemma menu_choice_quit (choice : pystr) (s s' : St) :
  menu_choice choice s = (Ret false, s') -> choice = u "0".
Proof.
  unfold menu_choice.
  destruct (pystr_eqb choice (u "0")) eqn:E; [intros _; now apply pystr_eqb_eq|].
  repeat match goal with
         | |- context [if pystr_eqb choice ?c then _ else _] =>
             destruct (pystr_eqb choice c)
         end;
    unfold bind at 1;
    match goal with |- context [let (o, s'0) := ?m s in _] => destruct (m s) as [[?|?] ?] end;
    try discriminate.
  all: unfold bind;
    repeat match goal with
           | |- context [let (o, s'0) := ?m in _] => destruct m as [[?|?] ?]
           end; discriminate.
Qed.

(** A round reads the choice, or fails at the end of the input. *)
Lemma menu_round_run (s : St) :
  (stdin s = []
   /\ exists msg s', menu_round s = (Raise (PyExc EOFError msg), s')
                     /\ nothing_deleted s s')
  \/ exists line rest s0,
       stdin s = line :: rest
       /\ stdin s0 = rest /\ db s0 = db s /\ db_trace s0 = db_trace s
       /\ menu_round s = menu_choice (strip line) s0.
Proof.
  unfold menu_round, input_stripped. run. unfold input. fields.
  destruct (stdin s) as [|line rest] eqn:Hs; run.
  - left. split; [reflexivity|]. do 2 eexists. split; [reflexivity|].
    split; [reflexivity|]. split.
    + exists []. split; [fields; symmetry; apply app_nil_r | constructor].
    + exists 0%nat. fields. now rewrite Hs.
  - right. do 3 eexists. split; [reflexivity|].
    split; [|split; [|split; [|reflexivity]]]; fields; try reflexivity.
    now rewrite Hs.
Qed.

Lemma menu_round_cautious : within cautious menu_round.
Proof.
  intros s Hno.
  destruct (menu_round_run s)
    as [(_ & msg & s' & Hrun & Hnd) | (line & rest & s0 & Hs & Hin & Hdb & Htrace & Hrun)];
    rewrite Hrun; [exact Hnd|].
  assert (H0 : nothing_deleted s s0).
  { split; [exact Hdb|]. split.
    - exists []. rewrite Htrace. split; [symmetry; apply app_nil_r | constructor].
    - exists 1%nat. now rewrite Hs, Hin. }
  eapply nothing_deleted_trans; [exact H0|].
  apply menu_choice_cautious.
  eapply no_confirmation_left; [apply H0 | exact Hno].
Qed.

Lemma menu_loop_cautious (fuel : nat) : forall s o s',
  menu_loop fuel s = Some (o, s') -> cautious s s'.
Proof.
  induction fuel as [|fuel IH]; intros s o s'; cbn [menu_loop]; [discriminate|].
  pose proof (menu_round_cautious s) as Hround.
  destruct (menu_round s) as [[[|]|e] s1]; cbn [snd] in Hround.
  - intros H. eapply cautious_trans; [exact Hround | eapply IH; exact H].
  - intros H. injection H as <- <-. exact Hround.
  - intros H. injection H as <- <-. exact Hround.
Qed.

Lemma menu_loop_ends (n : nat) : forall s,
  (length (stdin s) < n)%nat ->
  exists r, forall fuel, (n <= fuel)%nat -> menu_loop fuel s = Some r.
Proof.
  induction n as [|n IH]; intros s Hlen; [lia|].
  destruct (menu_round_run s)
    as [(_ & msg & s' & Hrun & _) | (line & rest & s0 & Hs & Hin & _ & _ & Hrun)].
  - eexists. intros [|fuel] Hfuel; [lia|]. cbn [menu_loop]. rewrite Hrun.
    reflexivity.
  - pose proof (menu_choice_input_left (strip line) s0) as (k & Hk).
    destruct (menu_choice (strip line) s0) as [[[|]|e] s1] eqn:Hchoice;
      cbn [snd] in Hk.
    + destruct (IH s1) as (r & Hr).
      { rewrite Hk, length_skipn, Hin. rewrite Hs in Hlen. cbn [length] in Hlen. lia. }
      exists r. intros [|fuel] Hfuel; [lia|]. cbn [menu_loop].
      rewrite Hrun. apply Hr. lia.
    + eexists. intros [|fuel] Hfuel; [lia|]. cbn [menu_loop].
      rewrite Hrun. reflexivity.
    + eexists. intros [|fuel] Hfuel; [lia|]. cbn [menu_loop].
      rewrite Hrun. reflexivity.
Qed.

Lemma menu_loop_quit (fuel : nat) : forall s s',
  menu_loop fuel s = Some (Ret tt, s') ->
  exists line, In line (stdin s) /\ strip line = u "0".
Proof.
  induction fuel as [|fuel IH]; intros s s'; cbn [menu_loop]; [discriminate|].
  destruct (menu_round_run s)
    as [(_ & msg & s1 & Hrun & _) | (line & rest & s0 & Hs & Hin & _ & _ & Hrun)];
    rewrite Hrun; [discriminate|].
  pose proof (menu_choice_input_left (strip line) s0) as (k & Hk).
  destruct (menu_choice (strip line) s0) as [[[|]|e] s1] eqn:Hchoice;
    cbn [snd] in Hk; [| |discriminate].
  - intros H. destruct (IH _ _ H) as (l & Hl & Hstrip).
    exists l. split; [|exact Hstrip].
    rewrite Hs. right. rewrite <- Hin. eapply skipn_In. rewrite <- Hk. exact Hl.
  - intros _. exists line. split; [rewrite Hs; left; reflexivity|].
    eapply menu_choice_quit. exact Hchoice.
Qed.

(** X22: [admin_menu] ends, whatever is typed: one round more than there
    are pending lines of input is always enough for its loop, and more
    rounds change nothing.  (Every round reads a line, and at the end of
    the input the [EOFError] of [input] ends the loop.) *)
Theorem admin_menu_ends (s : St) :
  exists r,
    forall fuel, (enough_rounds s <= fuel)%nat -> admin_menu fuel s = Some r.
Proof.
  unfold admin_menu, enough_rounds. fields.
  destruct (self_db_initialized s); cbn [negb]; [|eauto].
  match goal with |- context [menu_loop _ ?st] =>
    destruct (menu_loop_ends (S (length (stdin s))) st) as (r & Hr);
    [fields; lia|]
  end.
  exists r. exact Hr.
Qed.

(** X23: with the database initialised, [admin_menu] returns normally
    only after a line of input that, surrounding whitespace stripped, is
    the choice [0]. *)
Theorem admin_menu_returns_after_quit (fuel : nat) (s s' : St) :
  self_db_initialized s = true ->
  admin_menu fuel s = Some (Ret tt, s') ->
  exists line, In line (stdin s) /\ strip line = u "0".
Proof.
  intros Hinit. unfold admin_menu. fields. rewrite Hinit. cbn [negb].
  intros H. apply menu_loop_quit in H. exact H.
Qed.

(** [admin_menu_returns_after_quit] at the terminal: a listing, then the
    choice [0] with blanks around it; the third line is left unread. *)
Lemma admin_menu_returns_after_quit_witness :
  let s := Demo.world Demo.server [u "1"; u " 0 "; u "5"] [] in
  exists s',
    admin_menu (enough_rounds s) s = Some (Ret tt, s')
    /\ stdin s' = [u "5"].
Proof.
  intros s.
  assert (Hr : admin_menu (enough_rounds s) s
               = Some (Ret tt, final_state (admin_menu (enough_rounds s) s) s)).
  { vm_compute. reflexivity. }
  destruct (admin_menu_returns_after_quit _ s _ eq_refl Hr) as (line & _ & _).
  eexists. split; [exact Hr|]. vm_compute. reflexivity.
Defined.

(** X24: neither the commands of [main] nor the menu delete a row behind
    the user's back: unless some pending line of input is, surrounding
    whitespace stripped, the confirmation [DELETE], a run of [main] ends
    with the rows it started with and has executed no delete statement,
    however it ends. *)
Theorem main_deletes_only_on_confirmation (fuel : nat) (args : Args)
    (s : St) (o : outcome unit) (s' : St) :
  main fuel args s = Some (o, s') ->
  no_confirmation s ->
  db s' = db s /\ no_delete (statements_since s s').
Proof.
  intros Hrun Hno.
  assert (H : cautious s s').
  { revert Hrun. unfold main.
    assert (Hstep : forall m : M St unit,
               within cautious m -> Some (m s) = Some (o, s') -> cautious s s').
    { intros m Hm H. injection H as H. specialize (Hm s). now rewrite H in Hm. }
    assert (Hq : forall A (m : M St A),
               preserves db m -> preserves db_trace m -> preserves stdin m ->
               within cautious m).
    { intros. now apply nothing_deleted_cautious, quiet_nothing_deleted. }
    repeat match goal with
           | |- context [if ?b then _ else _] => destruct b
           end.
    all: try (apply Hstep; apply (within_bind _ cautious_trans);
              [|intros ?; first [apply (within_ret _ cautious_refl)
                                | apply Hq; apply show_api_token_keeps; reflexivity]]).
    - apply nothing_deleted_cautious, list_users_nothing_deleted.
    - apply nothing_deleted_cautious, get_user_details_nothing_deleted.
    - apply delete_user_cautious.
    - apply Hq; apply registration_keeps; reflexivity.
    - apply Hq; apply create_test_user_keeps; reflexivity.
    - apply Hstep. apply nothing_deleted_cautious, print_nothing_deleted.
    - unfold admin_menu. fields.
      destruct (self_db_initialized s); cbn [negb].
      + intros H. apply menu_loop_cautious in H.
        intros Hno'. apply H. exact Hno'.
      + intros H. injection H as <- <-. intros _.
        split; [reflexivity|]. split; [|exists 0%nat; reflexivity].
        exists []. split; [symmetry; apply app_nil_r | constructor]. }
  destruct (H Hno) as (Hdb & (l & Htrace & Hnd) & _).
  split; [exact Hdb|]. now rewrite (statements_since_app _ _ _ Htrace).
Qed.


(** [main_deletes_only_on_confirmation] at the menu: the deletion of the
    demo account is asked for and answered with a lower-case [delete]. *)
Lemma main_deletes_only_on_confirmation_witness :
  let s := Demo.world Demo.server [u "5"; u "a1b2"; u "delete"; u "0"] [] in
  let args := {| args_command := None; args_target := None;
                 args_nickname := None; args_email := None;
                 args_password := None |} in
  exists s',
    main (enough_rounds s) args s = Some (Ret tt, s')
    /\ db s' = Demo.database.
Proof.
  intros s args.
  assert (Hr : main (enough_rounds s) args s
               = Some (Ret tt, final_state (main (enough_rounds s) args s) s)).
  { vm_compute. reflexivity. }
  destruct (main_deletes_only_on_confirmation _ _ _ _ _ Hr) as [Hdb _].
  { intros line [<-|[<-|[<-|[<-|[]]]]]; vm_compute; discriminate. }
  eexists. split; [exact Hr | exact Hdb].
Defined.

(** X25: a [UserAdmin] whose database initialisation failed refuses
    every database operation up front: [list_users] returns the empty
    list, [get_user_details] returns [None], [delete_user] returns [False]
    and [admin_menu] returns at once; each only prints a line, no
    statement is executed and no input is read. *)
Theorem without_database_nothing_runs (user_id : pystr) (confirm : bool)
    (fuel : nat) (s : St) :
  self_db_initialized s = false ->
  let refused := put_line [Lit "❌ 数据库未初始化"] s in
  list_users s = (Ret (PList []), refused)
  /\ get_user_details user_id s = (Ret None, refused)
  /\ delete_user user_id confirm s = (Ret false, refused)
  /\ exists s',
       admin_menu fuel s = Some (Ret tt, s')
       /\ stdin s' = stdin s /\ db_trace s' = db_trace s /\ db s' = db s.
Proof.
  intros Hinit. cbv zeta.
  unfold list_users, get_user_details, delete_user, admin_menu. run. fields.
  rewrite Hinit. cbn [negb]. run.
  repeat (split; [reflexivity|]).
  eexists. split; [reflexivity|]. repeat split; reflexivity.
Qed.

(** [without_database_nothing_runs] with a deletion typed at the menu. *)
Lemma without_database_nothing_runs_witness :
  let s := Scenario.world_without_db [u "5"; u "a1b2"; u "DELETE"] in
  exists s',
    admin_menu (enough_rounds s) s = Some (Ret tt, s')
    /\ stdin s' = [u "5"; u "a1b2"; u "DELETE"]
    /\ db s' = Demo.database.
Proof.
  intros s.
  destruct (without_database_nothing_runs [] true (enough_rounds s) s eq_refl)
    as (_ & _ & _ & s' & Hrun & Hin & _ & Hdb).
  exists s'. split; [exact Hrun|]. split; [exact Hin | exact Hdb].
Defined.

(** ** More on the SDK wrapper *)

Lemma calls_since_app (s s' : Sdk) (l : list Call) :
  sdk_calls s' = sdk_calls s ++ l -> calls_since s s' = l.
Proof. unfold calls_since. intros ->. apply skipn_length_app. Qed.

Lemma logged_since_app (s s' : Sdk) (l : list (LogLevel * Line)) :
  sdk_log s' = sdk_log s ++ l -> logged_since s s' = map fst l.
Proof. unfold logged_since. intros ->. now rewrite skipn_length_app. Qed.

Lemma logged_since_same (s s' : Sdk) :
  sdk_log s' = sdk_log s -> logged_since s s' = [].
Proof.
  intros H. rewrite (logged_since_app s s' []); [reflexivity|].
  now rewrite app_nil_r.
Qed.

(** Runs a wrapper method up to the answers of the SDK. *)
Ltac sdk_run := mred; unfold remote_call, logger; mred; cbn [fst snd].

(** Reads the calls and the log off the final state. *)
Ltac sdk_done :=
  cbn [fst snd sdk_calls sdk_log remote];
  repeat match goal with
         | |- _ /\ _ => split
         | |- calls_since _ _ = _ =>
             apply calls_since_app; cbn [sdk_calls]; rewrite <- ?app_assoc;
             reflexivity
         | |- logged_since _ _ = [] => apply logged_since_same; reflexivity
         | |- logged_since _ _ = _ =>
             erewrite logged_since_app
               by (cbn [sdk_log]; rewrite <- ?app_assoc; reflexivity);
             reflexivity
         | |- _ = _ => reflexivity
         end.

(** X26: each of the eleven wrapper methods that return nothing (the
    deletions, the start and stop of parsing, the changes to an agent)
    makes exactly one call into the SDK, with the arguments it was given
    (an identifier list left out is passed as [None]).  When the call
    returns, the method returns [None], whatever the SDK answered, after
    one [INFO] record; when the call raises, the same exception is raised
    again after one [ERROR] record. *)
Theorem commands_pass_through (self : RAGFlowSDKClient) (op : Command) (s : Sdk) :
  let run := run_command self op s in
  calls_since s (snd run) = [command_call self op]
  /\ match remote s (sdk_calls s) (command_call self op) with
     | Ret _ => fst run = Ret PNone /\ logged_since s (snd run) = [INFO]
     | Raise e => fst run = Raise e /\ logged_since s (snd run) = [ERROR]
     end.
Proof.
  cbv zeta.
  destruct op;
    unfold run_command, command_call, delete_datasets, delete_documents,
      parse_documents, stop_parsing_documents, delete_chunks,
      delete_chat_assistants, delete_sessions, create_agent, update_agent,
      delete_agent, delete_agent_sessions;
    sdk_run;
    match goal with
    | |- context [remote s (sdk_calls s) ?c] =>
        destruct (remote s (sdk_calls s) c) as [v|e]
    end; sdk_done.
Qed.

(** X27: the wrapper methods that hand an object back pass one call on
    to the SDK and return its answer unchanged, raising its exception
    again after an [ERROR] record: [create_dataset] (with the description
    [""], the embedding model [BAAI/bge-large-zh-v1.5@BAAI], the
    permission [me] and the chunk method [naive] for what is left out),
    [create_session] (named [新会话] when no name is given),
    [create_agent_session] (with the keyword arguments as given), and
    [get_dataset_by_name], which alone logs nothing on success. *)
Theorem creators_pass_through (self : RAGFlowSDKClient) (s : Sdk) :
  (forall name description embedding_model permission chunk_method,
     passes_on
       (create_dataset self name description embedding_model permission
          chunk_method)
       {| call_on := OnRag (rag self); call_method := "create_dataset";
          call_kwargs :=
            [kw "name" name;
             kw "description" (arg description (PStr []));
             kw "embedding_model"
               (arg embedding_model (PStr (u "BAAI/bge-large-zh-v1.5@BAAI")));
             kw "permission" (arg permission (PStr (u "me")));
             kw "chunk_method" (arg chunk_method (PStr (u "naive")))] |}
       [INFO] s)
  /\ (forall chat name,
        passes_on (create_session self chat name)
          {| call_on := OnObject chat; call_method := "create_session";
             call_kwargs := [kw "name" (arg name (PStr (u "新会话")))] |}
          [INFO] s)
  /\ (forall agent kwargs,
        passes_on (create_agent_session self agent kwargs)
          {| call_on := OnObject agent; call_method := "create_session";
             call_kwargs := kwargs |}
          [INFO] s)
  /\ (forall name,
        passes_on (get_dataset_by_name self name)
          {| call_on := OnRag (rag self); call_method := "get_dataset";
             call_kwargs := [kw "name" name] |}
          [] s).
Proof.
  repeat split; intros;
    unfold passes_on, create_dataset, create_session, create_agent_session,
      get_dataset_by_name;
    sdk_run; try sdk_done;
    match goal with
    | |- context [remote s (sdk_calls s) ?c] =>
        destruct (remote s (sdk_calls s) c) as [v|e]
    end; sdk_done.
Qed.
(** X28: [chat_with_assistant] and [chat_with_agent] make one call, [ask]
    on the session, with the question and with [stream] as a proper
    boolean ([True] for any truthy value given), and hand its outcome on:
    the answer, or the exception raised again.  With streaming the [INFO]
    record is written before the call, so it is there even when the call
    fails; without, it is written only after an answer.  A failure adds an
    [ERROR] record. *)
Theorem chat_passes_question (self : RAGFlowSDKClient) (session : pyval)
    (s : Sdk) :
  let ask question stream :=
    {| call_on := OnObject session; call_method := "ask";
       call_kwargs := [kw "question" question;
                       kw "stream" (PBool (truthy (arg stream (PBool false))))] |} in
  let told m question stream :=
    calls_since s (snd (m s)) = [ask question stream]
    /\ fst (m s) = remote s (sdk_calls s) (ask question stream)
    /\ logged_since s (snd (m s))
       = match remote s (sdk_calls s) (ask question stream) with
         | Ret _ => [INFO]
         | Raise _ =>
             if truthy (arg stream (PBool false)) then [INFO; ERROR] else [ERROR]
         end in
  (forall question stream,
     told (chat_with_assistant self session question stream) question stream)
  /\ (forall question stream,
        told (chat_with_agent self session question stream)
          (arg question (PStr [])) stream).
Proof.
  cbv zeta. split; intros question stream;
    unfold chat_with_assistant, chat_with_agent;
    destruct (truthy (arg stream (PBool false))); sdk_run;
    cbn [remote sdk_calls sdk_log];
    match goal with
    | |- context [remote s (sdk_calls s) ?c] =>
        destruct (remote s (sdk_calls s) c) as [v|e]
    end; sdk_done.
Qed.

(** X29: [create_chat_assistant] builds the assistant in three calls, each
    made only after the one before has returned: the LLM settings object,
    the prompt settings object, then [create_chat] with the name, the
    avatar, the dataset identifiers and the two objects just built.  The
    default settings are taken only where none (or [None]) were given; an
    empty dict is passed on as it is.  The answer of the last call is the
    result; the first exception ends the method, is logged as [ERROR] and
    raised again. *)
Theorem create_chat_assistant_builds (self : RAGFlowSDKClient) (name : pyval)
    (dataset_ids avatar llm_config prompt_config : option pyval) (s : Sdk) :
  let on_rag (method : string) kwargs :=
    {| call_on := OnRag (rag self); call_method := method;
       call_kwargs := kwargs |} in
  let make_llm :=
    on_rag "Chat.LLM"%string
      [pos (effective_config llm_config (Some default_llm_config))] in
  let make_prompt :=
    on_rag "Chat.Prompt"%string
      [pos (effective_config prompt_config (Some default_prompt_config))] in
  let create llm prompt :=
    on_rag "create_chat"%string
      [kw "name" name; kw "avatar" (arg avatar (PStr []));
       kw "dataset_ids" (arg dataset_ids (PList []));
       kw "llm" llm; kw "prompt" prompt] in
  let run := create_chat_assistant self name dataset_ids avatar llm_config
               prompt_config s in
  match remote s (sdk_calls s) make_llm with
  | Raise e =>
      fst run = Raise e /\ calls_since s (snd run) = [make_llm]
      /\ logged_since s (snd run) = [ERROR]
  | Ret llm =>
      match remote s (sdk_calls s ++ [make_llm]) make_prompt with
      | Raise e =>
          fst run = Raise e /\ calls_since s (snd run) = [make_llm; make_prompt]
          /\ logged_since s (snd run) = [ERROR]
      | Ret prompt =>
          calls_since s (snd run) = [make_llm; make_prompt; create llm prompt]
          /\ fst run
             = remote s (sdk_calls s ++ [make_llm; make_prompt])
                 (create llm prompt)
          /\ logged_since s (snd run)
             = match fst run with Ret _ => [INFO] | Raise _ => [ERROR] end
      end
  end.
Proof.
  cbv zeta. unfold create_chat_assistant.
  assert (Hcfg : forall given default,
             (if is_none (arg given PNone) then default else arg given PNone)
             = effective_config given (Some default)).
  { intros [[]|] default; reflexivity. }
  rewrite !Hcfg. sdk_run. cbn [remote sdk_calls sdk_log].
  repeat match goal with
         | |- context [match remote s ?l ?c with _ => _ end] =>
             destruct (remote s l c) as [?|?] eqn:?; sdk_run;
             cbn [remote sdk_calls sdk_log]
         end;
    rewrite <- ?app_assoc in *; cbn [app] in *;
    repeat match goal with
           | H : remote s ?l ?c = _ |- context [remote s ?l ?c] => rewrite H
           end;
    sdk_done.
Qed.

